(** * cheapskate: tag codec and scheduling engine of [cheapskate.py]

    A shallow embedding of the class [Instance] of [cheapskate.py] and the
    properties of its policy tag codec and of its scheduling decisions.

    Conventions of the model.
    - A Python [str] is a [string]; every character is read as the code
      point of its byte (0..255).
    - A Python [dict] is an association list in insertion order: assigning
      to a key already present keeps its position, a new key goes last.
    - The module is read as Python 3, as its first line asks: [/] between
      numbers is true division.
    - A number ([hours], [price]) is an exact rational; the rounding of
      binary floating point is not modelled.
    - A [datetime] is the number of microseconds since 0001-01-01T00:00:00,
      a [timedelta] a number of microseconds.
    - Mutable objects live in a store: an [Instance] holds the location of
      its [cheapskate] dictionary.  The wall clock, the provider command
      line, the uwsgi cache and the class attribute [_objects] are fields of
      the [World] that every method threads through. *)

From Stdlib Require Import ZArith QArith Qabs String Ascii DecimalString List Lia Bool.
From stdpp Require Import base option gmap.
Import ListNotations.

Local Open Scope Z_scope.

(** ** Characters and strings *)

Module Str.

Definition code (c : ascii) : Z := Z.of_nat (nat_of_ascii c).

(** [str.isspace] on one character, for the code points below 256. *)
Definition isspace (c : ascii) : bool :=
  let n := code c in
  ((9 <=? n) && (n <=? 13)) || ((28 <=? n) && (n <=? 32))
  || (n =? 133) || (n =? 160).

Definition digit_val (c : ascii) : Z := code c - 48.

Definition digit_char (d : Z) : ascii := ascii_of_nat (Z.to_nat (48 + d)).

(** [s.split(sep)] for a separator of one character. *)
Fixpoint split (sep : ascii) (s : string) : list string :=
  match s with
  | EmptyString => [EmptyString]
  | String c s' =>
      if Ascii.eqb c sep then EmptyString :: split sep s'
      else match split sep s' with
           | [] => [String c EmptyString]
           | x :: xs => String c x :: xs
           end
  end.

(** [sep.join(l)]. *)
Fixpoint join (sep : string) (l : list string) : string :=
  match l with
  | [] => EmptyString
  | [x] => x
  | x :: xs => String.append x (String.append sep (join sep xs))
  end.

Fixpoint lstrip (s : string) : string :=
  match s with
  | EmptyString => EmptyString
  | String c s' => if isspace c then lstrip s' else s
  end.

Fixpoint rstrip (s : string) : string :=
  match s with
  | EmptyString => EmptyString
  | String c s' =>
      match rstrip s' with
      | EmptyString => if isspace c then EmptyString else String c EmptyString
      | r => String c r
      end
  end.

(** [s.strip()]. *)
Definition strip (s : string) : string := rstrip (lstrip s).

(** [c in s]. *)
Fixpoint contains (c : ascii) (s : string) : bool :=
  match s with
  | EmptyString => false
  | String c' s' => Ascii.eqb c' c || contains c s'
  end.

Definition dquote : string := String (ascii_of_nat 34) EmptyString.

End Str.

(** ** Exceptions and results *)

Inductive exn : Set :=
| ValueError | KeyError | TypeError | OverflowError | ZeroDivisionError
| CalledProcessError.

Inductive result (A : Type) : Type :=
| Ok (a : A)
| Raise (e : exn).
Arguments Ok {A} a.
Arguments Raise {A} e.

Definition rbind {A B} (r : result A) (f : A -> result B) : result B :=
  match r with
  | Ok a => f a
  | Raise e => Raise e
  end.

Fixpoint rmap_list {A B} (f : A -> result B) (l : list A) : result (list B) :=
  match l with
  | [] => Ok []
  | x :: xs =>
      rbind (f x) (fun y => rbind (rmap_list f xs) (fun ys => Ok (y :: ys)))
  end.

(** ** Dictionaries *)

Module Dict.

Section Generic.
Context {V : Type}.

Definition t := list (string * V).

Fixpoint get (k : string) (d : t) : option V :=
  match d with
  | [] => None
  | (k', v) :: d' => if String.eqb k' k then Some v else get k d'
  end.

(** [d[k] = v] *)
Fixpoint set (k : string) (v : V) (d : t) : t :=
  match d with
  | [] => [(k, v)]
  | (k', v') :: d' =>
      if String.eqb k' k then (k', v) :: d' else (k', v') :: set k v d'
  end.

(** [d.update(e)] *)
Definition update (d e : t) : t :=
  fold_left (fun acc kv => set (fst kv) (snd kv) acc) e d.

(** [dict(pairs)] *)
Definition of_pairs (l : list (string * V)) : t := update [] l.

Definition keys (d : t) : list string := map fst d.

Definition mem (k : string) (l : list string) : bool :=
  existsb (String.eqb k) l.

End Generic.
Arguments t V : clear implicits.

End Dict.

(** ** Dates and times

    The part of Python's [datetime] module that [cheapskate.py] uses.  The
    calendar arithmetic follows the module's [_ymd2ord] and [_ord2ymd]. *)

Module DT.

Definition US_PER_SECOND : Z := 1000000.
Definition US_PER_MINUTE : Z := 60000000.
Definition US_PER_HOUR : Z := 3600000000.
Definition US_PER_DAY : Z := 86400000000.

Definition is_leap (year : Z) : bool :=
  (year mod 4 =? 0) && (negb (year mod 100 =? 0) || (year mod 400 =? 0)).

Definition days_before_year (year : Z) : Z :=
  let y := year - 1 in y * 365 + y / 4 - y / 100 + y / 400.

Definition DAYS_IN_MONTH (month : Z) : Z :=
  match month with
  | 1 => 31 | 2 => 28 | 3 => 31 | 4 => 30 | 5 => 31 | 6 => 30
  | 7 => 31 | 8 => 31 | 9 => 30 | 10 => 31 | 11 => 30 | 12 => 31
  | _ => -1
  end.

Definition DAYS_BEFORE_MONTH (month : Z) : Z :=
  match month with
  | 1 => 0 | 2 => 31 | 3 => 59 | 4 => 90 | 5 => 120 | 6 => 151
  | 7 => 181 | 8 => 212 | 9 => 243 | 10 => 273 | 11 => 304 | 12 => 334
  | _ => -1
  end.

Definition days_in_month (year month : Z) : Z :=
  if (month =? 2) && is_leap year then 29 else DAYS_IN_MONTH month.

Definition days_before_month (year month : Z) : Z :=
  DAYS_BEFORE_MONTH month + (if (2 <? month) && is_leap year then 1 else 0).

Definition ymd2ord (year month day : Z) : Z :=
  days_before_year year + days_before_month year month + day.

Definition DI400Y : Z := 146097.
Definition DI100Y : Z := 36524.
Definition DI4Y : Z := 1461.

Definition ord2ymd (ordinal : Z) : Z * Z * Z :=
  let n := ordinal - 1 in
  let n400 := n / DI400Y in
  let n := n mod DI400Y in
  let year := n400 * 400 + 1 in
  let n100 := n / DI100Y in
  let n := n mod DI100Y in
  let n4 := n / DI4Y in
  let n := n mod DI4Y in
  let n1 := n / 365 in
  let n := n mod 365 in
  let year := year + n100 * 100 + n4 * 4 + n1 in
  if (n1 =? 4) || (n100 =? 4) then (year - 1, 12, 31)
  else
    let leapyear := (n1 =? 3) && (negb (n4 =? 24) || (n100 =? 3)) in
    let month := (n + 50) / 32 in
    let preceding :=
      DAYS_BEFORE_MONTH month + (if (2 <? month) && leapyear then 1 else 0) in
    if n <? preceding then
      let month := month - 1 in
      let preceding :=
        preceding
        - (DAYS_IN_MONTH month + (if (month =? 2) && leapyear then 1 else 0)) in
      (year, month, n - preceding + 1)
    else (year, month, n - preceding + 1).

(** A naive [datetime]: microseconds since 0001-01-01T00:00:00. *)
Definition datetime := Z.
Definition timedelta := Z.

Definition MAXORDINAL : Z := 3652059.
Definition MAX_US : Z := MAXORDINAL * US_PER_DAY.

Definition in_range (t : datetime) : bool := (0 <=? t) && (t <? MAX_US).

(** [datetime(year, month, day, hour, minute, second, microsecond)] *)
Definition make (year month day hour minute second us : Z) : result datetime :=
  if (1 <=? year) && (year <=? 9999) && (1 <=? month) && (month <=? 12)
     && (1 <=? day) && (day <=? days_in_month year month)
     && (0 <=? hour) && (hour <=? 23) && (0 <=? minute) && (minute <=? 59)
     && (0 <=? second) && (second <=? 59) && (0 <=? us) && (us <=? 999999)
  then Ok ((ymd2ord year month day - 1) * US_PER_DAY + hour * US_PER_HOUR
           + minute * US_PER_MINUTE + second * US_PER_SECOND + us)
  else Raise ValueError.

(** [t.time()], as microseconds since midnight. *)
Definition time (t : datetime) : Z := t mod US_PER_DAY.

(** [t.weekday()]: Monday is 0. *)
Definition weekday (t : datetime) : Z := (t / US_PER_DAY) mod 7.

(** [t + d]; a result outside years 1..9999 is an [OverflowError]. *)
Definition add (t : datetime) (d : timedelta) : result datetime :=
  if in_range (t + d) then Ok (t + d) else Raise OverflowError.

(** [(a - b).seconds]: the seconds field of the normalised difference. *)
Definition sub_seconds (a b : datetime) : Z :=
  ((a - b) mod US_PER_DAY) / US_PER_SECOND.

Definition round_half_even (q : Q) : Z :=
  let n := Qnum q in
  let d := Zpos (Qden q) in
  let fl := n / d in
  match 2 * (n mod d) ?= d with
  | Lt => fl
  | Gt => fl + 1
  | Eq => if Z.even fl then fl else fl + 1
  end.

(** [timedelta(hours=h)]: rounded to the microsecond, at most 999999999
    days in magnitude. *)
Definition timedelta_hours (h : Q) : result timedelta :=
  let us := round_half_even (h * inject_Z US_PER_HOUR)%Q in
  if Z.abs (us / US_PER_DAY) <=? 999999999 then Ok us else Raise OverflowError.

(** *** Formatting *)

Definition pad2 (n : Z) : string :=
  String (Str.digit_char ((n / 10) mod 10))
    (String (Str.digit_char (n mod 10)) EmptyString).

Definition pad4 (n : Z) : string :=
  String (Str.digit_char ((n / 1000) mod 10))
    (String (Str.digit_char ((n / 100) mod 10)) (pad2 n)).

(** [dt.strftime(t, '%Y-%m-%dT%H:%M')]; the year is written with four
    digits. *)
Definition strftime (t : datetime) : string :=
  let '(y, m, d) := ord2ymd (t / US_PER_DAY + 1) in
  let r := t mod US_PER_DAY in
  (pad4 y ++ "-" ++ pad2 m ++ "-" ++ pad2 d ++ "T"
   ++ pad2 (r / US_PER_HOUR) ++ ":" ++ pad2 ((r / US_PER_MINUTE) mod 60))%string.

(** *** Parsing

    [strptime] compiles the format to a regular expression, one group per
    directive, and requires the match to cover the whole string.  In the
    formats below every group is followed by a literal that none of its
    alternatives can start or continue with (or by the end of the string),
    so trying the alternatives in order, without backtracking into an
    earlier group, decides the match. *)

Definition parser := string -> option (Z * string).

Definition one (lo hi : ascii) : parser := fun s =>
  match s with
  | String c r =>
      if (Str.code lo <=? Str.code c) && (Str.code c <=? Str.code hi)
      then Some (Str.digit_val c, r) else None
  | EmptyString => None
  end.

Definition two (lo1 hi1 lo2 hi2 : ascii) : parser := fun s =>
  '(a, r) ← one lo1 hi1 s;
  '(b, r') ← one lo2 hi2 r;
  Some (10 * a + b, r').

Definition orelse (p q : parser) : parser := fun s =>
  match p s with
  | Some x => Some x
  | None => q s
  end.

(** A literal of the format; the expression is compiled with
    [re.IGNORECASE]. *)
Definition lit (c : ascii) (s : string) : option string :=
  match s with
  | String c' r =>
      if Ascii.eqb c' c then Some r
      else if (65 <=? Str.code c) && (Str.code c <=? 90)
              && (Str.code c' =? Str.code c + 32)
           then Some r else None
  | EmptyString => None
  end.

(** [%Y]: [\d\d\d\d] *)
Definition re_Y : parser := fun s =>
  '(a, r) ← two "0" "9" "0" "9" s;
  '(b, r') ← two "0" "9" "0" "9" r;
  Some (100 * a + b, r').

(** [%m]: [1[0-2]|0[1-9]|[1-9]] *)
Definition re_m : parser :=
  orelse (two "1" "1" "0" "2") (orelse (two "0" "0" "1" "9") (one "1" "9")).

(** [%d]: [3[0-1]|[1-2]\d|0[1-9]|[1-9]| [1-9]] *)
Definition re_d : parser :=
  orelse (two "3" "3" "0" "1")
    (orelse (two "1" "2" "0" "9")
       (orelse (two "0" "0" "1" "9")
          (orelse (one "1" "9") (fun s => r ← lit " " s; one "1" "9" r)))).

(** [%H]: [2[0-3]|[0-1]\d|\d] *)
Definition re_H : parser :=
  orelse (two "2" "2" "0" "3") (orelse (two "0" "1" "0" "9") (one "0" "9")).

(** [%M]: [[0-5]\d|\d] *)
Definition re_M : parser := orelse (two "0" "5" "0" "9") (one "0" "9").

(** [%S]: [6[0-1]|[0-5]\d|\d] *)
Definition re_S : parser :=
  orelse (two "6" "6" "0" "1") (orelse (two "0" "5" "0" "9") (one "0" "9")).

(** [%f]: [[0-9]{1,6}], the digits read as a fraction of a second. *)
Fixpoint digits_upto (n : nat) (scale acc : Z) (s : string) : Z * string :=
  match n with
  | O => (acc * scale, s)
  | S n' =>
      match one "0" "9" s with
      | Some (d, r) => digits_upto n' (scale / 10) (10 * acc + d) r
      | None => (acc * scale, s)
      end
  end.

Definition re_f : parser := fun s =>
  '(d, r) ← one "0" "9" s;
  Some (digits_upto 5 100000 d r).

Definition of_option {A} (o : option A) : result A :=
  match o with
  | Some a => Ok a
  | None => Raise ValueError
  end.

(** [dt.strptime(s, '%Y-%m-%dT%H:%M')]; every failure is a [ValueError]. *)
Definition strptime (s : string) : result datetime :=
  rbind
    (of_option
       ('(Y, r) ← re_Y s; r ← lit "-" r;
        '(m, r) ← re_m r; r ← lit "-" r;
        '(d, r) ← re_d r; r ← lit "T" r;
        '(H, r) ← re_H r; r ← lit ":" r;
        '(M, r) ← re_M r;
        match r with
        | EmptyString => Some (Y, m, d, H, M)
        | _ => None
        end))
    (fun '(Y, m, d, H, M) => make Y m d H M 0 0).

(** [dt.strptime(s, '%Y-%m-%dT%H:%M:%S.%fZ')] *)
Definition strptime_launch (s : string) : result datetime :=
  rbind
    (of_option
       ('(Y, r) ← re_Y s; r ← lit "-" r;
        '(m, r) ← re_m r; r ← lit "-" r;
        '(d, r) ← re_d r; r ← lit "T" r;
        '(H, r) ← re_H r; r ← lit ":" r;
        '(M, r) ← re_M r; r ← lit ":" r;
        '(Sec, r) ← re_S r; r ← lit "." r;
        '(f, r) ← re_f r; r ← lit "Z" r;
        match r with
        | EmptyString => Some (Y, m, d, H, M, Sec, f)
        | _ => None
        end))
    (fun '(Y, m, d, H, M, Sec, f) => make Y m d H M Sec f).

(** [dt.strptime(s, '%H:%M')]: the date defaults to 1900-01-01. *)
Definition strptime_HM (s : string) : result datetime :=
  rbind
    (of_option
       ('(H, r) ← re_H s; r ← lit ":" r;
        '(M, r) ← re_M r;
        match r with
        | EmptyString => Some (H, M)
        | _ => None
        end))
    (fun '(H, M) => make 1900 1 1 H M 0 0).

End DT.

(** ** Values and the provider's data *)

(** Modelled from the spec: the price catalog [ec2prices.json] is not among
    the sources.  An entry of the catalog is kept as its key and the hourly
    price in USD of its first pricing dimension, a decimal number; the
    [jsonpath] queries of [__init__] that extract that price, and the
    assignment to [product["terms"]], are not modelled. *)
Record Product : Type := mkProduct {
  product_key : string;
  USD : Q
}.

(** What a [cheapskate] dictionary holds: strings, and after [as_dict] the
    catalog entry under ["product"]. *)
Inductive value : Type :=
| VStr (s : string)
| VProduct (p : Product).

Abbreviation dict := (Dict.t value).

(** One element of [Reservations[*].Instances] in the provider's listing. *)
Record InstanceData : Type := mkInstanceData {
  InstanceId : string;
  Tags : option (list (string * string));
  InstanceType : string;
  Platform : option string;
  StateCode : Z;
  StateName : string;
  LaunchTime : string
}.

Definition loc := nat.

Record Instance : Type := mkInstance {
  instance_id : string;
  raw : InstanceData;
  cheapskate : loc;
  name : string;
  product : Product;
  price : Q
}.

(** ** The world

    [heap] stores the dictionaries, [next] is the next free location.
    [clock] is the sequence of readings that successive calls of [dt.now()]
    return and [ticks] counts the readings taken.  [aws n cmd] is the
    outcome of running the command line [cmd] as the [n]-th subprocess:
    its output, or [None] for a non-zero exit status.  [calls] lists the
    commands run, [stdout] the lines printed, most recent first.
    [raw_aws] is the uwsgi cache entry of that name and [cls_objects] the
    class attribute [_objects].  [json_loads] decodes a listing and
    [PRODUCTS] is the price catalog; no method writes them. *)
Record World : Type := mkWorld {
  heap : gmap loc dict;
  next : loc;
  clock : nat -> DT.datetime;
  ticks : nat;
  aws : nat -> list string -> option string;
  calls : list (list string);
  stdout : list string;
  raw_aws : option string;
  cls_objects : option (Dict.t Instance);
  json_loads : string -> list (list InstanceData);
  PRODUCTS : Dict.t Product
}.

Definition with_heap (h : gmap loc dict) (n : loc) (w : World) : World :=
  mkWorld h n (clock w) (ticks w) (aws w) (calls w) (stdout w) (raw_aws w)
    (cls_objects w) (json_loads w) (PRODUCTS w).

Definition with_ticks (t : nat) (w : World) : World :=
  mkWorld (heap w) (next w) (clock w) t (aws w) (calls w) (stdout w)
    (raw_aws w) (cls_objects w) (json_loads w) (PRODUCTS w).

Definition with_calls (c : list (list string)) (w : World) : World :=
  mkWorld (heap w) (next w) (clock w) (ticks w) (aws w) c (stdout w)
    (raw_aws w) (cls_objects w) (json_loads w) (PRODUCTS w).

Definition with_stdout (o : list string) (w : World) : World :=
  mkWorld (heap w) (next w) (clock w) (ticks w) (aws w) (calls w) o
    (raw_aws w) (cls_objects w) (json_loads w) (PRODUCTS w).

Definition with_raw_aws (r : option string) (w : World) : World :=
  mkWorld (heap w) (next w) (clock w) (ticks w) (aws w) (calls w) (stdout w)
    r (cls_objects w) (json_loads w) (PRODUCTS w).

Definition with_cls_objects (o : option (Dict.t Instance)) (w : World) : World :=
  mkWorld (heap w) (next w) (clock w) (ticks w) (aws w) (calls w) (stdout w)
    (raw_aws w) o (json_loads w) (PRODUCTS w).

(** ** The monad of methods: state, and exceptions that keep the state *)

Definition M (A : Type) : Type := World -> result A * World.

Definition ret {A} (a : A) : M A := fun w => (Ok a, w).

Definition bind {A B} (m : M A) (f : A -> M B) : M B := fun w =>
  match m w with
  | (Ok a, w') => f a w'
  | (Raise e, w') => (Raise e, w')
  end.

Definition raise {A} (e : exn) : M A := fun w => (Raise e, w).

Definition lift {A} (r : result A) : M A := fun w => (r, w).

Definition exn_eqb (a b : exn) : bool :=
  match a, b with
  | ValueError, ValueError | KeyError, KeyError | TypeError, TypeError
  | OverflowError, OverflowError | ZeroDivisionError, ZeroDivisionError
  | CalledProcessError, CalledProcessError => true
  | _, _ => false
  end.

(** [try: body except e: handler] *)
Definition try_except {A} (body : M A) (e : exn) (handler : M A) : M A :=
  fun w =>
    match body w with
    | (Raise e', w') => if exn_eqb e' e then handler w' else (Raise e', w')
    | r => r
    end.

Declare Scope py_scope.
Delimit Scope py_scope with py.
Notation "x <- c ;; k" := (bind c (fun x => k))
  (at level 100, c at next level, right associativity) : py_scope.
Notation "c ;; k" := (bind c (fun _ => k))
  (at level 100, right associativity) : py_scope.
Local Open Scope py_scope.

(** *** Primitive effects *)

(** [dt.now()] *)
Definition dt_now : M DT.datetime := fun w =>
  (Ok (clock w (ticks w)), with_ticks (S (ticks w)) w).

(** [subprocess.check_output(cmd)] *)
Definition check_output (cmd : list string) : M string := fun w =>
  let w' := with_calls (cmd :: calls w) w in
  match aws w (length (calls w)) cmd with
  | Some out => (Ok out, w')
  | None => (Raise CalledProcessError, w')
  end.

Definition print (line : string) : M unit := fun w =>
  (Ok tt, with_stdout (line :: stdout w) w).

Definition alloc (d : dict) : M loc := fun w =>
  (Ok (next w), with_heap (<[next w := d]> (heap w)) (S (next w)) w).

(** Reading the object at a location; a method only holds locations of
    objects that exist, so the [KeyError] here is never raised. *)
Definition deref (l : loc) : M dict := fun w =>
  match heap w !! l with
  | Some d => (Ok d, w)
  | None => (Raise KeyError, w)
  end.

Definition store (l : loc) (d : dict) : M unit := fun w =>
  (Ok tt, with_heap (<[l := d]> (heap w)) (next w) w).

(** [d[k]] for the dictionary at [l] *)
Definition getitem (l : loc) (k : string) : M value :=
  d <- deref l ;;
  match Dict.get k d with
  | Some v => ret v
  | None => raise KeyError
  end.

(** [d[k] = v] for the dictionary at [l] *)
Definition setitem (l : loc) (k : string) (v : value) : M unit :=
  d <- deref l ;; store l (Dict.set k v d).

(** [v == s] for a string [s] *)
Definition eq_str (v : value) (s : string) : bool :=
  match v with
  | VStr s' => String.eqb s' s
  | VProduct _ => false
  end.

(** [dt.strptime(v, DATEFORMAT)]: a [TypeError] unless [v] is a string. *)
Definition strptime_value (v : value) : result DT.datetime :=
  match v with
  | VStr s => DT.strptime s
  | VProduct _ => Raise TypeError
  end.

(** ["{}".format(v)]; the rendering of a catalog entry is not modelled. *)
Definition format_value (v : value) : string :=
  match v with
  | VStr s => s
  | VProduct p => product_key p
  end.

Definition gets {A} (f : World -> A) : M A := fun w => (Ok (f w), w).

Definition modify (f : World -> World) : M unit := fun w => (Ok tt, f w).

(** [for x in l: acc = f acc x] *)
Fixpoint foldM {A B} (f : B -> A -> M B) (l : list A) (acc : B) : M B :=
  match l with
  | [] => ret acc
  | x :: xs => acc' <- f acc x ;; foldM f xs acc'
  end.

(** *** Numbers and their renderings *)

(** [int(q)]: truncation towards zero. *)
Definition int (q : Q) : Z := Z.quot (Qnum q) (Zpos (Qden q)).

(** [a / b] on numbers *)
Definition true_div (a b : Q) : result Q :=
  if Qeq_bool b 0 then Raise ZeroDivisionError else Ok (a / b)%Q.

Definition decimal (n : Z) : string :=
  NilZero.string_of_uint (N.to_uint (Z.to_N n)).

(** ["%.3f" % q] *)
Definition format_3f (q : Q) : string :=
  let n := DT.round_half_even (Qabs q * inject_Z 1000)%Q in
  let sign := if Qnum q <? 0 then "-"%string else ""%string in
  (sign ++ decimal (n / 1000) ++ "."
   ++ String (Str.digit_char ((n / 100) mod 10)) (DT.pad2 n))%string.

(** [s.title()] for words of ASCII letters; other characters are kept and
    separate words. *)
Definition is_upper (c : ascii) : bool :=
  (65 <=? Str.code c) && (Str.code c <=? 90).
Definition is_lower (c : ascii) : bool :=
  (97 <=? Str.code c) && (Str.code c <=? 122).
Definition upper (c : ascii) : ascii :=
  if is_lower c then ascii_of_nat (nat_of_ascii c - 32) else c.
Definition lower (c : ascii) : ascii :=
  if is_upper c then ascii_of_nat (nat_of_ascii c + 32) else c.

Fixpoint title_from (previous_is_cased : bool) (s : string) : string :=
  match s with
  | EmptyString => EmptyString
  | String c s' =>
      String (if previous_is_cased then lower c else upper c)
        (title_from (is_upper c || is_lower c) s')
  end.

Definition title (s : string) : string := title_from false s.

(** ** The class [Instance] *)

Definition CHEAPSKATE : dict :=
  [("grp", VStr "1"); ("user", VStr ""); ("off", VStr ""); ("req", VStr "")]%string.
Definition COSTTHRESHOLD : Z := 20.
Definition BUSINESSHOURSTART : string := "06:30".
Definition BUSINESSHOUREND : string := "18:30".
(** [range(0,5)]: Monday to Friday *)
Definition BUSINESSDAYSOFWEEK (d : Z) : bool := (0 <=? d) && (d <? 5).

(** [[a for a in tags if a["Key"] == key][0]["Value"]], guarded by
    [key in [a["Key"] for a in tags]] *)
Fixpoint tag_value (key : string) (tags : list (string * string)) : option string :=
  match tags with
  | [] => None
  | (k, v) :: tags' => if String.eqb k key then Some v else tag_value key tags'
  end.

(** [dict([a.split("=") for a in cheapskate_raw.split("/")])]: an entry that
    does not split in two is a [ValueError]. *)
Definition entries (cheapskate_raw : string) : result dict :=
  rbind
    (rmap_list
       (fun a => match Str.split "=" a with
                 | [k; v] => Ok (k, VStr v)
                 | _ => Raise ValueError
                 end)
       (Str.split "/" cheapskate_raw))
    (fun pairs => Ok (Dict.of_pairs pairs)).

(** Lines 34 to 36 of [__init__]: the value of the tag, stripped and if not
    empty split into entries, is laid over the dictionary [d]. *)
Definition update_from_tag (tag : string) (d : dict) : result dict :=
  let cheapskate_raw := Str.strip tag in
  if String.eqb cheapskate_raw "" then Ok d
  else rbind (entries cheapskate_raw) (fun e => Ok (Dict.update d e)).

(** The policy that [__init__] reads from the value of the tag: the
    defaults, overlaid with the entries of the tag. *)
Definition decode (tag : string) : result dict := update_from_tag tag CHEAPSKATE.

Definition Instance_init (instance_data : InstanceData) : M Instance :=
  let instance_id := InstanceId instance_data in
  self_cheapskate <- alloc CHEAPSKATE ;;
  tags <- lift (match Tags instance_data with
                | Some t => Ok t
                | None => Raise KeyError
                end) ;;
  match tag_value "cheapskate" tags with
  | Some v =>
      d <- deref self_cheapskate ;;
      d' <- lift (update_from_tag v d) ;;
      store self_cheapskate d'
  | None => ret tt
  end ;;
  let name := match tag_value "Name" tags with
              | Some v => Str.strip v
              | None => ""%string
              end in
  let product_key :=
    (InstanceType instance_data ++ "."
     ++ title (match Platform instance_data with
               | Some p => p
               | None => "linux"
               end))%string in
  catalog <- gets PRODUCTS ;;
  product <- lift (match Dict.get product_key catalog with
                   | Some p => Ok p
                   | None => Raise KeyError
                   end) ;;
  ret (mkInstance instance_id instance_data self_cheapskate name product
         (USD product)).

(** [key + "=" + value]: a [TypeError] unless the value is a string. *)
Definition emit_item (kv : string * value) : result string :=
  let '(key, v) := kv in
  match v with
  | VStr s => Ok (key ++ "=" ++ s)%string
  | VProduct _ => Raise TypeError
  end.

(** The value that [save] writes to the tag: [key=value] for the keys of
    [CHEAPSKATE], joined by [/]. *)
Definition cheapskate_raw (d : dict) : result string :=
  rbind
    (rmap_list emit_item
       (List.filter (fun '(key, _) => Dict.mem key (Dict.keys CHEAPSKATE)) d))
    (fun l => Ok (Str.join "/" l)).

Definition encode (d : dict) : result string := cheapskate_raw d.

(** The command lines handed to [subprocess.check_output]. *)
Definition create_tags (id cheapskate_raw : string) : list string :=
  ["aws"; "ec2"; "create-tags"; "--resources"; id; "--tags";
   "Key=cheapskate,Value=" ++ Str.dquote ++ cheapskate_raw ++ Str.dquote]%string.
Definition describe_instances : list string :=
  ["aws"; "ec2"; "describe-instances"; "--no-paginate"]%string.
Definition start_instances (id : string) : list string :=
  ["aws"; "ec2"; "start-instances"; "--instance-ids"; id]%string.
Definition stop_instances (id : string) : list string :=
  ["aws"; "ec2"; "stop-instances"; "--instance-ids"; id]%string.

Definition save (self : Instance) : M unit :=
  d <- deref (cheapskate self) ;;
  cheapskate_raw <- lift (cheapskate_raw d) ;;
  check_output (create_tags (instance_id self) cheapskate_raw) ;;
  modify (with_raw_aws None).

Definition build_objects (datas : list InstanceData) : M (Dict.t Instance) :=
  foldM (fun objects instance_data =>
           instance <- Instance_init instance_data ;;
           ret (Dict.set (instance_id instance) instance objects))
    datas [].

Definition objects : M (Dict.t Instance) :=
  cached <- gets raw_aws ;;
  bytes <- match cached with
           | Some b => ret b
           | None =>
               modify (with_cls_objects None) ;;
               out <- check_output describe_instances ;;
               modify (with_raw_aws (Some out)) ;;
               ret out
           end ;;
  loads <- gets json_loads ;;
  let raw := loads bytes in
  memo <- gets cls_objects ;;
  match memo with
  | Some objs => ret objs
  | None =>
      objs <- build_objects (concat raw) ;;
      modify (with_cls_objects (Some objs)) ;;
      ret objs
  end.

(** [as_dict] returns the location of [self.cheapskate] itself. *)
Definition as_dict (self : Instance) : M loc :=
  let data := cheapskate self in
  setitem data "name" (VStr (name self)) ;;
  setitem data "id" (VStr (instance_id self)) ;;
  setitem data "status" (VStr (StateName (raw self))) ;;
  setitem data "type" (VStr (InstanceType (raw self))) ;;
  launch <- lift (DT.strptime_launch (LaunchTime (raw self))) ;;
  setitem data "launchtime" (VStr (DT.strftime launch)) ;;
  setitem data "hourlycost" (VStr (format_3f (price self))) ;;
  setitem data "product" (VProduct (product self)) ;;
  ret data.

Definition objects_list : M (list loc) :=
  objs <- objects ;;
  foldM (fun acc '(_, i) => d <- as_dict i ;; ret (acc ++ [d])) objs [].

Definition save_all : M unit :=
  objs <- objects ;;
  foldM (fun _ '(_, instance) => save instance) objs tt.

Definition start (self : Instance) : M string :=
  check_output (start_instances (instance_id self)).

(** [float(self.price) * int(hours) >= float(Instance.COSTTHRESHOLD)] *)
Definition over_threshold (self : Instance) (hours : Q) : bool :=
  Qle_bool (inject_Z COSTTHRESHOLD) (price self * inject_Z (int hours)).

(** [update(self, user, hours, sysstart)]; [True] is [true]. *)
Definition update (self : Instance) (user : string) (hours : Q) (sysstart : Z)
  : M bool :=
  now <- dt_now ;;
  delta <- lift (DT.timedelta_hours hours) ;;
  reqtime <- lift (DT.add now delta) ;;
  later <- try_except
             (off <- getitem (cheapskate self) "off" ;;
              offtime <- lift (strptime_value off) ;;
              ret (reqtime <? offtime))
             ValueError
             (off <- getitem (cheapskate self) "off" ;;
              print ("invalid date format: " ++ format_value off) ;;
              ret false) ;;
  if later : bool then ret false
  else
    setitem (cheapskate self) "user" (VStr user) ;;
    setitem (cheapskate self) "req" (VStr (DT.strftime reqtime)) ;;
    (if (sysstart =? 0) && over_threshold self hours
     then
       now' <- dt_now ;;
       thresholdhours <- lift (true_div (inject_Z COSTTHRESHOLD) (price self)) ;;
       delta' <- lift (DT.timedelta_hours thresholdhours) ;;
       offtime <- lift (DT.add now' delta') ;;
       setitem (cheapskate self) "off" (VStr (DT.strftime offtime))
     else
       setitem (cheapskate self) "off" (VStr (DT.strftime reqtime))) ;;
    start self ;;
    save self ;;
    ret true.

(** What [shutdown] returns: [False], the output of the stop command,
    [json.dumps({"offtime": off})], or [None]. *)
Inductive shutdown_result : Type :=
| ReturnFalse
| ReturnOutput (result : string)
| ReturnOfftime (off : value)
| ReturnNone.

Definition shutdown (self : Instance) : M shutdown_result :=
  grp <- getitem (cheapskate self) "grp" ;;
  if eq_str grp "1" then ret ReturnFalse
  else if eq_str grp "0" || eq_str grp "2" then
    off <- getitem (cheapskate self) "off" ;;
    offtime <- lift (strptime_value off) ;;
    now <- dt_now ;;
    if offtime <? now then
      result <- check_output (stop_instances (instance_id self)) ;;
      save self ;;
      ret (ReturnOutput result)
    else
      off <- getitem (cheapskate self) "off" ;;
      ret (ReturnOfftime off)
  else ret ReturnNone.

(** The body of the loop of [shutdown_due], for one item of
    [cls.objects().items()]. *)
Definition shutdown_due_item (hours : Q) (results : Dict.t Instance)
  (item : string * Instance) : M (Dict.t Instance) :=
  let '(instanceid, instance) := item in
  grp <- getitem (cheapskate instance) "grp" ;;
  if negb (eq_str grp "1") && (StateCode (raw instance) =? 16) then
    try_except
      (off <- getitem (cheapskate instance) "off" ;;
       offtime <- lift (strptime_value off) ;;
       now <- dt_now ;;
       delta <- lift (DT.timedelta_hours hours) ;;
       limit <- lift (DT.add now delta) ;;
       if offtime <? limit
       then ret (Dict.set instanceid instance results)
       else ret results)
      ValueError
      (ret results)
  else ret results.

(** [shutdown_due(cls, hours=0)] *)
Definition shutdown_due (hours : Q) : M (Dict.t Instance) :=
  objs <- objects ;;
  foldM (shutdown_due_item hours) objs [].

(** [start_business_hours(cls)]: [None] stands for the [False] that the
    method returns outside business hours. *)
Definition start_business_hours : M (option (list string)) :=
  dtstart <- lift (DT.strptime_HM BUSINESSHOURSTART) ;;
  dtend <- lift (DT.strptime_HM BUSINESSHOUREND) ;;
  now <- dt_now ;;
  let hours := (DT.sub_seconds dtend now # 3600)%Q in
  today <- dt_now ;;
  if negb (BUSINESSDAYSOFWEEK (DT.weekday today)) then ret None
  else
    now <- dt_now ;;
    if DT.time now <? DT.time dtstart then ret None
    else
      now <- dt_now ;;
      if DT.time now >? DT.time dtend then ret None
      else
        objs <- objects ;;
        results <-
          foldM (fun results '(instanceid, instance) =>
                   grp <- getitem (cheapskate instance) "grp" ;;
                   if negb (eq_str grp "2")
                      || negb (StateCode (raw instance) =? 80)
                   then ret results
                   else
                     let results := results ++ [instanceid] in
                     update instance "Cheapskate" hours 1 ;;
                     ret results)
            objs [] ;;
        ret (Some results).

(** * Vocabulary of the statements *)

(** A policy: the four recognised keys, in the order of [CHEAPSKATE], which
    is the order every [cheapskate] dictionary keeps them in. *)
Definition policy (grp user off req : string) : dict :=
  [("grp", VStr grp); ("user", VStr user); ("off", VStr off);
   ("req", VStr req)]%string.

(** A value free of [/] and [=]. *)
Definition plain (v : string) : Prop :=
  Str.contains "/" v = false /\ Str.contains "=" v = false.

(** An entry of a tag, and the text [save] emits for it. *)
Definition entry_ok (kv : string * string) : Prop :=
  plain (fst kv) /\ plain (snd kv).

Definition emit (kv : string * string) : string :=
  (fst kv ++ "=" ++ snd kv)%string.

(** The instance has no later deadline than [reqtime]: its stored [off]
    parses to a time that is not later, or does not parse. *)
Definition no_later_deadline (off : value) (reqtime : DT.datetime) : Prop :=
  match strptime_value off with
  | Ok offtime => offtime <= reqtime
  | Raise e => e = ValueError
  end.

(** Every command line handed to the provider exits with status zero. *)
Definition provider_ok (w : World) : Prop :=
  forall n cmd, aws w n cmd <> None.

(** [save] can emit the dictionary: the values under the recognised keys
    are strings. *)
Definition encodable (d : dict) : Prop := exists raw, encode d = Ok raw.

(** An instance is due at [limit], in the words of the specification: its
    group is not DefaultOn (["1"]), its state code is running (16), and its
    [off] parses to a time strictly earlier than [limit]. *)
Definition is_due (h : gmap loc dict) (limit : DT.datetime) (i : Instance) : bool :=
  match h !! cheapskate i with
  | Some d =>
      match Dict.get "grp" d, Dict.get "off" d with
      | Some (VStr grp), Some (VStr off) =>
          negb (String.eqb grp "1") && (StateCode (raw i) =? 16)
          && match DT.strptime off with
             | Ok offtime => offtime <? limit
             | Raise _ => false
             end
      | _, _ => false
      end
  | None => false
  end.

(** The dictionary of every instance of an inventory is in the store and
    holds strings under [grp] and [off]. *)
Definition policies_stored (h : gmap loc dict) (objs : Dict.t Instance) : Prop :=
  forall id i, In (id, i) objs ->
    exists d grp off,
      h !! cheapskate i = Some d
      /\ Dict.get "grp" d = Some (VStr grp)
      /\ Dict.get "off" d = Some (VStr off).

(** A time of day, in microseconds since midnight. *)
Definition time_of_day (hour minute : Z) : Z :=
  hour * DT.US_PER_HOUR + minute * DT.US_PER_MINUTE.

(** A method that leaves the clock alone. *)
Definition keeps_clock {A} (m : M A) : Prop :=
  forall w r w', m w = (r, w') -> clock w' = clock w /\ ticks w' = ticks w.

(** *** Sample data for the concrete cases *)

(** 2026-11-04T21:09:00, a Wednesday. *)
Definition wednesday_evening : DT.datetime := 63929423340000000.

(** 2026-11-04T18:30:00, the end of the business hours of that Wednesday. *)
Definition wednesday_1830 : DT.datetime := 63929413800000000.

(** 2026-11-07T10:00:00, a Saturday. *)
Definition saturday_morning : DT.datetime := 63929642400000000.

Definition sample_data (id : string) (code : Z) : InstanceData :=
  mkInstanceData id (Some []) "t2.micro" None code
    (if code =? 16 then "running" else "stopped")
    "2026-10-01T08:09:10.000Z".

(** An instance of the given state code and hourly price whose [cheapskate]
    dictionary is at location [l]. *)
Definition sample_instance_at (id : string) (l : loc) (code : Z) (price : Q)
  : Instance :=
  mkInstance id (sample_data id code) l "web"
    (mkProduct "t2.micro.Linux" price) price.

Definition sample_instance (code : Z) (price : Q) : Instance :=
  sample_instance_at "i-1" 0%nat code price.

(** A world with the one instance [i] and its dictionary [d] at location
    0: the clock stands still at [now], the provider accepts every command
    and answers [{}], and the inventory is cached. *)
Definition sample_world (now : DT.datetime) (d : dict) (i : Instance) : World :=
  mkWorld {[0%nat := d]} 1%nat (fun _ => now) 0%nat (fun _ _ => Some "{}"%string)
    [] [] (Some "{}"%string) (Some [("i-1"%string, i)]) (fun _ => []) [].

(** Three running instances: DefaultOn with a deadline in the past,
    DefaultOff with a deadline in the past, DefaultOff with no deadline. *)
Definition sample_inventory : Dict.t Instance :=
  [("i-1", sample_instance_at "i-1" 0%nat 16 5);
   ("i-2", sample_instance_at "i-2" 1%nat 16 5);
   ("i-3", sample_instance_at "i-3" 2%nat 16 5)]%string.

Definition sample_inventory_world (now : DT.datetime) : World :=
  mkWorld
    (<[0%nat := policy "1" "" "2026-11-04T10:00" ""]>
       (<[1%nat := policy "0" "" "2026-11-04T10:00" ""]>
          {[2%nat := policy "0" "" "" ""]}))
    3%nat (fun _ => now) 0%nat (fun _ _ => Some "{}"%string)
    [] [] (Some "{}"%string) (Some sample_inventory) (fun _ => []) [].

(** * Further vocabulary

    The definitions that the further properties, at the end, are stated
    with: the bodies of the loops, the methods [tag_instance] and
    [__str__], and the conditions of the statements. *)

(** [s.count(c)] for one character. *)
Fixpoint count (c : ascii) (s : string) : nat :=
  match s with
  | EmptyString => O
  | String c' s' => if Ascii.eqb c' c then S (count c s') else count c s'
  end.

(** Every character of [s] is white space. *)
Fixpoint blank (s : string) : bool :=
  match s with
  | EmptyString => true
  | String c s' => Str.isspace c && blank s'
  end.

(** The values of a dictionary are strings. *)
Definition all_str (d : dict) : Prop :=
  Forall (fun kv => exists s, snd kv = VStr s) d.

(** No key of [d] is one that [save] emits. *)
Definition unrecognised (d : dict) : Prop :=
  Forall (fun kv => Dict.mem (fst kv) (Dict.keys CHEAPSKATE) = false) d.

(** The key of the price catalog that [__init__] looks up. *)
Definition product_key_of (data : InstanceData) : string :=
  (InstanceType data ++ "."
   ++ title (match Platform data with
             | Some p => p
             | None => "linux"
             end))%string.

(** The policy that [__init__] gives an instance with these tags. *)
Definition tag_policy (tags : list (string * string)) : result dict :=
  match tag_value "cheapskate" tags with
  | Some v => decode v
  | None => Ok CHEAPSKATE
  end.

(** The name that [__init__] gives an instance with these tags. *)
Definition tag_name (tags : list (string * string)) : string :=
  match tag_value "Name" tags with
  | Some v => Str.strip v
  | None => ""%string
  end.

(** The world after [__init__] has put the dictionary [d] at the next free
    location. *)
Definition init_world (d : dict) (w : World) : World :=
  with_heap (<[next w := d]> (heap w)) (S (next w)) w.

(** [__init__] can build an instance from [data]: it has tags, its
    [cheapskate] tag, if any, decodes, and its product is in the catalog. *)
Definition constructible (catalog : Dict.t Product) (data : InstanceData) : Prop :=
  exists tags d p,
    Tags data = Some tags
    /\ tag_policy tags = Ok d
    /\ Dict.get (product_key_of data) catalog = Some p.

(** The body of the loop of [objects]. *)
Definition build_step (objects : Dict.t Instance) (instance_data : InstanceData)
  : M (Dict.t Instance) :=
  instance <- Instance_init instance_data ;;
  ret (Dict.set (instance_id instance) instance objects).

(** A dictionary is a policy: strings only, one under each recognised key. *)
Definition policy_ok (d : dict) : Prop :=
  all_str d
  /\ forall k, In k (Dict.keys CHEAPSKATE) -> exists s, Dict.get k d = Some (VStr s).

(** An inventory in a world: the ids are distinct and each is that of its
    instance, and every instance has a policy of its own in the store. *)
Definition inventory_ok (w : World) (objs : Dict.t Instance) : Prop :=
  List.NoDup (Dict.keys objs)
  /\ (forall id i, In (id, i) objs ->
        instance_id i = id /\ InstanceId (raw i) = id
        /\ (cheapskate i < next w)%nat
        /\ exists d, heap w !! cheapskate i = Some d /\ policy_ok d)
  /\ (forall id i id' i', In (id, i) objs -> In (id', i') objs ->
        cheapskate i = cheapskate i' -> id = id').

(** *** A listing to fetch *)

Definition sample_catalog : Dict.t Product :=
  [("t2.micro.Linux", mkProduct "t2.micro.Linux" 5);
   ("m5.large.Windows", mkProduct "m5.large.Windows" (1 # 2))]%string.

(** Two reservations of one instance each: a stopped BusinessHours
    instance with a name, and a running instance without any tag. *)
Definition sample_listing : list (list InstanceData) :=
  [[mkInstanceData "i-1"
      (Some [("Name", " web "); ("cheapskate", "grp=2/off=2026-11-04T10:00")])
      "t2.micro" None 80 "stopped" "2026-10-01T08:09:10.000Z"];
   [mkInstanceData "i-2" (Some []) "m5.large" (Some "windows") 16 "running"
      "2026-10-02T08:09:10.000Z"]]%string.

(** A world with an empty store and nothing cached, whose provider answers
    [sample_listing]. *)
Definition cold_world (now : DT.datetime) : World :=
  mkWorld ∅ 0%nat (fun _ => now) 0%nat (fun _ _ => Some "{}"%string)
    [] [] None None (fun _ => sample_listing) sample_catalog.

(** The world after [save] of the sample instance with the default policy
    of group 0. *)
Definition sample_saved_world : World :=
  with_raw_aws None
    (with_calls [create_tags "i-1" "grp=0/user=/off=/req="]
       (sample_world wednesday_evening (policy "0" "" "" "")
          (sample_instance 16 5))).

(** The dictionary that [as_dict] leaves where [d] was. *)
Definition derived (self : Instance) (launch : DT.datetime) (d : dict) : dict :=
  Dict.set "product" (VProduct (product self))
    (Dict.set "hourlycost" (VStr (format_3f (price self)))
       (Dict.set "launchtime" (VStr (DT.strftime launch))
          (Dict.set "type" (VStr (InstanceType (raw self)))
             (Dict.set "status" (VStr (StateName (raw self)))
                (Dict.set "id" (VStr (instance_id self))
                   (Dict.set "name" (VStr (name self)) d)))))).

(** A method keeps the relation [R] between the world it starts in and the
    world it leaves, whether it returns or raises. *)
Definition preserves (R : World -> World -> Prop) {A} (m : M A) : Prop :=
  forall w r w', m w = (r, w') -> R w w'.

(** The commands that [update] runs for the instance [id]. *)
Definition own_command (id : string) (cmd : list string) : Prop :=
  cmd = start_instances id \/ exists raw, cmd = create_tags id raw.

(** What [update] may change for an instance whose dictionary is at [l]. *)
Definition update_frame (l : loc) (id : string) (w w' : World) : Prop :=
  (forall l', l' <> l -> heap w' !! l' = heap w !! l')
  /\ (forall d, heap w !! l = Some d ->
        exists d', heap w' !! l = Some d'
          /\ forall k, k <> "user"%string -> k <> "req"%string ->
                       k <> "off"%string -> Dict.get k d' = Dict.get k d)
  /\ next w' = next w
  /\ cls_objects w' = cls_objects w
  /\ exists cmds, calls w' = (cmds ++ calls w)%list /\ Forall (own_command id) cmds.

(** The sample world with a provider that refuses every command. *)
Definition refusing_world (now : DT.datetime) (d : dict) (i : Instance) : World :=
  mkWorld {[0%nat := d]} 1%nat (fun _ => now) 0%nat (fun _ _ => None)
    [] [] (Some "{}"%string) (Some [("i-1"%string, i)]) (fun _ => []) [].

(** The command with which [save] writes the tag of the instance [i], its
    dictionary being in the store [h]. *)
Definition tag_command (h : gmap loc dict) (i : Instance) : list string :=
  create_tags (instance_id i)
    match h !! cheapskate i with
    | Some d => match encode d with
                | Ok raw => raw
                | Raise _ => ""%string
                end
    | None => ""%string
    end.

(** The commands that [save_all] runs for the instances [objs], most recent
    first. *)
Definition tag_commands (h : gmap loc dict) (objs : Dict.t Instance)
  : list (list string) :=
  rev (map (fun x => tag_command h (snd x)) objs).

(** The body of the loop of [save_all]. *)
Definition save_item (_ : unit) (item : string * Instance) : M unit :=
  let '(_, instance) := item in save instance.

(** The world of the sample inventory with a provider that refuses the
    [k]-th command. *)
Definition inventory_world_refusing (k : nat) (now : DT.datetime) : World :=
  mkWorld (heap (sample_inventory_world now)) 3%nat (fun _ => now) 0%nat
    (fun n _ => if Nat.eqb n k then None else Some "{}"%string)
    [] [] (Some "{}"%string) (Some sample_inventory) (fun _ => []) [].

(** The body of the loop of [objects_list]. *)
Definition list_item (acc : list loc) (item : string * Instance) : M (list loc) :=
  let '(_, i) := item in d <- as_dict i ;; ret (acc ++ [d])%list.

(** The launch time that the provider reports for [i] parses. *)
Definition launch_parses (i : Instance) : Prop :=
  exists t, DT.strptime_launch (LaunchTime (raw i)) = Ok t.

(** The dictionary [d'] holds the policy of [d]: the same values under the
    recognised keys, and the same tag value for [save] to write. *)
Definition same_policy (d d' : dict) : Prop :=
  encode d' = encode d
  /\ forall k, In k (Dict.keys CHEAPSKATE) -> Dict.get k d' = Dict.get k d.

(** The store [h'] holds every dictionary of [h] with its group, still fit
    for [save] to emit and for [update] to read. *)
Definition heap_steady (h h' : gmap loc dict) : Prop :=
  forall l d, h !! l = Some d ->
    exists d', h' !! l = Some d'
      /\ Dict.get "grp" d' = Dict.get "grp" d
      /\ (encodable d -> encodable d')
      /\ ((exists s, Dict.get "off" d = Some (VStr s)) ->
          exists s, Dict.get "off" d' = Some (VStr s)).

(** The provider and the clock are the same, and the store is steady. *)
Definition steady (w w' : World) : Prop :=
  aws w' = aws w /\ clock w' = clock w /\ heap_steady (heap w) (heap w').

(** The test of line 117 lets the instance through: group 2 and stopped. *)
Definition stopped_business_hours (h : gmap loc dict) (i : Instance) : bool :=
  match h !! cheapskate i with
  | Some d =>
      match Dict.get "grp" d with
      | Some (VStr grp) => String.eqb grp "2" && (StateCode (raw i) =? 80)
      | _ => false
      end
  | None => false
  end.

(** The body of the loop of [start_business_hours]. *)
Definition business_item (hours : Q) (results : list string)
  (item : string * Instance) : M (list string) :=
  let '(instanceid, instance) := item in
  grp <- getitem (cheapskate instance) "grp" ;;
  if negb (eq_str grp "2") || negb (StateCode (raw instance) =? 80)
  then ret results
  else
    let results := (results ++ [instanceid])%list in
    update instance "Cheapskate" hours 1 ;;
    ret results.

(** A reading of the clock within the business hours of a business day. *)
Definition business_time (t : DT.datetime) : Prop :=
  BUSINESSDAYSOFWEEK (DT.weekday t) = true
  /\ time_of_day 6 30 <= DT.time t <= time_of_day 18 30.

(** 2026-11-04T12:00:00, a Wednesday. *)
Definition wednesday_noon : DT.datetime := 63929390400000000.

(** The month and the day of the month that [_ord2ymd] finds for the day
    [n] of a year, counted from 0. *)
Definition month_day (leapyear : bool) (n : Z) : Z * Z :=
  let month := (n + 50) / 32 in
  let preceding :=
    DT.DAYS_BEFORE_MONTH month + (if (2 <? month) && leapyear then 1 else 0) in
  if n <? preceding then
    let month := month - 1 in
    let preceding :=
      preceding
      - (DT.DAYS_IN_MONTH month + (if (month =? 2) && leapyear then 1 else 0)) in
    (month, n - preceding + 1)
  else (month, n - preceding + 1).

(** [month_day] is right for the day [n] of a year. *)
Definition month_day_ok (leapyear : bool) (n : Z) : bool :=
  let '(m, d) := month_day leapyear n in
  (1 <=? m) && (m <=? 12) && (1 <=? d)
  && (d <=? DT.DAYS_IN_MONTH m + (if (m =? 2) && leapyear then 1 else 0))
  && (DT.DAYS_BEFORE_MONTH m + (if (2 <? m) && leapyear then 1 else 0) + d
      =? n + 1).

(** [tag_instance(self, tagName, tagValue)] *)
Definition tag_instance (self : Instance) (tagName tagValue : string) : M string :=
  check_output
    ["aws"; "ec2"; "create-tags"; "--resources"; instance_id self; "--tags";
     "Key=" ++ tagName ++ ",Value=" ++ tagValue]%string.

(** What [__str__] gives: a string, or the [KeyError] of [raw["Tags"]], or
    the [IndexError] of the first element of an empty list. *)
Inductive str_result : Type :=
| StrOk (s : string)
| StrKeyError
| StrIndexError.

(** [__str__(self)] *)
Definition Instance_str (self : Instance) : str_result :=
  match Tags (raw self) with
  | None => StrKeyError
  | Some tags =>
      match tag_value "Name" tags with
      | Some v => StrOk (InstanceId (raw self) ++ " (" ++ v ++ ")")%string
      | None => StrIndexError
      end
  end.

(** A running instance with the given tags. *)
Definition tagged_data (tags : list (string * string)) : InstanceData :=
  mkInstanceData "i-7" (Some tags) "t2.micro" None 16 "running"
    "2026-10-01T08:09:10.000Z".

(** * Properties *)

(** ** Strings *)

Section StringFacts.

Local Open Scope string_scope.

Lemma split_absent sep s :
  Str.contains sep s = false -> Str.split sep s = [s].
Proof.
  induction s as [|c s IH]; simpl; [reflexivity|].
  intros H. apply orb_false_iff in H as [Hc Hs].
  rewrite Hc, (IH Hs). reflexivity.
Qed.

Lemma split_app sep a b :
  Str.contains sep a = false ->
  Str.split sep (a ++ String sep b) = a :: Str.split sep b.
Proof.
  induction a as [|c a IH]; simpl; intros H.
  - rewrite Ascii.eqb_refl. reflexivity.
  - apply orb_false_iff in H as [Hc Ha].
    rewrite Hc, (IH Ha). reflexivity.
Qed.

Lemma append_nonempty a b : b <> "" -> a ++ b <> "".
Proof. destruct a; simpl; [tauto | discriminate]. Qed.

Lemma rstrip_app a b :
  b <> "" -> Str.rstrip b = b -> Str.rstrip (a ++ b) = a ++ b.
Proof.
  intros Hne Hb. induction a as [|c a IH]; [exact Hb|].
  change (String c a ++ b) with (String c (a ++ b)).
  simpl. rewrite IH. destruct (a ++ b) eqn:E; [|reflexivity].
  exfalso. revert E. apply append_nonempty, Hne.
Qed.

Lemma rstrip_cons c s :
  Str.isspace c = false -> Str.rstrip s = s ->
  Str.rstrip (String c s) = String c s.
Proof. intros Hc Hs. simpl. rewrite Hs, Hc. destruct s; reflexivity. Qed.

End StringFacts.

(** ** The tag codec *)

Section Codec.

Local Open Scope string_scope.

Lemma split_join sep l :
  l <> [] -> Forall (fun s => Str.contains sep s = false) l ->
  Str.split sep (Str.join (String sep "") l) = l.
Proof.
  intros Hne Hall. induction Hall as [|x l Hx Hl IH]; [congruence|].
  destruct l as [|y l].
  - simpl. apply split_absent, Hx.
  - change (Str.join (String sep "") (x :: y :: l))
      with (x ++ String sep (Str.join (String sep "") (y :: l))).
    rewrite (split_app _ _ _ Hx), IH; [reflexivity | discriminate].
Qed.

(** A recognised entry [key=value] splits back into its key and value. *)
Lemma split_entry k v :
  Str.contains "=" k = false -> Str.contains "=" v = false ->
  Str.split "=" (k ++ "=" ++ v) = [k; v].
Proof.
  intros Hk Hv. change (k ++ "=" ++ v) with (k ++ String "=" v).
  rewrite (split_app _ _ _ Hk), (split_absent _ _ Hv). reflexivity.
Qed.

Lemma contains_app c a b :
  Str.contains c (a ++ b) = Str.contains c a || Str.contains c b.
Proof.
  induction a as [|x a IH]; [reflexivity|].
  change (String x a ++ b) with (String x (a ++ b)).
  simpl. rewrite IH. apply orb_assoc.
Qed.

Lemma entries_join kvs :
  kvs <> [] -> Forall entry_ok kvs ->
  entries (Str.join "/" (map emit kvs))
  = Ok (Dict.of_pairs (map (fun kv => (fst kv, VStr (snd kv))) kvs)).
Proof.
  intros Hne Hall. unfold entries.
  rewrite split_join.
  - assert (H : rmap_list
                  (fun a => match Str.split "=" a with
                            | [k; v] => Ok (k, VStr v)
                            | _ => Raise ValueError
                            end) (map emit kvs)
                = Ok (map (fun kv => (fst kv, VStr (snd kv))) kvs)).
    { clear Hne. induction Hall as [|[k v] l [[_ Hk] [_ Hv]] _ IH]; [reflexivity|].
      simpl in Hk, Hv. rewrite map_cons. unfold rmap_list; fold (@rmap_list string (string * value)).
      change (emit (k, v)) with (k ++ "=" ++ v).
      rewrite (split_entry _ _ Hk Hv). simpl. rewrite IH. reflexivity. }
    rewrite H. reflexivity.
  - destruct kvs; [congruence | discriminate].
  - apply Forall_map. eapply Forall_impl; [exact Hall|].
    intros [k v] [[Hk _] [Hv _]]. simpl in Hk, Hv.
    change (emit (k, v)) with (k ++ String "=" v).
    rewrite contains_app. simpl. rewrite Hk, Hv. reflexivity.
Qed.

Lemma encode_policy g u o r :
  encode (policy g u o r)
  = Ok (Str.join "/" (map emit [("grp", g); ("user", u); ("off", o); ("req", r)])).
Proof. reflexivity. Qed.

(** The encoded policy starts with a letter, and ends as its last value
    ends: stripping it changes nothing unless that value ends in white
    space. *)
Lemma strip_encoded g u o r :
  Str.rstrip r = r ->
  Str.strip (Str.join "/" (map emit [("grp", g); ("user", u); ("off", o); ("req", r)]))
  = Str.join "/" (map emit [("grp", g); ("user", u); ("off", o); ("req", r)]).
Proof.
  intros Hr.
  change (Str.join "/" (map emit [("grp", g); ("user", u); ("off", o); ("req", r)]))
    with ("grp=" ++ g ++ "/user=" ++ u ++ "/off=" ++ o ++ "/req" ++ String "=" r).
  unfold Str.strip.
  change (Str.lstrip ("grp=" ++ g ++ "/user=" ++ u ++ "/off=" ++ o ++ "/req" ++ String "=" r))
    with ("grp=" ++ g ++ "/user=" ++ u ++ "/off=" ++ o ++ "/req" ++ String "=" r).
  assert (H0 : Str.rstrip (String "=" r) = String "=" r)
    by (apply rstrip_cons; [reflexivity | exact Hr]).
  repeat (apply rstrip_app; [repeat apply append_nonempty; discriminate|]).
  exact H0.
Qed.

Lemma decode_policy g u o r :
  plain g -> plain u -> plain o -> plain r -> Str.rstrip r = r ->
  decode (Str.join "/" (map emit [("grp", g); ("user", u); ("off", o); ("req", r)]))
  = Ok (policy g u o r).
Proof.
  intros Hg Hu Ho Hr Hend. unfold decode, update_from_tag.
  rewrite (strip_encoded _ _ _ _ Hend).
  rewrite entries_join.
  - reflexivity.
  - discriminate.
  - repeat (constructor; [split; [split; reflexivity | assumption] |]).
    constructor.
Qed.

(** C1, as amended.  For every policy whose four values contain neither [/]
    nor [=], and whose last value [req] does not end in white space,
    decoding the tag value that [save] emits for the policy gives the policy
    back. *)
Theorem decode_encode_roundtrip g u o r :
  plain g -> plain u -> plain o -> plain r -> Str.rstrip r = r ->
  rbind (encode (policy g u o r)) decode = Ok (policy g u o r).
Proof.
  intros Hg Hu Ho Hr Hend. rewrite encode_policy. simpl rbind.
  apply decode_policy; assumption.
Qed.

Lemma decode_encode_roundtrip_witness :
  rbind (encode (policy "2" "bob" "2026-11-04T10:00" "2026-11-04T09:00")) decode
  = Ok (policy "2" "bob" "2026-11-04T10:00" "2026-11-04T09:00").
Proof.
  apply decode_encode_roundtrip; try (split; reflexivity); reflexivity.
Defined.

(** C1, as stated, fails: a [req] value that ends in a space contains
    neither [/] nor [=], yet [strip] removes the space before the tag is
    split, and the decoded policy differs. *)
Lemma decode_encode_trailing_space :
  plain "1" /\ plain "" /\ plain "" /\ plain "x "
  /\ rbind (encode (policy "1" "" "" "x ")) decode = Ok (policy "1" "" "" "x")
  /\ rbind (encode (policy "1" "" "" "x ")) decode <> Ok (policy "1" "" "" "x ").
Proof.
  repeat split; try reflexivity. discriminate.
Qed.

End Codec.

(** ** Dictionaries *)

Section DictFacts.
Context {V : Type}.
Implicit Types (d : Dict.t V) (k : string) (v : V).

Lemma get_set_eq k v d : Dict.get k (Dict.set k v d) = Some v.
Proof.
  induction d as [|[k' v'] d IH]; simpl.
  - rewrite String.eqb_refl. reflexivity.
  - destruct (String.eqb k' k) eqn:E; simpl; rewrite E; [reflexivity | exact IH].
Qed.

Lemma get_set_ne k k' v d :
  k <> k' -> Dict.get k' (Dict.set k v d) = Dict.get k' d.
Proof.
  intros Hne. induction d as [|[k0 v0] d IH]; simpl.
  - destruct (String.eqb k k') eqn:E; [|reflexivity].
    apply String.eqb_eq in E. contradiction.
  - destruct (String.eqb k0 k) eqn:E; simpl.
    + apply String.eqb_eq in E. subst k0.
      destruct (String.eqb k k') eqn:E'; [|reflexivity].
      apply String.eqb_eq in E'. contradiction.
    + rewrite IH. reflexivity.
Qed.

(** Assigning to a key outside [keep] leaves the entries under the keys
    of [keep], and their order, as they were. *)
Lemma filter_set_other (keep : list string) k v d :
  Dict.mem k keep = false ->
  List.filter (fun '(key, _) => Dict.mem key keep) (Dict.set k v d)
  = List.filter (fun '(key, _) => Dict.mem key keep) d.
Proof.
  unfold Dict.mem. intros Hk. induction d as [|[k0 v0] d IH]; simpl.
  - rewrite Hk. reflexivity.
  - destruct (String.eqb k0 k) eqn:E; simpl.
    + apply String.eqb_eq in E. subst k0. rewrite Hk. reflexivity.
    + rewrite IH. reflexivity.
Qed.

Lemma set_fresh k v d :
  Dict.get k d = None -> Dict.set k v d = d ++ [(k, v)].
Proof.
  induction d as [|[k0 v0] d IH]; simpl; [reflexivity|].
  destruct (String.eqb k0 k); [discriminate|].
  intros H. rewrite (IH H). reflexivity.
Qed.

Lemma keys_set k v d x :
  In x (Dict.keys (Dict.set k v d)) -> x = k \/ In x (Dict.keys d).
Proof.
  induction d as [|[k0 v0] d IH]; simpl.
  - intros [<-|[]]. left. reflexivity.
  - destruct (String.eqb k0 k); simpl; [tauto|].
    intros [<-|H]; [tauto|]. destruct (IH H); tauto.
Qed.

(** Assignment keeps the keys of a dictionary distinct. *)
Lemma keys_set_NoDup k v d :
  List.NoDup (Dict.keys d) -> List.NoDup (Dict.keys (Dict.set k v d)).
Proof.
  induction d as [|[k0 v0] d IH]; simpl; intros Hd.
  - constructor; [intros [] | constructor].
  - inversion Hd as [|? ? Hnotin Hd']; subst.
    destruct (String.eqb k0 k) eqn:E; simpl.
    + constructor; assumption.
    + constructor; [|apply IH, Hd'].
      intros Hin. apply keys_set in Hin as [->|Hin].
      * rewrite String.eqb_refl in E. discriminate.
      * exact (Hnotin Hin).
Qed.

Lemma get_app k (a b : Dict.t V) :
  Dict.get k (a ++ b)
  = match Dict.get k a with
    | Some v => Some v
    | None => Dict.get k b
    end.
Proof.
  induction a as [|[k0 v0] a IH]; simpl; [reflexivity|].
  destruct (String.eqb k0 k); [reflexivity | exact IH].
Qed.

End DictFacts.

(** ** Running methods *)

Ltac unfold_methods :=
  unfold update, shutdown, save, start, as_dict, setitem, getitem;
  unfold bind, dt_now, lift, try_except, deref, ret, store, print, raise,
    modify, gets, check_output.

Section Running.
Context {A B : Type}.

Lemma bind_ok (m : M A) (f : A -> M B) w a w1 :
  m w = (Ok a, w1) -> bind m f w = f a w1.
Proof. intros H. unfold bind. rewrite H. reflexivity. Qed.

Lemma bind_raise (m : M A) (f : A -> M B) w e w1 :
  m w = (Raise e, w1) -> bind m f w = (Raise e, w1).
Proof. intros H. unfold bind. rewrite H. reflexivity. Qed.

Lemma try_ok (body handler : M A) e w a w1 :
  body w = (Ok a, w1) -> try_except body e handler w = (Ok a, w1).
Proof. intros H. unfold try_except. rewrite H. reflexivity. Qed.

Lemma try_caught (body handler : M A) e w w1 :
  body w = (Raise e, w1) -> try_except body e handler w = handler w1.
Proof.
  intros H. unfold try_except. rewrite H. destruct e; reflexivity.
Qed.

Lemma try_uncaught (body handler : M A) e e' w w1 :
  body w = (Raise e', w1) -> exn_eqb e' e = false ->
  try_except body e handler w = (Raise e', w1).
Proof. intros H E. unfold try_except. rewrite H, E. reflexivity. Qed.

End Running.

Lemma getitem_run l k w d v :
  heap w !! l = Some d -> Dict.get k d = Some v -> getitem l k w = (Ok v, w).
Proof.
  intros Hd Hk. unfold getitem, bind, deref. rewrite Hd, Hk. reflexivity.
Qed.

Lemma setitem_run l k v w d :
  heap w !! l = Some d ->
  setitem l k v w
  = (Ok tt, with_heap (<[l := Dict.set k v d]> (heap w)) (next w) w).
Proof. intros Hd. unfold setitem, bind, deref. rewrite Hd. reflexivity. Qed.

Ltac step_by tac := erewrite bind_ok by tac.
Ltac step_now := step_by ltac:(reflexivity).
Ltac step_lift H := step_by ltac:(unfold lift; rewrite H; reflexivity).
Ltac world_simpl :=
  cbn [heap next clock ticks aws calls stdout raw_aws cls_objects json_loads
       PRODUCTS with_heap with_ticks with_calls with_stdout with_raw_aws
       with_cls_objects].
Ltac solve_lookup :=
  world_simpl; first [eassumption | apply lookup_insert_eq].
Ltac step_get :=
  step_by ltac:(eapply getitem_run; [solve_lookup | eauto using get_set_eq]).
Ltac step_set := step_by ltac:(eapply setitem_run; solve_lookup).

Lemma emit_filter_set (f : string -> bool) k s d :
  (exists l, rmap_list emit_item (List.filter (fun '(key, _) => f key) d) = Ok l) ->
  exists l,
    rmap_list emit_item
      (List.filter (fun '(key, _) => f key) (Dict.set k (VStr s) d)) = Ok l.
Proof.
  induction d as [|[k0 v0] d IH]; simpl.
  - intros _. destruct (f k); simpl; eauto.
  - destruct (String.eqb k0 k) eqn:E; simpl; destruct (f k0) eqn:Hf; simpl; auto.
    + destruct v0 as [s0|p]; simpl.
      * destruct (rmap_list _ _); simpl; eauto.
      * intros [? ?]; discriminate.
    + destruct v0 as [s0|p]; simpl; [|intros [? ?]; discriminate].
      intros [l H].
      destruct (rmap_list _ (List.filter _ d)) as [l0|e] eqn:El; simpl in *;
        [|discriminate].
      destruct IH as [l' IH']; [eauto|].
      rewrite IH'. simpl. eauto.
Qed.

Lemma encodable_set k s d : encodable d -> encodable (Dict.set k (VStr s) d).
Proof.
  unfold encodable, encode, cheapskate_raw. intros [raw H].
  destruct (emit_filter_set
              (fun key => Dict.mem key (Dict.keys CHEAPSKATE)) k s d) as [l Hl].
  - destruct (rmap_list emit_item _) as [l|e]; [eauto | discriminate].
  - rewrite Hl. simpl. eauto.
Qed.

(** The commands that end [update]: they leave the store alone, and return
    when the provider accepts them and the dictionary can be emitted. *)
Lemma start_save self w d :
  heap w !! cheapskate self = Some d ->
  exists r w',
    (start self ;; save self ;; ret true) w = (r, w')
    /\ heap w' = heap w
    /\ (provider_ok w -> encodable d -> r = Ok true).
Proof.
  intros Hd. unfold_methods. simpl.
  destruct (aws w _ _) eqn:E1; simpl.
  2:{ eexists _, _. split; [reflexivity|]. split; [reflexivity|].
      intros Hp. exfalso. eapply Hp, E1. }
  rewrite Hd. simpl.
  destruct (cheapskate_raw d) eqn:E2; simpl.
  2:{ eexists _, _. split; [reflexivity|]. split; [reflexivity|].
      intros _ [raw Hraw]. unfold encode in Hraw. congruence. }
  destruct (aws w _ _) eqn:E3 in |- *; simpl.
  2:{ eexists _, _. split; [reflexivity|]. split; [reflexivity|].
      intros Hp. exfalso. eapply Hp, E3. }
  eexists _, _. split; [reflexivity|]. split; [reflexivity|]. reflexivity.
Qed.

(** ** [update] *)

Section Update.

Variables (self : Instance) (user : string) (hours : Q) (w : World).
Variables (d : dict) (off : value) (delta : DT.timedelta) (reqtime : DT.datetime).
Hypothesis Hd : heap w !! cheapskate self = Some d.
Hypothesis Hoff : Dict.get "off" d = Some off.
Hypothesis Hdelta : DT.timedelta_hours hours = Ok delta.
Hypothesis Hreq : DT.add (clock w (ticks w)) delta = Ok reqtime.

Lemma update_rejects sysstart offtime :
  strptime_value off = Ok offtime -> reqtime < offtime ->
  update self user hours sysstart w = (Ok false, with_ticks (S (ticks w)) w).
Proof.
  intros Ht Hlt. unfold update.
  step_now. step_lift Hdelta. step_lift Hreq.
  erewrite bind_ok.
  2:{ apply try_ok. step_get. step_lift Ht. reflexivity. }
  rewrite (proj2 (Z.ltb_lt _ _) Hlt). reflexivity.
Qed.

(** The check of the stored deadline lets the request through, printing a
    line when the deadline does not parse. *)
Lemma deadline_check w1 :
  heap w1 !! cheapskate self = Some d ->
  no_later_deadline off reqtime ->
  exists out,
    try_except
      (off <- getitem (cheapskate self) "off" ;;
       offtime <- lift (strptime_value off) ;;
       ret (reqtime <? offtime))
      ValueError
      (off <- getitem (cheapskate self) "off" ;;
       print ("invalid date format: " ++ format_value off) ;;
       ret false) w1
    = (Ok false, with_stdout out w1).
Proof.
  intros Hd1 Hnl. unfold no_later_deadline in Hnl.
  destruct (strptime_value off) as [t|e] eqn:Ht.
  - exists (stdout w1). erewrite try_ok.
    2:{ step_get. step_lift Ht. reflexivity. }
    rewrite (proj2 (Z.ltb_ge _ _) Hnl). destruct w1; reflexivity.
  - subst e. eexists. erewrite try_caught.
    2:{ step_get. erewrite bind_raise; [reflexivity|].
        unfold lift. rewrite Ht. reflexivity. }
    step_get. reflexivity.
Qed.

Lemma update_uncapped sysstart :
  no_later_deadline off reqtime ->
  (sysstart =? 0) && over_threshold self hours = false ->
  exists r w' d',
    update self user hours sysstart w = (r, w')
    /\ heap w' !! cheapskate self = Some d'
    /\ Dict.get "off" d' = Some (VStr (DT.strftime reqtime))
    /\ (provider_ok w -> encodable d -> r = Ok true).
Proof.
  intros Hnl Hcap. unfold update.
  step_now. step_lift Hdelta. step_lift Hreq.
  destruct (deadline_check (with_ticks (S (ticks w)) w) Hd Hnl) as [out Hchk].
  erewrite bind_ok by exact Hchk. cbv iota.
  step_set. step_set.
  rewrite Hcap.
  step_set.
  match goal with
  | |- context [bind (start self) _ ?w3] =>
      destruct (start_save self w3
                  (Dict.set "off" (VStr (DT.strftime reqtime))
                     (Dict.set "req" (VStr (DT.strftime reqtime))
                        (Dict.set "user" (VStr user) d))))
        as (r & w' & Hrun & Hheap & Hret);
      [solve_lookup|]
  end.
  exists r, w'. eexists. split; [exact Hrun|]. split.
  { rewrite Hheap. solve_lookup. }
  split; [apply get_set_eq|].
  intros Hp He. apply Hret; [exact Hp | repeat apply encodable_set; exact He].
Qed.

Lemma price_nonzero n :
  (inject_Z COSTTHRESHOLD <= price self * n)%Q ->
  Qeq_bool (price self) 0 = false.
Proof.
  intros Hle. destruct (Qeq_bool (price self) 0) eqn:E; [|reflexivity].
  apply Qeq_bool_eq in E. rewrite E, Qmult_0_l in Hle.
  exfalso. revert Hle. apply Qlt_not_le. reflexivity.
Qed.

Lemma update_capped delta' offtime :
  no_later_deadline off reqtime -> over_threshold self hours = true ->
  DT.timedelta_hours (inject_Z COSTTHRESHOLD / price self) = Ok delta' ->
  DT.add (clock w (S (ticks w))) delta' = Ok offtime ->
  exists r w' d',
    update self user hours 0 w = (r, w')
    /\ heap w' !! cheapskate self = Some d'
    /\ Dict.get "off" d' = Some (VStr (DT.strftime offtime))
    /\ (provider_ok w -> encodable d -> r = Ok true).
Proof.
  intros Hnl Hcap Hdelta' Hofftime. unfold update.
  step_now. step_lift Hdelta. step_lift Hreq.
  destruct (deadline_check (with_ticks (S (ticks w)) w) Hd Hnl) as [out Hchk].
  erewrite bind_ok by exact Hchk. cbv iota.
  step_set. step_set.
  rewrite Hcap. simpl andb.
  assert (Hdiv : true_div (inject_Z COSTTHRESHOLD) (price self)
                 = Ok (inject_Z COSTTHRESHOLD / price self)%Q).
  { unfold true_div. erewrite price_nonzero; [reflexivity|].
    apply Qle_bool_iff. exact Hcap. }
  erewrite bind_ok.
  2:{ step_now. step_lift Hdiv. step_lift Hdelta'. world_simpl.
      step_lift Hofftime. eapply setitem_run. solve_lookup. }
  match goal with
  | |- context [bind (start self) _ ?w3] =>
      destruct (start_save self w3
                  (Dict.set "off" (VStr (DT.strftime offtime))
                     (Dict.set "req" (VStr (DT.strftime reqtime))
                        (Dict.set "user" (VStr user) d))))
        as (r & w' & Hrun & Hheap & Hret);
      [solve_lookup|]
  end.
  exists r, w'. eexists. split; [exact Hrun|]. split.
  { rewrite Hheap. solve_lookup. }
  split; [apply get_set_eq|].
  intros Hp He. apply Hret; [exact Hp | repeat apply encodable_set; exact He].
Qed.

End Update.

Ltac unfold_methods_in H :=
  unfold update, shutdown, save, start, as_dict, setitem, getitem in H;
  unfold bind, dt_now, lift, try_except, deref, ret, store, print, raise,
    modify, gets, check_output in H.

Ltac world_simpl_in H :=
  cbn [heap next clock ticks aws calls stdout raw_aws cls_objects json_loads
       PRODUCTS with_heap with_ticks with_calls with_stdout with_raw_aws
       with_cls_objects] in H.

(** Case analysis on the scrutinee of an innermost [match] of [H]. *)
Ltac innermost x :=
  lazymatch x with
  | context [match _ with Ok _ => _ | Raise _ => _ end] => fail
  | context [match _ with Some _ => _ | None => _ end] => fail
  | context [if _ then _ else _] => fail
  | _ => idtac
  end.

Ltac destruct_inner H :=
  match type of H with
  | context [match ?x with Ok _ => _ | Raise _ => _ end] =>
      innermost x; destruct x eqn:?
  | context [match ?x with Some _ => _ | None => _ end] =>
      innermost x; destruct x eqn:?
  | context [if ?x then _ else _] =>
      innermost x; destruct x eqn:?
  end.

Ltac invert_run H :=
  repeat (destruct_inner H; world_simpl_in H; cbv beta iota in H;
          try discriminate H).

(** C2, as amended.  On a user-initiated call ([sysstart = 0]) that is not
    rejected, whenever [hourlyPrice] times [hours] truncated to a whole
    number meets or exceeds the threshold, [update] stores as [off] the
    time of the second reading of the clock plus [COSTTHRESHOLD / price]
    hours, and returns [True] when the provider accepts the commands. *)
Theorem update_caps_deadline self user hours w d off delta reqtime delta' offtime :
  heap w !! cheapskate self = Some d ->
  Dict.get "off" d = Some off ->
  DT.timedelta_hours hours = Ok delta ->
  DT.add (clock w (ticks w)) delta = Ok reqtime ->
  no_later_deadline off reqtime ->
  (inject_Z COSTTHRESHOLD <= price self * inject_Z (int hours))%Q ->
  DT.timedelta_hours (inject_Z COSTTHRESHOLD / price self) = Ok delta' ->
  DT.add (clock w (S (ticks w))) delta' = Ok offtime ->
  exists r w' d',
    update self user hours 0 w = (r, w')
    /\ heap w' !! cheapskate self = Some d'
    /\ Dict.get "off" d' = Some (VStr (DT.strftime offtime))
    /\ (provider_ok w -> encodable d -> r = Ok true).
Proof.
  intros Hd Hoff Hdelta Hreq Hnl Hcost Hdelta' Hofftime.
  eapply update_capped; eauto. apply Qle_bool_iff, Hcost.
Qed.

(** With [hourlyPrice = 5], [hours = 10] and the threshold 20 the stored
    deadline is [now] plus 4 hours. *)
Lemma update_caps_deadline_witness :
  exists r w' d',
    update (sample_instance 16 5) "al" 10 0
      (sample_world wednesday_evening (policy "0" "" "" "") (sample_instance 16 5))
    = (r, w')
    /\ heap w' !! 0%nat = Some d'
    /\ Dict.get "off" d'
       = Some (VStr (DT.strftime (wednesday_evening + 4 * DT.US_PER_HOUR)))
    /\ r = Ok true.
Proof.
  destruct (update_caps_deadline (sample_instance 16 5) "al" 10
              (sample_world wednesday_evening (policy "0" "" "" "")
                 (sample_instance 16 5))
              (policy "0" "" "" "") (VStr "")
              (10 * DT.US_PER_HOUR) (wednesday_evening + 10 * DT.US_PER_HOUR)
              (4 * DT.US_PER_HOUR) (wednesday_evening + 4 * DT.US_PER_HOUR))
    as (r & w' & d' & Hrun & Hheap & Hget & Hret);
    try reflexivity.
  - apply Qle_bool_iff. reflexivity.
  - exists r, w', d'. repeat split; try assumption.
    apply Hret; [discriminate | eexists; reflexivity].
Defined.

(** C2, as stated, fails for hours that are not whole: with price 3 and
    6.75 hours the projected cost is 20.25, yet [int(hours)] is 6, the test
    of line 134 sees 18, and the deadline stored is [now] plus 6.75 hours,
    not [now] plus 20/3 hours. *)
Lemma update_fractional_hours_not_capped :
  (inject_Z COSTTHRESHOLD <= 3 * (27 # 4))%Q
  /\ exists w' d' capped,
      update (sample_instance 16 3) "al" (27 # 4) 0
        (sample_world wednesday_evening (policy "0" "" "" "") (sample_instance 16 3))
      = (Ok true, w')
      /\ heap w' !! 0%nat = Some d'
      /\ Dict.get "off" d' = Some (VStr "2026-11-05T03:54")
      /\ rbind (DT.timedelta_hours (inject_Z COSTTHRESHOLD / 3))
            (DT.add wednesday_evening) = Ok capped
      /\ DT.strftime capped = "2026-11-05T03:49"%string.
Proof.
  split; [apply Qle_bool_iff; reflexivity|].
  eexists _, _, _. split; [vm_compute; reflexivity|].
  repeat split; vm_compute; reflexivity.
Qed.

(** C3.  On a system-triggered call ([sysstart] not 0) that is not
    rejected, whatever the price and the hours, [update] stores as [off]
    the requested time, the first reading of the clock plus [hours]. *)
Theorem update_system_start_not_capped
  self user hours sysstart w d off delta reqtime :
  heap w !! cheapskate self = Some d ->
  Dict.get "off" d = Some off ->
  DT.timedelta_hours hours = Ok delta ->
  DT.add (clock w (ticks w)) delta = Ok reqtime ->
  no_later_deadline off reqtime ->
  sysstart <> 0 ->
  exists r w' d',
    update self user hours sysstart w = (r, w')
    /\ heap w' !! cheapskate self = Some d'
    /\ Dict.get "off" d' = Some (VStr (DT.strftime reqtime))
    /\ (provider_ok w -> encodable d -> r = Ok true).
Proof.
  intros Hd Hoff Hdelta Hreq Hnl Hsys.
  eapply update_uncapped; eauto.
  rewrite (proj2 (Z.eqb_neq _ _) Hsys). reflexivity.
Qed.

Lemma update_system_start_not_capped_witness :
  exists r w' d',
    update (sample_instance 80 5) "Cheapskate" 10 1
      (sample_world wednesday_evening (policy "2" "" "" "") (sample_instance 80 5))
    = (r, w')
    /\ heap w' !! 0%nat = Some d'
    /\ Dict.get "off" d'
       = Some (VStr (DT.strftime (wednesday_evening + 10 * DT.US_PER_HOUR)))
    /\ r = Ok true.
Proof.
  destruct (update_system_start_not_capped (sample_instance 80 5) "Cheapskate"
              10 1
              (sample_world wednesday_evening (policy "2" "" "" "")
                 (sample_instance 80 5))
              (policy "2" "" "" "") (VStr "")
              (10 * DT.US_PER_HOUR) (wednesday_evening + 10 * DT.US_PER_HOUR))
    as (r & w' & d' & Hrun & Hheap & Hget & Hret);
    try reflexivity.
  - discriminate.
  - exists r, w', d'. repeat split; try assumption.
    apply Hret; [discriminate | eexists; reflexivity].
Defined.

(** C4.  When the stored [off] parses to a time strictly later than the
    requested time, [update] returns [False] and changes nothing: no key is
    written, no command is run; only the clock has been read once. *)
Theorem update_rejects_later_deadline
  self user hours sysstart w d off offtime delta reqtime :
  heap w !! cheapskate self = Some d ->
  Dict.get "off" d = Some (VStr off) ->
  DT.strptime off = Ok offtime ->
  DT.timedelta_hours hours = Ok delta ->
  DT.add (clock w (ticks w)) delta = Ok reqtime ->
  reqtime < offtime ->
  update self user hours sysstart w = (Ok false, with_ticks (S (ticks w)) w).
Proof.
  intros Hd Hoff Ht Hdelta Hreq Hlt.
  eapply update_rejects; eauto.
Qed.

Lemma update_rejects_later_deadline_witness :
  update (sample_instance 16 5) "al" 10 0
    (sample_world wednesday_evening (policy "0" "bob" "2026-11-05T10:00" "")
       (sample_instance 16 5))
  = (Ok false,
     with_ticks 1
       (sample_world wednesday_evening (policy "0" "bob" "2026-11-05T10:00" "")
          (sample_instance 16 5))).
Proof.
  apply (update_rejects_later_deadline (sample_instance 16 5) "al" 10 0
           (sample_world wednesday_evening (policy "0" "bob" "2026-11-05T10:00" "")
              (sample_instance 16 5))
           (policy "0" "bob" "2026-11-05T10:00" "") "2026-11-05T10:00"
           63929469600000000
           (10 * DT.US_PER_HOUR) (wednesday_evening + 10 * DT.US_PER_HOUR));
    try reflexivity.
Defined.

(** C9, as amended.  On every accepted extend, [update] returning [True],
    the key [user] holds the supplied user and the key [req] holds the
    requested time, the reading of the clock plus [hours]. *)
Theorem update_records_request self user hours sysstart w w' :
  update self user hours sysstart w = (Ok true, w') ->
  exists delta reqtime d',
    DT.timedelta_hours hours = Ok delta
    /\ DT.add (clock w (ticks w)) delta = Ok reqtime
    /\ heap w' !! cheapskate self = Some d'
    /\ Dict.get "user" d' = Some (VStr user)
    /\ Dict.get "req" d' = Some (VStr (DT.strftime reqtime)).
Proof.
  intros H. unfold_methods_in H. world_simpl_in H. invert_run H.
  all: repeat match goal with
         | Hx : <[_:=_]> _ !! _ = Some _ |- _ => rewrite lookup_insert_eq in Hx
         end; simplify_eq.
  all: eexists _, _, _; split; [reflexivity|]; split; [eassumption|];
    world_simpl; rewrite lookup_insert_eq; split; [reflexivity|]; split;
    [rewrite !get_set_ne by discriminate; apply get_set_eq
    |rewrite get_set_ne by discriminate; apply get_set_eq].
Qed.


Lemma update_records_request_witness :
  exists w' d',
    update (sample_instance 16 5) "al" 2 0
      (sample_world wednesday_evening (policy "0" "" "" "") (sample_instance 16 5))
    = (Ok true, w')
    /\ heap w' !! 0%nat = Some d'
    /\ Dict.get "user" d' = Some (VStr "al")
    /\ Dict.get "req" d' = Some (VStr "2026-11-04T23:09").
Proof.
  assert (Hrun : exists w',
             update (sample_instance 16 5) "al" 2 0
               (sample_world wednesday_evening (policy "0" "" "" "")
                  (sample_instance 16 5)) = (Ok true, w'))
    by (eexists; vm_compute; reflexivity).
  destruct Hrun as [w' Hrun].
  destruct (update_records_request _ _ _ _ _ _ Hrun)
    as (delta & reqtime & d' & Hdelta & Hreq & Hheap & Huser & Hget).
  exists w', d'. split; [exact Hrun|]. split; [exact Hheap|].
  split; [exact Huser|].
  vm_compute in Hdelta. injection Hdelta as <-.
  vm_compute in Hreq. injection Hreq as <-.
  exact Hget.
Defined.

(** C9, as stated, fails: the key [req] does not hold the time of the
    request.  Two hours requested at 21:09 leave [req] at 23:09. *)
Lemma update_req_is_not_now :
  exists w' d',
    update (sample_instance 16 5) "al" 2 0
      (sample_world wednesday_evening (policy "0" "" "" "") (sample_instance 16 5))
    = (Ok true, w')
    /\ heap w' !! 0%nat = Some d'
    /\ DT.strftime wednesday_evening = "2026-11-04T21:09"%string
    /\ Dict.get "req" d' = Some (VStr "2026-11-04T23:09")
    /\ Dict.get "req" d' <> Some (VStr (DT.strftime wednesday_evening)).
Proof.
  eexists _, _. split; [vm_compute; reflexivity|].
  repeat split; try (vm_compute; reflexivity).
  vm_compute. discriminate.
Qed.

(** ** [shutdown] *)

Section Shutdown.

Variables (self : Instance) (w : World) (d : dict) (grp : string).
Hypothesis Hd : heap w !! cheapskate self = Some d.
Hypothesis Hgrp : Dict.get "grp" d = Some (VStr grp).

Lemma shutdown_default_on :
  grp = "1"%string -> shutdown self w = (Ok ReturnFalse, w).
Proof.
  intros ->. unfold shutdown. step_get. reflexivity.
Qed.

Lemma shutdown_reads_deadline :
  grp = "0"%string \/ grp = "2"%string ->
  shutdown self w
  = (off <- getitem (cheapskate self) "off" ;;
     offtime <- lift (strptime_value off) ;;
     now <- dt_now ;;
     if offtime <? now then
       result <- check_output (stop_instances (instance_id self)) ;;
       save self ;;
       ret (ReturnOutput result)
     else
       off <- getitem (cheapskate self) "off" ;;
       ret (ReturnOfftime off)) w.
Proof.
  intros [-> | ->]; unfold shutdown; step_get; reflexivity.
Qed.

Lemma shutdown_stops off offtime out raw out' :
  grp = "0"%string \/ grp = "2"%string ->
  Dict.get "off" d = Some (VStr off) -> DT.strptime off = Ok offtime ->
  offtime < clock w (ticks w) ->
  aws w (length (calls w)) (stop_instances (instance_id self)) = Some out ->
  encode d = Ok raw ->
  aws w (S (length (calls w))) (create_tags (instance_id self) raw) = Some out' ->
  shutdown self w
  = (Ok (ReturnOutput out),
     with_raw_aws None
       (with_calls
          (create_tags (instance_id self) raw
           :: stop_instances (instance_id self) :: calls w)
          (with_ticks (S (ticks w)) w))).
Proof.
  intros Hg Hoff Ht Hlt Hstop Hraw Htag.
  rewrite (shutdown_reads_deadline Hg).
  step_get. step_by ltac:(unfold lift; simpl; rewrite Ht; reflexivity).
  step_now. world_simpl. rewrite (proj2 (Z.ltb_lt _ _) Hlt).
  unfold_methods. world_simpl. rewrite Hstop. world_simpl.
  rewrite Hd. unfold encode in Hraw. rewrite Hraw.
  world_simpl. cbn [length]. rewrite Htag. reflexivity.
Qed.

Lemma shutdown_defers off offtime :
  grp = "0"%string \/ grp = "2"%string ->
  Dict.get "off" d = Some (VStr off) -> DT.strptime off = Ok offtime ->
  clock w (ticks w) < offtime ->
  shutdown self w = (Ok (ReturnOfftime (VStr off)), with_ticks (S (ticks w)) w).
Proof.
  intros Hg Hoff Ht Hlt.
  rewrite (shutdown_reads_deadline Hg).
  step_get. step_by ltac:(unfold lift; simpl; rewrite Ht; reflexivity).
  step_now. world_simpl.
  rewrite (proj2 (Z.ltb_ge _ _) (Z.lt_le_incl _ _ Hlt)).
  step_get. reflexivity.
Qed.

(** A stored deadline that does not parse: the [ValueError] of [strptime]
    leaves [shutdown]. *)
Lemma shutdown_unparseable off :
  grp = "0"%string \/ grp = "2"%string ->
  Dict.get "off" d = Some off -> strptime_value off = Raise ValueError ->
  shutdown self w = (Raise ValueError, w).
Proof.
  intros Hg Hoff Ht.
  rewrite (shutdown_reads_deadline Hg).
  step_get. erewrite bind_raise; [reflexivity|].
  unfold lift. rewrite Ht. reflexivity.
Qed.

End Shutdown.

(** C7.  [shutdown] on an instance of group 1 (DefaultOn) changes nothing
    and returns [False]; on an instance of group 0 or 2 whose [off] is
    earlier than now it runs the stop command, saves the tag and returns
    the output of the stop command, provided the provider accepts both
    commands; when [off] is later than now it runs nothing and returns the
    stored [off] as the offtime. *)
Theorem shutdown_outcomes self w d grp :
  heap w !! cheapskate self = Some d ->
  Dict.get "grp" d = Some (VStr grp) ->
  (grp = "1"%string -> shutdown self w = (Ok ReturnFalse, w))
  /\ (grp = "0"%string \/ grp = "2"%string ->
      forall off offtime,
        Dict.get "off" d = Some (VStr off) -> DT.strptime off = Ok offtime ->
        (offtime < clock w (ticks w) ->
         forall out raw out',
           aws w (length (calls w)) (stop_instances (instance_id self)) = Some out ->
           encode d = Ok raw ->
           aws w (S (length (calls w))) (create_tags (instance_id self) raw)
           = Some out' ->
           shutdown self w
           = (Ok (ReturnOutput out),
              with_raw_aws None
                (with_calls
                   (create_tags (instance_id self) raw
                    :: stop_instances (instance_id self) :: calls w)
                   (with_ticks (S (ticks w)) w))))
        /\ (clock w (ticks w) < offtime ->
            shutdown self w
            = (Ok (ReturnOfftime (VStr off)), with_ticks (S (ticks w)) w))).
Proof.
  intros Hd Hgrp. split.
  - apply (shutdown_default_on _ _ _ _ Hd Hgrp).
  - intros Hg off offtime Hoff Ht. split.
    + intros Hlt out raw out'.
      eapply (shutdown_stops _ _ _ _ Hd Hgrp); eassumption.
    + eapply (shutdown_defers _ _ _ _ Hd Hgrp); eassumption.
Qed.

Lemma shutdown_outcomes_witness :
  shutdown (sample_instance 16 5)
    (sample_world wednesday_evening (policy "1" "" "2026-11-04T10:00" "")
       (sample_instance 16 5))
  = (Ok ReturnFalse,
     sample_world wednesday_evening (policy "1" "" "2026-11-04T10:00" "")
       (sample_instance 16 5))
  /\ shutdown (sample_instance 16 5)
       (sample_world wednesday_evening (policy "0" "" "2026-11-04T10:00" "")
          (sample_instance 16 5))
     = (Ok (ReturnOutput "{}"),
        with_raw_aws None
          (with_calls
             [create_tags "i-1" "grp=0/user=/off=2026-11-04T10:00/req=";
              stop_instances "i-1"]
             (with_ticks 1
                (sample_world wednesday_evening
                   (policy "0" "" "2026-11-04T10:00" "")
                   (sample_instance 16 5)))))
  /\ shutdown (sample_instance 16 5)
       (sample_world wednesday_evening (policy "2" "" "2026-11-05T10:00" "")
          (sample_instance 16 5))
     = (Ok (ReturnOfftime (VStr "2026-11-05T10:00")),
        with_ticks 1
          (sample_world wednesday_evening (policy "2" "" "2026-11-05T10:00" "")
             (sample_instance 16 5))).
Proof.
  split; [|split].
  - apply (proj1 (shutdown_outcomes (sample_instance 16 5)
                    (sample_world wednesday_evening
                       (policy "1" "" "2026-11-04T10:00" "")
                       (sample_instance 16 5))
                    (policy "1" "" "2026-11-04T10:00" "") "1"
                    eq_refl eq_refl)).
    reflexivity.
  - eapply (proj1 (proj2 (shutdown_outcomes (sample_instance 16 5)
                           (sample_world wednesday_evening
                              (policy "0" "" "2026-11-04T10:00" "")
                              (sample_instance 16 5))
                           (policy "0" "" "2026-11-04T10:00" "") "0"
                           eq_refl eq_refl)
                   (or_introl eq_refl) "2026-11-04T10:00"%string
                   63929383200000000 eq_refl eq_refl));
      reflexivity.
  - apply (proj2 (proj2 (shutdown_outcomes (sample_instance 16 5)
                           (sample_world wednesday_evening
                              (policy "2" "" "2026-11-05T10:00" "")
                              (sample_instance 16 5))
                           (policy "2" "" "2026-11-05T10:00" "") "2"
                           eq_refl eq_refl)
                   (or_intror eq_refl) "2026-11-05T10:00"%string
                   63929469600000000 eq_refl eq_refl)).
    reflexivity.
Defined.

(** C8 fails on the code for [shutdown].  An instance of group 0 with the
    default, empty [off]: [shutdown] raises the [ValueError] of [strptime],
    while [shutdown_due] skips the instance and [update] prints a line and
    carries on. *)
Theorem shutdown_raises_on_empty_deadline :
  shutdown (sample_instance 16 5)
    (sample_world wednesday_evening (policy "0" "" "" "") (sample_instance 16 5))
  = (Raise ValueError,
     sample_world wednesday_evening (policy "0" "" "" "") (sample_instance 16 5))
  /\ fst (shutdown_due 0
            (sample_world wednesday_evening (policy "0" "" "" "")
               (sample_instance 16 5)))
     = Ok []
  /\ fst (update (sample_instance 16 5) "al" 2 0
            (sample_world wednesday_evening (policy "0" "" "" "")
               (sample_instance 16 5)))
     = Ok true
  /\ stdout (snd (update (sample_instance 16 5) "al" 2 0
                    (sample_world wednesday_evening (policy "0" "" "" "")
                       (sample_instance 16 5))))
     = ["invalid date format: "%string].
Proof.
  split.
  - apply (shutdown_unparseable (sample_instance 16 5)
             (sample_world wednesday_evening (policy "0" "" "" "")
                (sample_instance 16 5))
             (policy "0" "" "" "") "0" eq_refl eq_refl (VStr ""));
      [left|..]; reflexivity.
  - repeat split; vm_compute; reflexivity.
Qed.

(** ** [as_dict] *)

(** C10.  [as_dict] allocates nothing and returns the location of the
    instance's own [cheapskate] dictionary; the dictionary stored there
    afterwards holds the seven derived keys beside the policy, whose four
    keys keep their values; and [save] emits for it the same tag value as
    before, the derived keys being outside its whitelist. *)
Theorem as_dict_returns_own_dictionary self w d launch :
  heap w !! cheapskate self = Some d ->
  DT.strptime_launch (LaunchTime (raw self)) = Ok launch ->
  exists d',
    as_dict self w
    = (Ok (cheapskate self),
       with_heap (<[cheapskate self := d']> (heap w)) (next w) w)
    /\ Dict.get "name" d' = Some (VStr (name self))
    /\ Dict.get "id" d' = Some (VStr (instance_id self))
    /\ Dict.get "status" d' = Some (VStr (StateName (raw self)))
    /\ Dict.get "type" d' = Some (VStr (InstanceType (raw self)))
    /\ Dict.get "launchtime" d' = Some (VStr (DT.strftime launch))
    /\ Dict.get "hourlycost" d' = Some (VStr (format_3f (price self)))
    /\ Dict.get "product" d' = Some (VProduct (product self))
    /\ (forall k, Dict.mem k (Dict.keys CHEAPSKATE) = true ->
                  Dict.get k d' = Dict.get k d)
    /\ encode d' = encode d.
Proof.
  intros Hd Hlaunch.
  exists (Dict.set "product" (VProduct (product self))
            (Dict.set "hourlycost" (VStr (format_3f (price self)))
               (Dict.set "launchtime" (VStr (DT.strftime launch))
                  (Dict.set "type" (VStr (InstanceType (raw self)))
                     (Dict.set "status" (VStr (StateName (raw self)))
                        (Dict.set "id" (VStr (instance_id self))
                           (Dict.set "name" (VStr (name self)) d))))))).
  split.
  { unfold as_dict.
    step_set. step_set. step_set. step_set. step_lift Hlaunch.
    step_set. step_set. step_set.
    unfold ret. world_simpl. rewrite !insert_insert_eq. reflexivity. }
  repeat split;
    try (rewrite ?get_set_ne by discriminate; apply get_set_eq).
  - intros k Hk. rewrite !get_set_ne; [reflexivity|..];
      intros <-; discriminate Hk.
  - unfold encode, cheapskate_raw.
    rewrite !(filter_set_other (Dict.keys CHEAPSKATE)) by reflexivity.
    reflexivity.
Qed.

Lemma as_dict_returns_own_dictionary_witness :
  exists d',
    as_dict (sample_instance 16 5)
      (sample_world wednesday_evening (policy "0" "bob" "" "")
         (sample_instance 16 5))
    = (Ok 0%nat,
       with_heap {[0%nat := d']} 1%nat
         (sample_world wednesday_evening (policy "0" "bob" "" "")
            (sample_instance 16 5)))
    /\ Dict.keys d'
       = ["grp"; "user"; "off"; "req"; "name"; "id"; "status"; "type";
          "launchtime"; "hourlycost"; "product"]%string
    /\ encode d' = Ok "grp=0/user=bob/off=/req="%string.
Proof.
  destruct (as_dict_returns_own_dictionary (sample_instance 16 5)
              (sample_world wednesday_evening (policy "0" "bob" "" "")
                 (sample_instance 16 5))
              (policy "0" "bob" "" "") 63926438950000000 eq_refl eq_refl)
    as (d' & Hrun & _ & _ & _ & _ & _ & _ & _ & _ & Henc).
  exists d'. split; [|split].
  - rewrite Hrun. reflexivity.
  - assert (Hh : heap (snd (as_dict (sample_instance 16 5)
                               (sample_world wednesday_evening
                                  (policy "0" "bob" "" "")
                                  (sample_instance 16 5)))) !! 0%nat
                 = Some d')
      by (rewrite Hrun; apply lookup_insert_eq).
    vm_compute in Hh. injection Hh as <-. reflexivity.
  - rewrite Henc. reflexivity.
Defined.

(** ** [shutdown_due] *)

Lemma strptime_error s e : DT.strptime s = Raise e -> e = ValueError.
Proof.
  unfold DT.strptime, rbind, DT.of_option.
  match goal with |- context [match ?o with Some _ => _ | None => _ end] =>
    destruct o as [[[[[Y m] d] H] M]|] end.
  - unfold DT.make. destruct (_ && _); congruence.
  - congruence.
Qed.

Lemma with_ticks_id w : with_ticks (ticks w) w = w.
Proof. destruct w; reflexivity. Qed.

(** What being due says, spelled out. *)
Lemma is_due_iff h limit i :
  is_due h limit i = true <->
  exists d grp off offtime,
    h !! cheapskate i = Some d
    /\ Dict.get "grp" d = Some (VStr grp) /\ grp <> "1"%string
    /\ StateCode (raw i) = 16
    /\ Dict.get "off" d = Some (VStr off)
    /\ DT.strptime off = Ok offtime /\ offtime < limit.
Proof.
  unfold is_due. split.
  - destruct (h !! cheapskate i) as [d|]; [|discriminate].
    destruct (Dict.get "grp" d) as [[grp|]|] eqn:Eg; try discriminate.
    destruct (Dict.get "off" d) as [[off|]|] eqn:Eo; try discriminate.
    destruct (DT.strptime off) as [offtime|] eqn:Et;
      [|rewrite andb_false_r; discriminate].
    intros H. apply andb_true_iff in H as [H Hlt].
    apply andb_true_iff in H as [Hgrp Hcode].
    exists d, grp, off, offtime.
    split; [reflexivity|]. split; [exact Eg|].
    split; [intros ->; discriminate Hgrp|].
    split; [apply Z.eqb_eq, Hcode|].
    split; [exact Eo|]. split; [exact Et|].
    apply Z.ltb_lt, Hlt.
  - intros (d & grp & off & offtime & -> & -> & Hgrp & Hcode & -> & -> & Hlt).
    apply String.eqb_neq in Hgrp. rewrite Hgrp, Hcode.
    apply Z.ltb_lt in Hlt. rewrite Hlt. reflexivity.
Qed.

Lemma add_between lo hi t delta limit_lo limit_hi :
  DT.add lo delta = Ok limit_lo -> DT.add hi delta = Ok limit_hi ->
  lo <= t <= hi ->
  DT.add t delta = Ok (t + delta) /\ limit_lo <= t + delta <= limit_hi.
Proof.
  unfold DT.add, DT.in_range. intros Hlo Hhi Ht.
  destruct ((0 <=? lo + delta) && (lo + delta <? DT.MAX_US)) eqn:Elo;
    [|discriminate Hlo].
  destruct ((0 <=? hi + delta) && (hi + delta <? DT.MAX_US)) eqn:Ehi;
    [|discriminate Hhi].
  injection Hlo as <-. injection Hhi as <-.
  apply andb_true_iff in Elo as [Elo _]. apply andb_true_iff in Ehi as [_ Ehi].
  apply Z.leb_le in Elo. apply Z.ltb_lt in Ehi.
  assert (E : (0 <=? t + delta) && (t + delta <? DT.MAX_US) = true).
  { apply andb_true_iff. split; [apply Z.leb_le | apply Z.ltb_lt]; lia. }
  rewrite E. split; [reflexivity | lia].
Qed.

Lemma is_due_mono h limit limit' i :
  limit <= limit' -> is_due h limit i = true -> is_due h limit' i = true.
Proof.
  intros Hle H. apply is_due_iff in H
    as (d & grp & off & offtime & Hd & Hg & Hne & Hc & Ho & Hp & Hlt).
  apply is_due_iff. exists d, grp, off, offtime.
  repeat (split; [assumption|]). lia.
Qed.

Section ShutdownDue.

(** Every reading of the clock lies between [lo] and [hi]; [limit_lo] and
    [limit_hi] are these two times plus [hours]. *)
Variables (hours : Q) (lo hi : DT.datetime) (delta : DT.timedelta)
  (limit_lo limit_hi : DT.datetime).
Hypothesis Hdelta : DT.timedelta_hours hours = Ok delta.
Hypothesis Hlimit_lo : DT.add lo delta = Ok limit_lo.
Hypothesis Hlimit_hi : DT.add hi delta = Ok limit_hi.

Lemma shutdown_due_item_run results id i w d grp off :
  (forall n, lo <= clock w n <= hi) ->
  heap w !! cheapskate i = Some d ->
  Dict.get "grp" d = Some (VStr grp) ->
  Dict.get "off" d = Some (VStr off) ->
  exists (due : bool) k,
    shutdown_due_item hours results (id, i) w
    = (Ok (if due then Dict.set id i results else results),
       with_ticks (ticks w + k) w)
    /\ (due = true -> is_due (heap w) limit_hi i = true)
    /\ (is_due (heap w) limit_lo i = true -> due = true)
    /\ (limit_lo = limit_hi -> due = is_due (heap w) limit_lo i).
Proof.
  intros Hclock Hd Hgrp Hoff.
  unfold shutdown_due_item, is_due. rewrite Hd, Hgrp, Hoff.
  step_get. unfold eq_str.
  destruct (negb (String.eqb grp "1") && (StateCode (raw i) =? 16)) eqn:E;
    cbn [andb].
  2:{ exists false, 0%nat. unfold ret.
      rewrite Nat.add_0_r, with_ticks_id. repeat split; congruence. }
  destruct (DT.strptime off) as [offtime|e] eqn:Hp.
  - destruct (add_between lo hi (clock w (ticks w)) delta limit_lo limit_hi
                Hlimit_lo Hlimit_hi (Hclock _)) as [Hadd Hbetween].
    exists (offtime <? clock w (ticks w) + delta), 1%nat.
    rewrite Nat.add_1_r. split; [|split; [|split]].
    + destruct (offtime <? clock w (ticks w) + delta) eqn:Hlt;
        (erewrite try_ok; [reflexivity|]);
        step_get; (step_by ltac:(unfold lift; simpl; rewrite Hp; reflexivity));
        step_now; step_lift Hdelta; world_simpl;
        step_lift Hadd; rewrite Hlt; reflexivity.
    + intros H. apply Z.ltb_lt in H. apply Z.ltb_lt. lia.
    + intros H. apply Z.ltb_lt in H. apply Z.ltb_lt. lia.
    + intros Heq. subst limit_hi.
      assert (clock w (ticks w) + delta = limit_lo) as -> by lia. reflexivity.
  - apply strptime_error in Hp as He. subst e.
    exists false, 0%nat. split; [|repeat split; congruence].
    erewrite try_caught.
    2:{ step_get. erewrite bind_raise; [reflexivity|].
        unfold lift. simpl. rewrite Hp. reflexivity. }
    unfold ret. rewrite Nat.add_0_r, with_ticks_id. reflexivity.
Qed.

Lemma shutdown_due_loop objs :
  forall results w,
    (forall n, lo <= clock w n <= hi) ->
    policies_stored (heap w) objs ->
    (forall id, In id (Dict.keys objs) -> Dict.get id results = None) ->
    List.NoDup (Dict.keys objs) ->
    exists due k,
      foldM (shutdown_due_item hours) objs results w
      = (Ok (results ++ due), with_ticks (ticks w + k) w)
      /\ (forall x, In x due ->
                    In x objs /\ is_due (heap w) limit_hi (snd x) = true)
      /\ (forall x, In x objs -> is_due (heap w) limit_lo (snd x) = true ->
                    In x due)
      /\ (limit_lo = limit_hi ->
          due = List.filter (fun '(_, i) => is_due (heap w) limit_lo i) objs).
Proof.
  induction objs as [|[id i] objs IH]; intros results w Hclock Hpol Hfresh Hnodup.
  - exists [], 0%nat. simpl. unfold ret.
    rewrite app_nil_r, Nat.add_0_r, with_ticks_id.
    split; [reflexivity|]. split; [intros x []|]. split; [intros x []|].
    reflexivity.
  - destruct (Hpol id i) as (d & grp & off & Hd & Hgrp & Hoff); [left; reflexivity|].
    destruct (shutdown_due_item_run results id i w d grp off Hclock Hd Hgrp Hoff)
      as (b & k & Hk & Hsound & Hcomplete & Hexact).
    inversion Hnodup as [|? ? Hnotin Hnodup']; subst.
    cbn [foldM]. erewrite bind_ok by exact Hk.
    destruct (IH (if b then Dict.set id i results else results)
                (with_ticks (ticks w + k) w)) as (due & k' & Hk' & Hs & Hc & He).
    + exact Hclock.
    + intros id' i' Hin. apply (Hpol id' i'). right. exact Hin.
    + intros id' Hin.
      assert (Hne : id <> id') by (intros ->; exact (Hnotin Hin)).
      destruct b.
      * rewrite get_set_ne by exact Hne. apply Hfresh. right. exact Hin.
      * apply Hfresh. right. exact Hin.
    + exact Hnodup'.
    + world_simpl_in Hs. world_simpl_in Hc. world_simpl_in He.
      exists ((if b then [(id, i)] else []) ++ due), (k + k')%nat.
      rewrite Hk'. world_simpl. rewrite Nat.add_assoc.
      split; [|split; [|split]].
      * f_equal. f_equal. destruct b; [|reflexivity].
        rewrite set_fresh by (apply Hfresh; left; reflexivity).
        rewrite <- app_assoc. reflexivity.
      * intros x Hin. apply in_app_or in Hin as [Hin|Hin].
        -- destruct b; [|destruct Hin].
           destruct Hin as [<-|[]]. split; [left; reflexivity|].
           apply Hsound. reflexivity.
        -- destruct (Hs x Hin) as [Hin' Hdue]. split; [right|]; assumption.
      * intros x [<-|Hin] Hdue; apply in_or_app.
        -- left. rewrite (Hcomplete Hdue). left. reflexivity.
        -- right. apply Hc; assumption.
      * intros Heq. rewrite (He Heq), (Hexact Heq). cbn [List.filter].
        destruct (is_due (heap w) limit_lo i); reflexivity.
Qed.

End ShutdownDue.

(** *** [objects] leaves the clock alone *)

Section KeepsClock.

Lemma keeps_clock_bind {A B} (m : M A) (f : A -> M B) :
  keeps_clock m -> (forall a, keeps_clock (f a)) -> keeps_clock (bind m f).
Proof.
  intros Hm Hf w r w' H. unfold bind in H.
  destruct (m w) as [[a|e] w1] eqn:E.
  - apply Hf in H. apply Hm in E. destruct H as [-> ->]. exact E.
  - injection H as <- <-. apply Hm in E. exact E.
Qed.

Lemma keeps_clock_pure {A} (m : M A) :
  (forall w, snd (m w) = w) -> keeps_clock m.
Proof.
  intros Hm w r w' H. specialize (Hm w). rewrite H in Hm. simpl in Hm.
  subst w'. split; reflexivity.
Qed.

Lemma keeps_clock_step {A} (m : M A) :
  (forall w, clock (snd (m w)) = clock w /\ ticks (snd (m w)) = ticks w) ->
  keeps_clock m.
Proof. intros Hm w r w' H. specialize (Hm w). rewrite H in Hm. exact Hm. Qed.

Lemma keeps_clock_foldM {A B} (f : B -> A -> M B) l :
  (forall acc x, keeps_clock (f acc x)) -> forall acc, keeps_clock (foldM f l acc).
Proof.
  intros Hf. induction l as [|x l IH]; intros acc; simpl.
  - apply keeps_clock_pure. reflexivity.
  - apply keeps_clock_bind; [apply Hf | intros; apply IH].
Qed.

Lemma keeps_clock_check_output cmd : keeps_clock (check_output cmd).
Proof.
  apply keeps_clock_step. intros w. unfold check_output.
  destruct (aws w _ _); split; reflexivity.
Qed.

Lemma keeps_clock_deref l : keeps_clock (deref l).
Proof.
  apply keeps_clock_pure. intros w. unfold deref.
  destruct (heap w !! l); reflexivity.
Qed.

Lemma keeps_clock_Instance_init data : keeps_clock (Instance_init data).
Proof.
  unfold Instance_init.
  apply keeps_clock_bind; [apply keeps_clock_step; split; reflexivity|].
  intros l. apply keeps_clock_bind; [apply keeps_clock_pure; reflexivity|].
  intros tags. apply keeps_clock_bind.
  - destruct (tag_value "cheapskate" tags).
    + apply keeps_clock_bind; [apply keeps_clock_deref|]. intros d.
      apply keeps_clock_bind; [apply keeps_clock_pure; reflexivity|].
      intros d'. apply keeps_clock_step. split; reflexivity.
    + apply keeps_clock_pure. reflexivity.
  - intros _. apply keeps_clock_bind; [apply keeps_clock_pure; reflexivity|].
    intros catalog.
    apply keeps_clock_bind; [|intros p]; apply keeps_clock_pure; reflexivity.
Qed.

Lemma keeps_clock_objects : keeps_clock objects.
Proof.
  unfold objects.
  apply keeps_clock_bind; [apply keeps_clock_pure; reflexivity|].
  intros cached. apply keeps_clock_bind.
  - destruct cached; [apply keeps_clock_pure; reflexivity|].
    apply keeps_clock_bind; [apply keeps_clock_step; split; reflexivity|].
    intros _. apply keeps_clock_bind; [apply keeps_clock_check_output|].
    intros out.
    apply keeps_clock_bind; [apply keeps_clock_step; split; reflexivity|].
    intros _. apply keeps_clock_pure. reflexivity.
  - intros bytes. apply keeps_clock_bind; [apply keeps_clock_pure; reflexivity|].
    intros loads. apply keeps_clock_bind; [apply keeps_clock_pure; reflexivity|].
    intros [objs|]; [apply keeps_clock_pure; reflexivity|].
    apply keeps_clock_bind.
    + unfold build_objects. apply keeps_clock_foldM. intros acc data.
      apply keeps_clock_bind; [apply keeps_clock_Instance_init|].
      intros inst. apply keeps_clock_pure. reflexivity.
    + intros objs.
      apply keeps_clock_bind; [apply keeps_clock_step; split; reflexivity|].
      intros _. apply keeps_clock_pure. reflexivity.
Qed.

End KeepsClock.

(** The inventory that [objects] builds has distinct keys. *)
Lemma build_objects_NoDup datas w objs w' :
  build_objects datas w = (Ok objs, w') -> List.NoDup (Dict.keys objs).
Proof.
  unfold build_objects.
  assert (H : forall acc w,
             List.NoDup (Dict.keys acc) ->
             foldM (fun objects instance_data =>
                      instance <- Instance_init instance_data ;;
                      ret (Dict.set (instance_id instance) instance objects))
               datas acc w = (Ok objs, w') ->
             List.NoDup (Dict.keys objs)).
  { induction datas as [|data datas IH]; intros acc w0 Hacc Hrun.
    - injection Hrun as <- _. exact Hacc.
    - cbn [foldM] in Hrun. unfold bind at 1 in Hrun.
      destruct (bind (Instance_init data) _ w0) as [[acc'|e] w1] eqn:E;
        [|discriminate Hrun].
      apply (IH acc' w1); [|exact Hrun].
      unfold bind in E. destruct (Instance_init data w0) as [[inst|e] w2];
        [|discriminate E].
      injection E as <- _. apply keys_set_NoDup, Hacc. }
  apply H. constructor.
Qed.

(** C5.  [shutdown_due] returns the instances of the inventory that are
    due: those whose group is not DefaultOn, whose state code is 16 and
    whose [off] parses to a time strictly earlier than now plus [hours].
    The clock is read once for each such [off] that parses; with every
    reading between [lo] and [hi], every instance returned is due at [hi]
    plus [hours] and every instance due at [lo] plus [hours] is returned;
    when the clock stands still the instances returned are exactly the due
    ones, in the order of the inventory.  The call only reads the clock. *)
Theorem shutdown_due_exact hours lo hi delta limit_lo limit_hi w objs w1 :
  objects w = (Ok objs, w1) ->
  (forall n, lo <= clock w n <= hi) ->
  DT.timedelta_hours hours = Ok delta ->
  DT.add lo delta = Ok limit_lo ->
  DT.add hi delta = Ok limit_hi ->
  List.NoDup (Dict.keys objs) ->
  policies_stored (heap w1) objs ->
  exists due k,
    shutdown_due hours w = (Ok due, with_ticks (ticks w1 + k) w1)
    /\ (forall x, In x due ->
                  In x objs /\ is_due (heap w1) limit_hi (snd x) = true)
    /\ (forall x, In x objs -> is_due (heap w1) limit_lo (snd x) = true ->
                  In x due)
    /\ (limit_lo = limit_hi ->
        due = List.filter (fun '(_, i) => is_due (heap w1) limit_lo i) objs).
Proof.
  intros Hobj Hclock Hdelta Hlo Hhi Hnodup Hpol.
  destruct (keeps_clock_objects _ _ _ Hobj) as [Hc _].
  destruct (shutdown_due_loop hours lo hi delta limit_lo limit_hi
              Hdelta Hlo Hhi objs [] w1)
    as (due & k & Hk & Hrest); try assumption.
  - intros n. rewrite Hc. apply Hclock.
  - reflexivity.
  - exists due, k. split; [|exact Hrest].
    unfold shutdown_due. erewrite bind_ok by exact Hobj. exact Hk.
Qed.

(** Of three running instances, the DefaultOn one and the one without a
    deadline are left out. *)
Lemma shutdown_due_exact_witness :
  exists k,
    shutdown_due 0 (sample_inventory_world wednesday_evening)
    = (Ok [("i-2"%string, sample_instance_at "i-2" 1%nat 16 5)],
       with_ticks k (sample_inventory_world wednesday_evening)).
Proof.
  destruct (shutdown_due_exact 0 wednesday_evening wednesday_evening 0
              wednesday_evening wednesday_evening
              (sample_inventory_world wednesday_evening) sample_inventory
              (sample_inventory_world wednesday_evening))
    as (due & k & Hk & _ & _ & Hexact); try reflexivity.
  - intros n. simpl. lia.
  - repeat (constructor;
            [simpl; intros H; repeat destruct H as [H|H];
             try discriminate H; exact H|]).
    constructor.
  - intros id i [H|[H|[H|[]]]]; injection H as <- <-;
      eexists _, _, _; repeat split; reflexivity.
  - exists k. rewrite Hk, (Hexact eq_refl). reflexivity.
Defined.

(** ** [start_business_hours] *)

Lemma dtstart_eq : DT.strptime_HM BUSINESSHOURSTART = Ok 59926631400000000.
Proof. reflexivity. Qed.

Lemma dtend_eq : DT.strptime_HM BUSINESSHOUREND = Ok 59926674600000000.
Proof. reflexivity. Qed.

(** C6, as amended.  [start_business_hours] returns [False], having done no
    more than read the clock, whenever the day read for the test of the
    weekday is not Monday to Friday, or the time read for the test against
    the start is before 06:30, or the time read for the test against the
    end is after 18:30. *)
Theorem start_business_hours_outside w :
  BUSINESSDAYSOFWEEK (DT.weekday (clock w (S (ticks w)))) = false
  \/ DT.time (clock w (S (S (ticks w)))) < time_of_day 6 30
  \/ time_of_day 18 30 < DT.time (clock w (S (S (S (ticks w))))) ->
  exists k, start_business_hours w = (Ok None, with_ticks k w).
Proof.
  intros H. unfold start_business_hours.
  step_lift dtstart_eq. step_lift dtend_eq. step_now. step_now. world_simpl.
  destruct (BUSINESSDAYSOFWEEK (DT.weekday (clock w (S (ticks w))))) eqn:Hday;
    cbn [negb]; [|eexists; reflexivity].
  step_now. world_simpl.
  change (DT.time 59926631400000000) with (time_of_day 6 30).
  destruct (DT.time (clock w (S (S (ticks w)))) <? time_of_day 6 30) eqn:Hstart;
    [eexists; reflexivity|].
  step_now. world_simpl.
  change (DT.time 59926674600000000) with (time_of_day 18 30).
  destruct (DT.time (clock w (S (S (S (ticks w))))) >? time_of_day 18 30) eqn:Hend;
    [eexists; reflexivity|].
  exfalso. destruct H as [H|[H|H]].
  - discriminate H.
  - apply Z.ltb_lt in H. congruence.
  - rewrite Z.gtb_ltb in Hend. apply Z.ltb_lt in H. congruence.
Qed.

Lemma start_business_hours_outside_witness :
  (exists k,
      start_business_hours
        (sample_world saturday_morning (policy "2" "" "" "") (sample_instance 80 5))
      = (Ok None,
         with_ticks k
           (sample_world saturday_morning (policy "2" "" "" "")
              (sample_instance 80 5))))
  /\ DT.weekday saturday_morning = 5.
Proof.
  split; [|reflexivity].
  apply (start_business_hours_outside
           (sample_world saturday_morning (policy "2" "" "" "")
              (sample_instance 80 5))).
  left. reflexivity.
Defined.

(** C6, as stated, fails at the end of the window.  At 18:30:00 sharp on a
    Wednesday the time is outside the half-open window from 06:30 to 18:30,
    yet the test of line 112 lets it pass: the stopped BusinessHours
    instance is extended by zero hours and started. *)
Lemma start_business_hours_at_the_end :
  BUSINESSDAYSOFWEEK (DT.weekday wednesday_1830) = true
  /\ DT.time wednesday_1830 = time_of_day 18 30
  /\ ~ (time_of_day 6 30 <= DT.time wednesday_1830 < time_of_day 18 30)
  /\ fst (start_business_hours
            (sample_world wednesday_1830 (policy "2" "" "" "")
               (sample_instance 80 5)))
     = Ok (Some ["i-1"%string])
  /\ calls (snd (start_business_hours
                   (sample_world wednesday_1830 (policy "2" "" "" "")
                      (sample_instance 80 5))))
     = [create_tags "i-1"
          "grp=2/user=Cheapskate/off=2026-11-04T18:30/req=2026-11-04T18:30";
        start_instances "i-1"].
Proof.
  split; [reflexivity|]. split; [reflexivity|]. split.
  - intros [_ H]. revert H. vm_compute. discriminate.
  - split; vm_compute; reflexivity.
Qed.

(** ** [__init__] reads the tag with [decode] *)

Lemma Instance_init_decodes data tags v w inst w' :
  Tags data = Some tags ->
  tag_value "cheapskate" tags = Some v ->
  Instance_init data w = (Ok inst, w') ->
  exists d, decode v = Ok d /\ heap w' !! cheapskate inst = Some d.
Proof.
  intros Htags Htag H. unfold Instance_init in H.
  rewrite Htags in H.
  unfold bind, alloc, lift, deref, store, gets, ret in H.
  cbv beta iota in H. rewrite Htag in H. world_simpl_in H.
  rewrite lookup_insert_eq in H. fold (decode v) in H.
  destruct (decode v) as [d|e]; [|discriminate H].
  world_simpl_in H.
  destruct (Dict.get _ (PRODUCTS w)); [|discriminate H].
  injection H as <- <-. exists d. split; [reflexivity|].
  world_simpl. apply lookup_insert_eq.
Qed.

(** * Further properties *)

(** ** The tag codec, continued *)

Section CodecMore.

Local Open Scope string_scope.

Lemma length_split c s : length (Str.split c s) = S (count c s).
Proof.
  induction s as [|c' s IH]; simpl; [reflexivity|].
  destruct (Ascii.eqb c' c); simpl; [rewrite IH; reflexivity|].
  destruct (Str.split c s); simpl in *; [discriminate | exact IH].
Qed.

(** An entry gives a pair exactly when it holds [=] once. *)
Lemma entry_pair a :
  (exists k v, Str.split "=" a = [k; v]) <-> count "=" a = 1%nat.
Proof.
  split.
  - intros (k & v & H). pose proof (length_split "=" a) as L.
    rewrite H in L. simpl in L. lia.
  - intros H. pose proof (length_split "=" a) as L. rewrite H in L.
    destruct (Str.split "=" a) as [|k [|v [|? ?]]]; try discriminate L.
    eauto.
Qed.

Lemma entries_outcome raw :
  (Forall (fun a => count "=" a = 1%nat) (Str.split "/" raw) ->
   exists d, entries raw = Ok d /\ all_str d)
  /\ (Exists (fun a => count "=" a <> 1%nat) (Str.split "/" raw) ->
      entries raw = Raise ValueError).
Proof.
  unfold entries.
  set (f := fun a => match Str.split "=" a with
                     | [k; v] => Ok (k, VStr v)
                     | _ => Raise ValueError
                     end).
  assert (Hf_ok : forall a, count "=" a = 1%nat ->
                            exists k v, f a = Ok (k, VStr v)).
  { intros a Ha. apply entry_pair in Ha as (k & v & Ha). exists k, v.
    unfold f. rewrite Ha. reflexivity. }
  assert (Hf_bad : forall a, count "=" a <> 1%nat -> f a = Raise ValueError).
  { intros a Ha. unfold f.
    destruct (Str.split "=" a) as [|k [|v [|? ?]]] eqn:E; try reflexivity.
    exfalso. apply Ha. apply entry_pair. eauto. }
  generalize (Str.split "/" raw). intros l. split.
  - intros Hall.
    assert (H : exists pairs, rmap_list f l = Ok pairs
                              /\ Forall (fun kv => exists s, snd kv = VStr s) pairs).
    { induction Hall as [|a l Ha _ IH]; simpl.
      - exists []. split; [reflexivity | constructor].
      - destruct (Hf_ok a Ha) as (k & v & ->). destruct IH as (pairs & -> & Hp).
        simpl. eexists. split; [reflexivity|]. constructor; [simpl; eauto | exact Hp]. }
    destruct H as (pairs & -> & Hp). simpl. eexists. split; [reflexivity|].
    unfold Dict.of_pairs, Dict.update.
    assert (G : forall acc : dict, all_str acc ->
                  all_str (fold_left (fun acc kv => Dict.set kv.1 kv.2 acc) pairs acc)).
    { induction Hp as [|[k v] pairs [s Hs] _ IH]; intros acc Hacc; simpl; [exact Hacc|].
      apply IH. simpl in Hs. subst v. clear -Hacc.
      induction Hacc as [|[k0 v0] acc H0 Hacc IH]; simpl.
      - constructor; [simpl; eauto | constructor].
      - destruct (String.eqb k0 k); constructor; simpl; eauto. }
    apply G. constructor.
  - intros Hex. induction Hex as [a l Ha | a l _ IH]; simpl.
    + rewrite (Hf_bad a Ha). reflexivity.
    + destruct (f a) as [p|e] eqn:E; simpl.
      * destruct (rmap_list f l); simpl in *; [discriminate IH | exact IH].
      * unfold f in E.
        destruct (Str.split "=" a) as [|k [|v [|? ?]]]; congruence.
Qed.

Lemma all_str_set k s (d : dict) : all_str d -> all_str (Dict.set k (VStr s) d).
Proof.
  intros Hd. induction Hd as [|[k0 v0] d H0 Hd IH]; simpl.
  - constructor; [simpl; eauto | constructor].
  - destruct (String.eqb k0 k); constructor; simpl; eauto.
Qed.

Lemma all_str_update (d e : dict) :
  all_str d -> all_str e -> all_str (Dict.update d e).
Proof.
  intros Hd He. revert d Hd. unfold Dict.update.
  induction He as [|[k v] e [s Hs] _ IH]; intros d Hd; simpl; [exact Hd|].
  simpl in Hs. subst v. apply IH, all_str_set, Hd.
Qed.

Lemma all_str_get (d : dict) k v :
  all_str d -> Dict.get k d = Some v -> exists s, v = VStr s.
Proof.
  intros Hd. induction Hd as [|[k0 v0] d H0 _ IH]; simpl; [discriminate|].
  destruct (String.eqb k0 k); [|exact IH].
  intros [= <-]. exact H0.
Qed.

Lemma get_set_present {V} k k' (v : V) d :
  (exists v0, Dict.get k d = Some v0) ->
  exists v1, Dict.get k (Dict.set k' v d) = Some v1.
Proof.
  intros [v0 H]. destruct (String.eqb k' k) eqn:E.
  - apply String.eqb_eq in E. subst k'. rewrite get_set_eq. eauto.
  - apply String.eqb_neq in E. rewrite (get_set_ne _ _ _ _ E). eauto.
Qed.

Lemma get_update_present {V} k (d e : Dict.t V) :
  (exists v0, Dict.get k d = Some v0) ->
  exists v1, Dict.get k (Dict.update d e) = Some v1.
Proof.
  unfold Dict.update. revert d.
  induction e as [|[k' v] e IH]; intros d H; simpl; [exact H|].
  apply IH, get_set_present, H.
Qed.

Lemma all_str_encodable (d : dict) : all_str d -> encodable d.
Proof.
  intros Hd. unfold encodable, encode, cheapskate_raw.
  assert (H : exists l,
             rmap_list emit_item
               (List.filter (fun '(key, _) => Dict.mem key (Dict.keys CHEAPSKATE)) d)
             = Ok l).
  { induction Hd as [|[k v] d [s Hs] _ [l IH]]; [simpl; eauto|].
    simpl in Hs. subst v. cbn [List.filter].
    destruct (Dict.mem k (Dict.keys CHEAPSKATE)); [|eauto].
    change (rmap_list emit_item ((k, VStr s) :: ?x))
      with (rbind (emit_item (k, VStr s))
              (fun y => rbind (rmap_list emit_item x) (fun ys => Ok (y :: ys)))).
    rewrite IH. simpl. eauto. }
  destruct H as [l ->]. simpl. eauto.
Qed.

Lemma lstrip_blank s : blank s = true -> Str.lstrip s = "".
Proof.
  induction s as [|c s IH]; simpl; [reflexivity|].
  intros H. apply andb_true_iff in H as [Hc Hs]. rewrite Hc. exact (IH Hs).
Qed.

(** X1.  A tag value that is empty or holds only white space leaves the
    defaults in place. *)
Theorem decode_blank tag : blank tag = true -> decode tag = Ok CHEAPSKATE.
Proof.
  intros H. unfold decode, update_from_tag, Str.strip.
  rewrite (lstrip_blank _ H). reflexivity.
Qed.

Lemma decode_blank_witness :
  decode (String (ascii_of_nat 32) (String (ascii_of_nat 9) "")) = Ok CHEAPSKATE.
Proof. apply decode_blank. reflexivity. Defined.

(** X2.  Decoding fails with no other exception than [ValueError], and it
    fails exactly when the stripped tag is not empty and one of its entries,
    the pieces between [/], does not hold [=] exactly once. *)
Theorem decode_fails_iff tag :
  (forall e, decode tag = Raise e -> e = ValueError)
  /\ (decode tag = Raise ValueError <->
      Str.strip tag <> ""
      /\ Exists (fun a => count "=" a <> 1%nat) (Str.split "/" (Str.strip tag))).
Proof.
  unfold decode, update_from_tag.
  destruct (entries_outcome (Str.strip tag)) as [Hok Hbad].
  destruct (String.eqb (Str.strip tag) "") eqn:E.
  - apply String.eqb_eq in E. split; [discriminate|].
    split; [discriminate | intros [H _]; contradiction].
  - apply String.eqb_neq in E.
    destruct (List.Forall_Exists_dec (fun a => count "=" a = 1%nat)
                (fun a => Nat.eq_dec (count "=" a) 1%nat)
                (Str.split "/" (Str.strip tag))) as [Hall | Hex].
    + destruct (Hok Hall) as (d & -> & _). simpl.
      split; [discriminate|]. split; [discriminate|].
      intros [_ Hex]. exfalso.
      apply Exists_exists in Hex as (a & Hin & Ha).
      rewrite Forall_forall in Hall. exact (Ha (Hall a Hin)).
    + rewrite (Hbad Hex). simpl. split; [congruence|].
      split; [intros _; split; assumption | reflexivity].
Qed.

(** X3.  A decoded policy holds a string under each of the four recognised
    keys and strings only: [update] and [shutdown] find their keys, and
    [save] can emit it. *)
Theorem decode_policy_keys tag d :
  decode tag = Ok d ->
  all_str d
  /\ (forall k, In k (Dict.keys CHEAPSKATE) ->
                exists s, Dict.get k d = Some (VStr s))
  /\ encodable d.
Proof.
  intros H.
  assert (Hdefault : all_str CHEAPSKATE)
    by (repeat (constructor; [simpl; eauto|]); constructor).
  assert (Hd : all_str d
               /\ forall k, In k (Dict.keys CHEAPSKATE) ->
                            exists v, Dict.get k d = Some v).
  { unfold decode, update_from_tag in H.
    destruct (String.eqb (Str.strip tag) "").
    - injection H as <-. split; [exact Hdefault|].
      intros k Hk. simpl in Hk.
      destruct Hk as [<-|[<-|[<-|[<-|[]]]]]; simpl; eauto.
    - destruct (entries_outcome (Str.strip tag)) as [Hok Hbad].
      destruct (List.Forall_Exists_dec (fun a => count "=" a = 1%nat)
                  (fun a => Nat.eq_dec (count "=" a) 1%nat)
                  (Str.split "/" (Str.strip tag))) as [Hall | Hex].
      + destruct (Hok Hall) as (e & He & Hstr). rewrite He in H. simpl in H.
        injection H as <-. split; [apply all_str_update; assumption|].
        intros k Hk. apply get_update_present. simpl in Hk.
        destruct Hk as [<-|[<-|[<-|[<-|[]]]]]; simpl; eauto.
      + rewrite (Hbad Hex) in H. discriminate H. }
  destruct Hd as [Hstr Hkeys]. split; [exact Hstr|]. split.
  - intros k Hk. destruct (Hkeys k Hk) as [v Hv].
    destruct (all_str_get _ _ _ Hstr Hv) as [s ->]. eauto.
  - apply all_str_encodable, Hstr.
Qed.

Lemma decode_policy_keys_witness :
  exists d,
    decode "grp=0/zone=a" = Ok d
    /\ Dict.get "off" d = Some (VStr "")
    /\ encodable d.
Proof.
  exists [("grp", VStr "0"); ("user", VStr ""); ("off", VStr "");
          ("req", VStr ""); ("zone", VStr "a")].
  split; [reflexivity|].
  destruct (decode_policy_keys "grp=0/zone=a" _ eq_refl) as (_ & _ & He).
  split; [reflexivity | exact He].
Defined.

(** X4.  Whatever a dictionary holds after the four recognised keys -- an
    unknown key of the tag, the keys that [as_dict] adds -- is dropped by
    the encoding: decoding what [save] emits gives the policy alone. *)
Theorem decode_encode_drops_other_keys g u o r extras :
  plain g -> plain u -> plain o -> plain r -> Str.rstrip r = r ->
  unrecognised extras ->
  rbind (encode (policy g u o r ++ extras)%list) decode = Ok (policy g u o r).
Proof.
  intros Hg Hu Ho Hr Hend Hx.
  assert (E : encode (policy g u o r ++ extras)%list = encode (policy g u o r)).
  { unfold encode, cheapskate_raw. rewrite List.filter_app.
    assert (Hnil : List.filter
                     (fun '(key, _) => Dict.mem key (Dict.keys CHEAPSKATE))
                     extras = []).
    { induction Hx as [|[k v] extras Hk _ IH]; [reflexivity|].
      cbn [List.filter]. cbn [fst] in Hk. rewrite Hk. exact IH. }
    rewrite Hnil, app_nil_r. reflexivity. }
  rewrite E, encode_policy. simpl rbind. apply decode_policy; assumption.
Qed.

Lemma decode_encode_drops_other_keys_witness :
  rbind (encode (policy "2" "bob" "" ""
                 ++ [("zone", VStr "a"); ("id", VStr "i-1");
                     ("product", VProduct (mkProduct "t2.micro.Linux" 5))])%list)
    decode
  = Ok (policy "2" "bob" "" "").
Proof.
  apply decode_encode_drops_other_keys;
    try (split; reflexivity); try reflexivity.
  repeat (constructor; [reflexivity|]). constructor.
Defined.

End CodecMore.

(** ** [__init__] and [objects] *)

Section Inventory.

Lemma Instance_init_no_tags data w :
  Tags data = None ->
  Instance_init data w = (Raise KeyError, init_world CHEAPSKATE w).
Proof.
  intros H. unfold Instance_init, bind, alloc, lift. rewrite H. reflexivity.
Qed.

Lemma Instance_init_bad_tag data tags e w :
  Tags data = Some tags -> tag_policy tags = Raise e ->
  Instance_init data w = (Raise e, init_world CHEAPSKATE w).
Proof.
  intros H Hp. unfold tag_policy in Hp.
  unfold Instance_init, bind, alloc, lift. rewrite H. cbv beta iota.
  destruct (tag_value "cheapskate" tags) as [v|]; [|discriminate Hp].
  unfold deref. world_simpl. rewrite lookup_insert_eq.
  fold (decode v). rewrite Hp. reflexivity.
Qed.

Lemma Instance_init_tags data tags d w :
  Tags data = Some tags -> tag_policy tags = Ok d ->
  Instance_init data w
  = match Dict.get (product_key_of data) (PRODUCTS w) with
    | Some p =>
        (Ok (mkInstance (InstanceId data) data (next w) (tag_name tags) p (USD p)),
         init_world d w)
    | None => (Raise KeyError, init_world d w)
    end.
Proof.
  intros H Hp. unfold tag_policy in Hp.
  unfold Instance_init, bind, alloc, lift. rewrite H. cbv beta iota.
  fold (product_key_of data). fold (tag_name tags).
  destruct (tag_value "cheapskate" tags) as [v|].
  - unfold deref, store, gets, ret. world_simpl. rewrite lookup_insert_eq.
    fold (decode v). rewrite Hp. world_simpl. rewrite insert_insert_eq.
    destruct (Dict.get _ (PRODUCTS w)); reflexivity.
  - injection Hp as <-. unfold gets, ret. world_simpl.
    destruct (Dict.get _ (PRODUCTS w)); reflexivity.
Qed.

Lemma Instance_init_inv data w i w' :
  Instance_init data w = (Ok i, w') ->
  exists tags d p,
    Tags data = Some tags /\ tag_policy tags = Ok d
    /\ Dict.get (product_key_of data) (PRODUCTS w) = Some p
    /\ i = mkInstance (InstanceId data) data (next w) (tag_name tags) p (USD p)
    /\ w' = init_world d w.
Proof.
  intros H. destruct (Tags data) as [tags|] eqn:Et.
  2:{ rewrite (Instance_init_no_tags _ _ Et) in H. discriminate H. }
  destruct (tag_policy tags) as [d|e] eqn:Ep.
  2:{ rewrite (Instance_init_bad_tag _ _ _ _ Et Ep) in H. discriminate H. }
  rewrite (Instance_init_tags _ _ _ _ Et Ep) in H.
  destruct (Dict.get _ (PRODUCTS w)) as [p|] eqn:Eg; [|discriminate H].
  injection H as <- <-. exists tags, d, p. repeat split; assumption.
Qed.

Lemma Instance_init_world data w r w' :
  Instance_init data w = (r, w') -> exists d, w' = init_world d w.
Proof.
  intros H. destruct (Tags data) as [tags|] eqn:Et.
  2:{ rewrite (Instance_init_no_tags _ _ Et) in H. injection H as _ <-. eauto. }
  destruct (tag_policy tags) as [d|e] eqn:Ep.
  2:{ rewrite (Instance_init_bad_tag _ _ _ _ Et Ep) in H.
      injection H as _ <-. eauto. }
  rewrite (Instance_init_tags _ _ _ _ Et Ep) in H.
  destruct (Dict.get _ (PRODUCTS w)); injection H as _ <-; eauto.
Qed.

Lemma Instance_init_ok_iff data w :
  (exists i w', Instance_init data w = (Ok i, w'))
  <-> constructible (PRODUCTS w) data.
Proof.
  split.
  - intros (i & w' & H).
    apply Instance_init_inv in H as (tags & d & p & Ht & Hp & Hg & _).
    exists tags, d, p. repeat split; assumption.
  - intros (tags & d & p & Ht & Hp & Hg).
    rewrite (Instance_init_tags _ _ _ _ Ht Hp), Hg. eauto.
Qed.

Lemma decode_ok_policy tag d : decode tag = Ok d -> policy_ok d.
Proof.
  intros H.
  assert (Hdefault : all_str CHEAPSKATE)
    by (repeat (constructor; [simpl; eauto|]); constructor).
  assert (Hd : all_str d
               /\ forall k, In k (Dict.keys CHEAPSKATE) ->
                            exists v, Dict.get k d = Some v).
  { unfold decode, update_from_tag in H.
    destruct (String.eqb (Str.strip tag) "").
    - injection H as <-. split; [exact Hdefault|].
      intros k Hk. simpl in Hk.
      destruct Hk as [<-|[<-|[<-|[<-|[]]]]]; simpl; eauto.
    - destruct (entries_outcome (Str.strip tag)) as [Hok Hbad].
      destruct (List.Forall_Exists_dec (fun a => count "=" a = 1%nat)
                  (fun a => Nat.eq_dec (count "=" a) 1%nat)
                  (Str.split "/" (Str.strip tag))) as [Hall | Hex].
      + destruct (Hok Hall) as (e & He & Hstr). rewrite He in H. simpl in H.
        injection H as <-. split; [apply all_str_update; assumption|].
        intros k Hk. apply get_update_present. simpl in Hk.
        destruct Hk as [<-|[<-|[<-|[<-|[]]]]]; simpl; eauto.
      + rewrite (Hbad Hex) in H. discriminate H. }
  destruct Hd as [Hstr Hkeys]. split; [exact Hstr|].
  intros k Hk. destruct (Hkeys k Hk) as [v Hv].
  destruct (all_str_get _ _ _ Hstr Hv) as [s ->]. eauto.
Qed.

Lemma tag_policy_ok tags d : tag_policy tags = Ok d -> policy_ok d.
Proof.
  unfold tag_policy. destruct (tag_value "cheapskate" tags) as [v|].
  - apply decode_ok_policy.
  - intros [= <-]. apply (decode_ok_policy ""). reflexivity.
Qed.

Lemma in_set_inv {V} k (v : V) d x :
  List.NoDup (Dict.keys d) ->
  In x (Dict.set k v d) -> x = (k, v) \/ (In x d /\ fst x <> k).
Proof.
  induction d as [|[k0 v0] d IH]; simpl; intros Hd Hin.
  - destruct Hin as [<-|[]]. left. reflexivity.
  - inversion Hd as [|? ? Hnotin Hd']; subst.
    destruct (String.eqb k0 k) eqn:E.
    + apply String.eqb_eq in E. subst k0.
      destruct Hin as [<-|Hin]; [left; reflexivity|].
      right. split; [right; exact Hin|].
      intros Hx. apply Hnotin. rewrite <- Hx. apply in_map, Hin.
    + apply String.eqb_neq in E. destruct Hin as [<-|Hin].
      * right. split; [left; reflexivity | exact E].
      * destruct (IH Hd' Hin) as [->|[Hin' Hne]];
          [left; reflexivity | right; split; [right|]; assumption].
Qed.

Lemma keys_set_in {V} k (v : V) d x :
  x = k \/ In x (Dict.keys d) -> In x (Dict.keys (Dict.set k v d)).
Proof.
  induction d as [|[k0 v0] d IH]; simpl.
  - intros [->|[]]. left. reflexivity.
  - destruct (String.eqb k0 k) eqn:E; simpl.
    + apply String.eqb_eq in E. subst k0. intros [->|[->|H]]; auto.
    + intros [->|[<-|H]]; [right; apply IH; auto | auto | right; apply IH; auto].
Qed.

Lemma build_step_run acc data w :
  build_step acc data w
  = match Instance_init data w with
    | (Ok i, w') => (Ok (Dict.set (instance_id i) i acc), w')
    | (Raise e, w') => (Raise e, w')
    end.
Proof. reflexivity. Qed.

Lemma build_objects_fold datas : build_objects datas = foldM build_step datas [].
Proof. reflexivity. Qed.

(** Building changes nothing but the store. *)
Lemma build_loop_world datas :
  forall acc w r w',
    foldM build_step datas acc w = (r, w') ->
    exists h n, w' = with_heap h n w.
Proof.
  induction datas as [|data datas IH]; intros acc w r w' H.
  - injection H as _ <-. exists (heap w), (next w). destruct w; reflexivity.
  - cbn [foldM] in H. unfold bind in H. rewrite build_step_run in H.
    destruct (Instance_init data w) as [[i|e] w1] eqn:E;
      apply Instance_init_world in E as [d ->].
    + apply IH in H as (h & n & ->). eexists _, _. reflexivity.
    + injection H as _ <-. eexists _, _. reflexivity.
Qed.

Lemma build_loop_ok_iff datas :
  forall acc w,
    (exists objs w', foldM build_step datas acc w = (Ok objs, w'))
    <-> Forall (constructible (PRODUCTS w)) datas.
Proof.
  induction datas as [|data datas IH]; intros acc w.
  - split; [constructor | intros _; eexists _, _; reflexivity].
  - cbn [foldM]. unfold bind. rewrite build_step_run. split.
    + intros (objs & w' & H).
      destruct (Instance_init data w) as [[i|e] w1] eqn:E; [|discriminate H].
      constructor; [apply Instance_init_ok_iff; eauto|].
      apply Instance_init_world in E as [d ->].
      apply (IH (Dict.set (instance_id i) i acc) (init_world d w)). eauto.
    + intros Hall. inversion Hall as [|? ? Hc Hall']; subst.
      apply Instance_init_ok_iff in Hc as (i & w1 & E). rewrite E.
      apply Instance_init_world in E as [d ->].
      apply (IH (Dict.set (instance_id i) i acc) (init_world d w)). exact Hall'.
Qed.

Lemma build_loop_inventory datas :
  forall acc w objs w',
    inventory_ok w acc ->
    foldM build_step datas acc w = (Ok objs, w') ->
    inventory_ok w' objs.
Proof.
  induction datas as [|data datas IH]; intros acc w objs w' Hinv H.
  - injection H as <- <-. exact Hinv.
  - cbn [foldM] in H. unfold bind in H. rewrite build_step_run in H.
    destruct (Instance_init data w) as [[i|e] w1] eqn:E; [|discriminate H].
    apply (IH _ _ _ _) in H; [exact H|]. clear H IH.
    apply Instance_init_inv in E as (tags & d & p & Ht & Hp & Hg & -> & ->).
    destruct Hinv as (Hnodup & Hall & Hown). cbn [instance_id].
    split; [apply keys_set_NoDup, Hnodup|]. split.
    + intros id i Hin. apply (in_set_inv _ _ _ _ Hnodup) in Hin as [[= -> ->]|[Hin _]].
      * cbn. split; [reflexivity|]. split; [reflexivity|]. split; [lia|].
        exists d. split; [apply lookup_insert_eq | exact (tag_policy_ok _ _ Hp)].
      * destruct (Hall id i Hin) as (H1 & H2 & H3 & d0 & H4 & H5).
        split; [exact H1|]. split; [exact H2|]. cbn. split; [lia|].
        exists d0. split; [|exact H5].
        rewrite lookup_insert_ne by lia. exact H4.
    + intros id i id' i' Hin Hin' Hloc.
      apply (in_set_inv _ _ _ _ Hnodup) in Hin as [[= -> ->]|[Hin _]];
        apply (in_set_inv _ _ _ _ Hnodup) in Hin' as [[= -> ->]|[Hin' _]].
      * reflexivity.
      * exfalso. destruct (Hall id' i' Hin') as (_ & _ & Hlt & _).
        cbn in Hloc. lia.
      * exfalso. destruct (Hall id i Hin) as (_ & _ & Hlt & _).
        cbn in Hloc. lia.
      * exact (Hown _ _ _ _ Hin Hin' Hloc).
Qed.

Lemma build_loop_keys datas :
  forall acc w objs w',
    foldM build_step datas acc w = (Ok objs, w') ->
    forall id,
      In id (Dict.keys objs)
      <-> In id (Dict.keys acc) \/ exists data, In data datas /\ InstanceId data = id.
Proof.
  induction datas as [|data datas IH]; intros acc w objs w' H id.
  - injection H as <- _. split; [tauto | intros [H|(? & [] & _)]; exact H].
  - cbn [foldM] in H. unfold bind in H. rewrite build_step_run in H.
    destruct (Instance_init data w) as [[i|e] w1] eqn:E; [|discriminate H].
    apply Instance_init_inv in E as (tags & d & p & _ & _ & _ & -> & ->).
    cbn [instance_id] in H. rewrite (IH _ _ _ _ H id). split.
    + intros [Hin|(data' & Hin & Hid)].
      * apply keys_set in Hin as [->|Hin]; [right; exists data; simpl; tauto | tauto].
      * right. exists data'. simpl. tauto.
    + intros [Hin|(data' & [<-|Hin] & Hid)].
      * left. apply keys_set_in. tauto.
      * left. apply keys_set_in. left. symmetry. exact Hid.
      * right. eauto.
Qed.

Lemma inventory_ok_policies w objs :
  inventory_ok w objs -> policies_stored (heap w) objs.
Proof.
  intros (_ & Hall & _) id i Hin.
  destruct (Hall id i Hin) as (_ & _ & _ & d & Hd & _ & Hkeys).
  destruct (Hkeys "grp"%string) as [grp Hgrp]; [simpl; tauto|].
  destruct (Hkeys "off"%string) as [off Hoff]; [simpl; tauto|].
  exists d, grp, off. repeat split; assumption.
Qed.

(** X5.  [objects] builds an inventory from a listing exactly when
    [__init__] can build every listed instance: one instance without tags,
    with a [cheapskate] tag that does not decode, or with a product that
    the catalog lacks, and there is no inventory at all. *)
Theorem build_objects_ok_iff datas w :
  (exists objs w', build_objects datas w = (Ok objs, w'))
  <-> Forall (constructible (PRODUCTS w)) datas.
Proof. rewrite build_objects_fold. apply build_loop_ok_iff. Qed.

(** X6.  The inventory that [objects] builds is keyed by the ids of the
    listing, each id once and with an instance of that id; every instance
    has a dictionary of its own in the store, a policy with strings under
    the recognised keys: what [shutdown_due] asks of an inventory. *)
Theorem build_objects_inventory datas w objs w' :
  build_objects datas w = (Ok objs, w') ->
  inventory_ok w' objs
  /\ policies_stored (heap w') objs
  /\ forall id, In id (Dict.keys objs)
                <-> exists data, In data datas /\ InstanceId data = id.
Proof.
  rewrite build_objects_fold. intros H.
  assert (Hinv : inventory_ok w' objs).
  { eapply build_loop_inventory; [|exact H].
    split; [constructor|]. split; [intros ? ? []|intros ? ? ? ? []]. }
  split; [exact Hinv|]. split; [apply inventory_ok_policies, Hinv|].
  intros id. rewrite (build_loop_keys _ _ _ _ _ H id). simpl. tauto.
Qed.

Lemma build_objects_inventory_witness :
  exists objs w',
    build_objects (concat sample_listing) (cold_world wednesday_evening)
    = (Ok objs, w')
    /\ Dict.keys objs = ["i-1"; "i-2"]%string
    /\ inventory_ok w' objs.
Proof.
  destruct (build_objects (concat sample_listing) (cold_world wednesday_evening))
    as [[objs|e] w'] eqn:E; [|vm_compute in E; discriminate E].
  exists objs, w'. split; [reflexivity|].
  destruct (build_objects_inventory _ _ _ _ E) as (Hinv & _ & _).
  split; [|exact Hinv].
  vm_compute in E. injection E as <- _. reflexivity.
Defined.

Lemma objects_cached w b objs :
  raw_aws w = Some b -> cls_objects w = Some objs -> objects w = (Ok objs, w).
Proof.
  intros Hb Ho. unfold objects, bind, gets, ret. rewrite Hb, Ho. reflexivity.
Qed.

(** What [objects] does when the cache entry is missing. *)
Lemma objects_fetch w :
  raw_aws w = None ->
  objects w
  = match aws w (length (calls w)) describe_instances with
    | None =>
        (Raise CalledProcessError,
         with_calls (describe_instances :: calls w) (with_cls_objects None w))
    | Some out =>
        match build_objects (concat (json_loads w out))
                (with_raw_aws (Some out)
                   (with_calls (describe_instances :: calls w)
                      (with_cls_objects None w))) with
        | (Ok objs, w') => (Ok objs, with_cls_objects (Some objs) w')
        | (Raise e, w') => (Raise e, w')
        end
    end.
Proof.
  intros Hb. unfold objects, bind, gets, modify, check_output, ret.
  rewrite Hb. world_simpl. destruct (aws w _ _); reflexivity.
Qed.

(** What [objects] does when the cache entry is there but the class has no
    inventory. *)
Lemma objects_rebuild w b :
  raw_aws w = Some b -> cls_objects w = None ->
  objects w
  = match build_objects (concat (json_loads w b)) w with
    | (Ok objs, w') => (Ok objs, with_cls_objects (Some objs) w')
    | (Raise e, w') => (Raise e, w')
    end.
Proof.
  intros Hb Ho. unfold objects, bind, gets, modify, ret. rewrite Hb, Ho.
  reflexivity.
Qed.

Lemma objects_result w objs w1 :
  objects w = (Ok objs, w1) ->
  exists b, raw_aws w1 = Some b /\ cls_objects w1 = Some objs.
Proof.
  intros H. destruct (raw_aws w) as [b|] eqn:Hb.
  - destruct (cls_objects w) as [o|] eqn:Ho.
    + rewrite (objects_cached _ _ _ Hb Ho) in H. injection H as <- <-. eauto.
    + rewrite (objects_rebuild _ _ Hb Ho) in H.
      destruct (build_objects _ w) as [[o|e] w'] eqn:E; [|discriminate H].
      injection H as <- <-. rewrite build_objects_fold in E.
      apply build_loop_world in E as (h & n & ->). exists b. split; [exact Hb|].
      reflexivity.
  - rewrite (objects_fetch _ Hb) in H.
    destruct (aws w _ _) as [out|]; [|discriminate H].
    destruct (build_objects _ _) as [[o|e] w'] eqn:E; [|discriminate H].
    injection H as <- <-. rewrite build_objects_fold in E.
    apply build_loop_world in E as (h & n & ->). exists out.
    split; reflexivity.
Qed.

(** X7.  Once [objects] has returned an inventory, calling it again returns
    the same inventory and changes nothing: no command is run and no
    instance is built, until the cache entry goes. *)
Theorem objects_again w objs w1 :
  objects w = (Ok objs, w1) -> objects w1 = (Ok objs, w1).
Proof.
  intros H. apply objects_result in H as (b & Hb & Ho).
  exact (objects_cached _ _ _ Hb Ho).
Qed.

Lemma objects_again_witness :
  exists objs w1,
    objects (cold_world wednesday_evening) = (Ok objs, w1)
    /\ calls w1 = [describe_instances]
    /\ objects w1 = (Ok objs, w1).
Proof.
  destruct (objects (cold_world wednesday_evening)) as [[objs|e] w1] eqn:E;
    [|vm_compute in E; discriminate E].
  exists objs, w1. split; [reflexivity|].
  split; [|exact (objects_again _ _ _ E)].
  vm_compute in E. injection E as _ <-. reflexivity.
Defined.

Lemma save_inv self w w1 :
  save self w = (Ok tt, w1) ->
  exists d raw,
    heap w !! cheapskate self = Some d /\ encode d = Ok raw
    /\ w1 = with_raw_aws None
              (with_calls (create_tags (instance_id self) raw :: calls w) w).
Proof.
  intros H. unfold save, bind, deref, lift, check_output, modify in H.
  destruct (heap w !! cheapskate self) as [d|]; [|discriminate H].
  destruct (cheapskate_raw d) as [raw|] eqn:Er; [|discriminate H].
  destruct (aws w _ _); [|discriminate H].
  injection H as <-. eauto.
Qed.



End Inventory.

(** ** [as_dict] and [objects_list] *)

Section AsDict.

Lemma set_same {V} k (v : V) d : Dict.get k d = Some v -> Dict.set k v d = d.
Proof.
  induction d as [|[k0 v0] d IH]; simpl; [discriminate|].
  destruct (String.eqb k0 k) eqn:E.
  - intros [= ->]. reflexivity.
  - intros H. rewrite (IH H). reflexivity.
Qed.

Lemma as_dict_run self w d launch :
  heap w !! cheapskate self = Some d ->
  DT.strptime_launch (LaunchTime (raw self)) = Ok launch ->
  as_dict self w
  = (Ok (cheapskate self),
     with_heap (<[cheapskate self := derived self launch d]> (heap w)) (next w) w).
Proof.
  intros Hd Hlaunch. unfold as_dict.
  step_set. step_set. step_set. step_set. step_lift Hlaunch.
  step_set. step_set. step_set.
  unfold ret. world_simpl. rewrite !insert_insert_eq. reflexivity.
Qed.

Lemma as_dict_inv self w l w' :
  as_dict self w = (Ok l, w') ->
  exists d launch,
    heap w !! cheapskate self = Some d
    /\ DT.strptime_launch (LaunchTime (raw self)) = Ok launch.
Proof.
  intros H. destruct (heap w !! cheapskate self) as [d|] eqn:Hd.
  2:{ unfold as_dict, setitem, bind, deref in H. rewrite Hd in H. discriminate H. }
  destruct (DT.strptime_launch (LaunchTime (raw self))) as [launch|e] eqn:Hl;
    [eauto|].
  exfalso. unfold as_dict in H. revert H.
  step_set. step_set. step_set. step_set.
  erewrite bind_raise; [discriminate|]. unfold lift. rewrite Hl. reflexivity.
Qed.

Lemma derived_again self launch d :
  derived self launch (derived self launch d) = derived self launch d.
Proof.
  unfold derived at 1.
  repeat (rewrite set_same;
          [|unfold derived; rewrite ?get_set_ne by discriminate; apply get_set_eq]).
  reflexivity.
Qed.

(** X9.  [as_dict] is idempotent: a second call returns the same dictionary
    and leaves it, and the world, as the first call left them. *)
Theorem as_dict_again self w l w1 :
  as_dict self w = (Ok l, w1) -> as_dict self w1 = (Ok l, w1).
Proof.
  intros H. destruct (as_dict_inv _ _ _ _ H) as (d & launch & Hd & Hl).
  rewrite (as_dict_run _ _ _ _ Hd Hl) in H. injection H as <- <-.
  erewrite as_dict_run; [|world_simpl; apply lookup_insert_eq | exact Hl].
  world_simpl. rewrite insert_insert_eq, derived_again. reflexivity.
Qed.

Lemma as_dict_again_witness :
  exists w1,
    as_dict (sample_instance 16 5)
      (sample_world wednesday_evening (policy "0" "bob" "" "")
         (sample_instance 16 5)) = (Ok 0%nat, w1)
    /\ as_dict (sample_instance 16 5) w1 = (Ok 0%nat, w1).
Proof.
  destruct (as_dict (sample_instance 16 5)
              (sample_world wednesday_evening (policy "0" "bob" "" "")
                 (sample_instance 16 5))) as [[l|e] w1] eqn:E;
    [|vm_compute in E; discriminate E].
  assert (l = 0%nat) as -> by (vm_compute in E; injection E as <- _; reflexivity).
  exists w1. split; [reflexivity | exact (as_dict_again _ _ _ _ E)].
Defined.

Lemma strptime_launch_error s e :
  DT.strptime_launch s = Raise e -> e = ValueError.
Proof.
  unfold DT.strptime_launch, rbind, DT.of_option.
  match goal with |- context [match ?o with Some _ => _ | None => _ end] =>
    destruct o as [[[[[[[Y m] d] H] M] Sec] f]|] end.
  - unfold DT.make. destruct (_ && _); congruence.
  - congruence.
Qed.

(** X10.  When the launch time of the instance does not parse, [as_dict]
    raises the exception of [strptime], a [ValueError], having already put
    [name], [id], [status] and [type] into the instance's dictionary. *)
Theorem as_dict_bad_launch self w d e :
  heap w !! cheapskate self = Some d ->
  DT.strptime_launch (LaunchTime (raw self)) = Raise e ->
  e = ValueError
  /\ as_dict self w
     = (Raise ValueError,
        with_heap
          (<[cheapskate self :=
               Dict.set "type" (VStr (InstanceType (raw self)))
                 (Dict.set "status" (VStr (StateName (raw self)))
                    (Dict.set "id" (VStr (instance_id self))
                       (Dict.set "name" (VStr (name self)) d)))]> (heap w))
          (next w) w).
Proof.
  intros Hd Hl. apply strptime_launch_error in Hl as He. subst e.
  split; [reflexivity|]. unfold as_dict.
  step_set. step_set. step_set. step_set.
  erewrite bind_raise; [|unfold lift; rewrite Hl; reflexivity].
  world_simpl. rewrite !insert_insert_eq. reflexivity.
Qed.

Lemma as_dict_bad_launch_witness :
  fst (as_dict
         (mkInstance "i-9" (mkInstanceData "i-9" (Some []) "t2.micro" None 16
                              "running" "2026-10-01 08:09:10")
            0%nat "" (mkProduct "t2.micro.Linux" 5) 5)
         (sample_world wednesday_evening (policy "0" "" "" "")
            (sample_instance 16 5)))
  = Raise ValueError.
Proof.
  destruct (as_dict_bad_launch
              (mkInstance "i-9"
                 (mkInstanceData "i-9" (Some []) "t2.micro" None 16
                    "running" "2026-10-01 08:09:10")
                 0%nat "" (mkProduct "t2.micro.Linux" 5) 5)
              (sample_world wednesday_evening (policy "0" "" "" "")
                 (sample_instance 16 5))
              (policy "0" "" "" "") ValueError eq_refl eq_refl) as [_ ->].
  reflexivity.
Defined.

End AsDict.

(** ** What the methods leave alone *)


Section Preserves.

Context (R : World -> World -> Prop) `{!PreOrder R}.

Lemma preserves_pure {A} (m : M A) :
  (forall w, snd (m w) = w) -> preserves R m.
Proof.
  intros Hm w r w' H. specialize (Hm w). rewrite H in Hm. simpl in Hm.
  subst w'. reflexivity.
Qed.

Lemma preserves_step {A} (m : M A) :
  (forall w, R w (snd (m w))) -> preserves R m.
Proof. intros Hm w r w' H. specialize (Hm w). rewrite H in Hm. exact Hm. Qed.

Lemma preserves_bind {A B} (m : M A) (f : A -> M B) :
  preserves R m -> (forall a, preserves R (f a)) -> preserves R (bind m f).
Proof.
  intros Hm Hf w r w' H. unfold bind in H.
  destruct (m w) as [[a|e] w1] eqn:E.
  - transitivity w1; [exact (Hm _ _ _ E) | exact (Hf _ _ _ _ H)].
  - injection H as <- <-. exact (Hm _ _ _ E).
Qed.

Lemma preserves_try {A} (body handler : M A) e :
  preserves R body -> preserves R handler ->
  preserves R (try_except body e handler).
Proof.
  intros Hb Hh w r w' H. unfold try_except in H.
  destruct (body w) as [[a|e'] w1] eqn:E.
  - injection H as <- <-. exact (Hb _ _ _ E).
  - destruct (exn_eqb e' e).
    + transitivity w1; [exact (Hb _ _ _ E) | exact (Hh _ _ _ H)].
    + injection H as <- <-. exact (Hb _ _ _ E).
Qed.

Lemma preserves_foldM {A B} (f : B -> A -> M B) l :
  (forall acc x, In x l -> preserves R (f acc x)) ->
  forall acc, preserves R (foldM f l acc).
Proof.
  induction l as [|x l IH]; intros Hf acc; simpl.
  - apply preserves_pure. reflexivity.
  - apply preserves_bind; [apply Hf; left; reflexivity|].
    intros acc'. apply IH. intros acc'' y Hy. apply Hf. right. exact Hy.
Qed.

Lemma preserves_deref l : preserves R (deref l).
Proof.
  apply preserves_pure. intros w. unfold deref.
  destruct (heap w !! l); reflexivity.
Qed.

Lemma preserves_getitem l k : preserves R (getitem l k).
Proof.
  unfold getitem. apply preserves_bind; [apply preserves_deref|].
  intros d. destruct (Dict.get k d); apply preserves_pure; reflexivity.
Qed.

Lemma preserves_lift {A} (r : result A) : preserves R (lift r).
Proof. apply preserves_pure. reflexivity. Qed.

Lemma preserves_ret {A} (a : A) : preserves R (ret a).
Proof. apply preserves_pure. reflexivity. Qed.

(** [save], given the two steps of it that change the world. *)
Lemma preserves_save self :
  (forall raw, preserves R (check_output (create_tags (instance_id self) raw))) ->
  preserves R (modify (with_raw_aws None)) ->
  preserves R (save self).
Proof.
  intros Hc Hm. unfold save.
  apply preserves_bind; [apply preserves_deref|]. intros d.
  apply preserves_bind; [apply preserves_lift|]. intros raw.
  apply preserves_bind; [apply Hc|]. intros _. exact Hm.
Qed.

(** [update], given the steps of it that change the world. *)
Lemma preserves_update self user hours sysstart :
  preserves R dt_now ->
  (forall line, preserves R (print line)) ->
  (forall k s, In k ["user"; "req"; "off"]%string ->
               preserves R (setitem (cheapskate self) k (VStr s))) ->
  preserves R (check_output (start_instances (instance_id self))) ->
  (forall raw, preserves R (check_output (create_tags (instance_id self) raw))) ->
  preserves R (modify (with_raw_aws None)) ->
  preserves R (update self user hours sysstart).
Proof.
  intros Hnow Hprint Hset Hstart Htags Hdel. unfold update.
  apply preserves_bind; [exact Hnow|]. intros now.
  apply preserves_bind; [apply preserves_lift|]. intros delta.
  apply preserves_bind; [apply preserves_lift|]. intros reqtime.
  apply preserves_bind.
  { apply preserves_try.
    - apply preserves_bind; [apply preserves_getitem|]. intros off.
      apply preserves_bind; [apply preserves_lift|]. intros offtime.
      apply preserves_ret.
    - apply preserves_bind; [apply preserves_getitem|]. intros off.
      apply preserves_bind; [apply Hprint|]. intros _. apply preserves_ret. }
  intros [|]; [apply preserves_ret|].
  apply preserves_bind; [apply Hset; simpl; auto|]. intros _.
  apply preserves_bind; [apply Hset; simpl; auto|]. intros _.
  apply preserves_bind.
  { destruct (_ && _).
    - apply preserves_bind; [exact Hnow|]. intros now'.
      apply preserves_bind; [apply preserves_lift|]. intros th.
      apply preserves_bind; [apply preserves_lift|]. intros delta'.
      apply preserves_bind; [apply preserves_lift|]. intros offtime.
      apply Hset; simpl; auto.
    - apply Hset; simpl; auto. }
  intros _. apply preserves_bind; [exact Hstart|]. intros _.
  apply preserves_bind; [apply preserves_save; assumption|]. intros _.
  apply preserves_ret.
Qed.

End Preserves.

#[local] Instance update_frame_preorder l id : PreOrder (update_frame l id).
Proof.
  split.
  - intros w. unfold update_frame. split; [reflexivity|].
    split; [eauto|]. split; [reflexivity|]. split; [reflexivity|].
    exists []. split; [reflexivity | constructor].
  - intros w1 w2 w3 (Ho1 & Hd1 & Hn1 & Hc1 & cs1 & Hcs1 & Hf1)
      (Ho2 & Hd2 & Hn2 & Hc2 & cs2 & Hcs2 & Hf2).
    split; [intros l' Hl; rewrite Ho2, Ho1 by exact Hl; reflexivity|].
    split.
    { intros d Hd. destruct (Hd1 d Hd) as (d' & Hd' & Hk1).
      destruct (Hd2 d' Hd') as (d'' & Hd'' & Hk2).
      exists d''. split; [exact Hd''|]. intros k H1 H2 H3.
      rewrite Hk2, Hk1 by assumption. reflexivity. }
    split; [congruence|]. split; [congruence|].
    exists (cs2 ++ cs1)%list. split.
    + rewrite Hcs2, Hcs1, app_assoc. reflexivity.
    + apply Forall_app. split; assumption.
Qed.

Lemma update_frame_update self user hours sysstart :
  preserves (update_frame (cheapskate self) (instance_id self))
    (update self user hours sysstart).
Proof.
  apply preserves_update; try typeclasses eauto.
  - apply preserves_step. intros w. simpl.
    split; [reflexivity|]. split; [eauto|]. split; [reflexivity|].
    split; [reflexivity|]. exists []. split; [reflexivity | constructor].
  - intros line. apply preserves_step. intros w. simpl.
    split; [reflexivity|]. split; [eauto|]. split; [reflexivity|].
    split; [reflexivity|]. exists []. split; [reflexivity | constructor].
  - intros k s Hk. apply preserves_step. intros w.
    unfold setitem, bind, deref.
    destruct (heap w !! cheapskate self) as [d|] eqn:Hd; simpl.
    + split; [intros l' Hl; apply lookup_insert_ne; congruence|].
      split.
      { intros d0 Hd0. rewrite Hd in Hd0. injection Hd0 as <-.
        eexists. split; [apply lookup_insert_eq|].
        intros k' H1 H2 H3. apply get_set_ne.
        simpl in Hk. intuition congruence. }
      split; [reflexivity|]. split; [reflexivity|].
      exists []. split; [reflexivity | constructor].
    + reflexivity.
  - apply preserves_step. intros w. unfold check_output.
    assert (H : update_frame (cheapskate self) (instance_id self) w
                  (with_calls (start_instances (instance_id self) :: calls w) w)).
    { split; [reflexivity|]. split; [eauto|]. split; [reflexivity|].
      split; [reflexivity|]. exists [start_instances (instance_id self)].
      split; [reflexivity|]. constructor; [left; reflexivity | constructor]. }
    destruct (aws w _ _); exact H.
  - intros raw. apply preserves_step. intros w. unfold check_output.
    assert (H : update_frame (cheapskate self) (instance_id self) w
                  (with_calls (create_tags (instance_id self) raw :: calls w) w)).
    { split; [reflexivity|]. split; [eauto|]. split; [reflexivity|].
      split; [reflexivity|]. exists [create_tags (instance_id self) raw].
      split; [reflexivity|]. constructor; [right; eauto | constructor]. }
    destruct (aws w _ _); exact H.
  - apply preserves_step. intros w. simpl.
    split; [reflexivity|]. split; [eauto|]. split; [reflexivity|].
    split; [reflexivity|]. exists []. split; [reflexivity | constructor].
Qed.

(** X11.  Whatever [update] returns or raises, it leaves the dictionary of
    every other instance as it was, changes in its own dictionary no key
    but [user], [req] and [off] -- never the group --, allocates nothing,
    keeps the class attribute [_objects], and runs no command but
    [start-instances] and [create-tags] for its own instance. *)
Theorem update_leaves_alone self user hours sysstart w r w' :
  update self user hours sysstart w = (r, w') ->
  (forall l, l <> cheapskate self -> heap w' !! l = heap w !! l)
  /\ (forall d, heap w !! cheapskate self = Some d ->
        exists d', heap w' !! cheapskate self = Some d'
          /\ forall k, k <> "user"%string -> k <> "req"%string ->
                       k <> "off"%string -> Dict.get k d' = Dict.get k d)
  /\ next w' = next w
  /\ cls_objects w' = cls_objects w
  /\ exists cmds,
      calls w' = (cmds ++ calls w)%list
      /\ Forall (own_command (instance_id self)) cmds.
Proof. intros H. exact (update_frame_update _ _ _ _ _ _ _ H). Qed.

Lemma update_leaves_alone_witness :
  exists r w',
    update (sample_instance_at "i-2" 1%nat 16 5) "al" 2 0
      (sample_inventory_world wednesday_evening) = (r, w')
    /\ heap w' !! 0%nat = Some (policy "1" "" "2026-11-04T10:00" "")
    /\ (exists d', heap w' !! 1%nat = Some d'
                   /\ Dict.get "grp" d' = Some (VStr "0"))
    /\ next w' = 3%nat.
Proof.
  destruct (update (sample_instance_at "i-2" 1%nat 16 5) "al" 2 0
              (sample_inventory_world wednesday_evening)) as [r w'] eqn:E.
  destruct (update_leaves_alone _ _ _ _ _ _ _ E) as (Ho & Hd & Hn & _ & _).
  exists r, w'. split; [reflexivity|]. split; [|split].
  - rewrite Ho by discriminate. reflexivity.
  - destruct (Hd (policy "0" "" "2026-11-04T10:00" "") eq_refl)
      as (d' & Hd' & Hk).
    exists d'. split; [exact Hd'|]. rewrite Hk by discriminate. reflexivity.
  - exact Hn.
Defined.

(** ** The exceptions of the methods *)

Section Exceptions.

Lemma rmap_emit_error l e :
  rmap_list emit_item l = Raise e -> e = TypeError.
Proof.
  induction l as [|[k v] l IH]; simpl; [discriminate|].
  destruct v as [s|p]; simpl; [|congruence].
  destruct (rmap_list emit_item l); simpl; [discriminate|].
  intros [= <-]. apply IH. reflexivity.
Qed.

Lemma cheapskate_raw_error d e : cheapskate_raw d = Raise e -> e = TypeError.
Proof.
  unfold cheapskate_raw.
  destruct (rmap_list emit_item _) as [l|e'] eqn:E; simpl; [discriminate|].
  intros [= <-]. exact (rmap_emit_error _ _ E).
Qed.

Lemma timedelta_hours_error h e :
  DT.timedelta_hours h = Raise e -> e = OverflowError.
Proof. unfold DT.timedelta_hours. destruct (_ <=? _); congruence. Qed.

Lemma add_error t d e : DT.add t d = Raise e -> e = OverflowError.
Proof. unfold DT.add. destruct (DT.in_range _); congruence. Qed.

Lemma true_div_error a b e : true_div a b = Raise e -> e = ZeroDivisionError.
Proof. unfold true_div. destruct (Qeq_bool _ _); congruence. Qed.

Lemma strptime_value_error v e :
  strptime_value v = Raise e -> e = ValueError \/ e = TypeError.
Proof.
  destruct v as [s|p]; simpl; [|intros [= <-]; right; reflexivity].
  intros H. left. exact (strptime_error _ _ H).
Qed.

End Exceptions.

(** Impossible outcomes of the pure steps of a run. *)
Ltac absurd_error :=
  match goal with
  | H : cheapskate_raw _ = Raise _ |- _ =>
      apply cheapskate_raw_error in H; discriminate H
  | H : DT.timedelta_hours _ = Raise _ |- _ =>
      apply timedelta_hours_error in H; discriminate H
  | H : DT.add _ _ = Raise _ |- _ => apply add_error in H; discriminate H
  | H : true_div _ _ = Raise _ |- _ => apply true_div_error in H; discriminate H
  | H : strptime_value _ = Raise _ |- _ =>
      apply strptime_value_error in H; destruct H; discriminate
  end.

(** X12.  [update] is not atomic.  When it raises [CalledProcessError], the
    provider having refused the command run last, the instance's dictionary
    already holds the new [user], [req] and [off], and the cache entry
    [raw_aws] is as it was: the inventory is not fetched anew. *)
Theorem update_refused self user hours sysstart w w' :
  update self user hours sysstart w = (Raise CalledProcessError, w') ->
  raw_aws w' = raw_aws w
  /\ (exists cmd rest,
        calls w' = cmd :: rest /\ aws w (length rest) cmd = None)
  /\ exists delta reqtime d' offtime,
      DT.timedelta_hours hours = Ok delta
      /\ DT.add (clock w (ticks w)) delta = Ok reqtime
      /\ heap w' !! cheapskate self = Some d'
      /\ Dict.get "user" d' = Some (VStr user)
      /\ Dict.get "req" d' = Some (VStr (DT.strftime reqtime))
      /\ Dict.get "off" d' = Some (VStr (DT.strftime offtime)).
Proof.
  intros H. unfold_methods_in H. world_simpl_in H. invert_run H.
  all: repeat match goal with
         | Hx : <[_:=_]> _ !! _ = Some _ |- _ => rewrite lookup_insert_eq in Hx
         end; simplify_eq.
  all: try absurd_error.
  all: world_simpl.
  all: (split; [reflexivity|]).
  all: (split; [eexists _, _; split; [reflexivity|]; eassumption|]).
  all: eexists _, _, _, _; split; [reflexivity|]; split; [eassumption|];
    rewrite lookup_insert_eq; split; [reflexivity|].
  all: (split; [rewrite !get_set_ne by discriminate; apply get_set_eq|]).
  all: (split; [rewrite get_set_ne by discriminate; apply get_set_eq|]).
  all: apply get_set_eq.
Qed.

Lemma update_refused_witness :
  exists w' d',
    update (sample_instance 16 5) "al" 2 0
      (refusing_world wednesday_evening (policy "0" "" "" "")
         (sample_instance 16 5))
    = (Raise CalledProcessError, w')
    /\ raw_aws w' = Some "{}"%string
    /\ calls w' = [start_instances "i-1"]
    /\ heap w' !! 0%nat = Some d'
    /\ Dict.get "user" d' = Some (VStr "al").
Proof.
  destruct (update (sample_instance 16 5) "al" 2 0
              (refusing_world wednesday_evening (policy "0" "" "" "")
                 (sample_instance 16 5))) as [r w'] eqn:E.
  assert (r = Raise CalledProcessError) as ->
      by (vm_compute in E; injection E as <- _; reflexivity).
  destruct (update_refused _ _ _ _ _ _ E)
    as (Hraw & _ & _ & _ & d' & _ & _ & _ & Hd' & Huser & _).
  exists w', d'. split; [reflexivity|]. split; [exact Hraw|].
  split; [vm_compute in E; injection E as <-; reflexivity|].
  split; [exact Hd' | exact Huser].
Defined.

Ltac name_error :=
  match goal with
  | H : cheapskate_raw _ = Raise _ |- _ => apply cheapskate_raw_error in H
  | H : DT.timedelta_hours _ = Raise _ |- _ => apply timedelta_hours_error in H
  | H : DT.add _ _ = Raise _ |- _ => apply add_error in H
  | H : true_div _ _ = Raise _ |- _ => apply true_div_error in H
  | H : strptime_value _ = Raise _ |- _ => apply strptime_value_error in H
  end.




(** ** [shutdown], continued *)

(** X14.  Whatever [shutdown] returns or raises, it writes no dictionary,
    allocates nothing, prints nothing and keeps [_objects]; the commands it
    runs are none, or [stop-instances], or [stop-instances] and then
    [create-tags], for its own instance; and the cache entry [raw_aws] is
    deleted only when it returns the output of the stop command. *)
Theorem shutdown_leaves_alone self w r w' :
  shutdown self w = (r, w') ->
  heap w' = heap w /\ next w' = next w /\ cls_objects w' = cls_objects w
  /\ stdout w' = stdout w
  /\ (calls w' = calls w
      \/ calls w' = stop_instances (instance_id self) :: calls w
      \/ exists raw,
          calls w' = create_tags (instance_id self) raw
                     :: stop_instances (instance_id self) :: calls w)
  /\ (raw_aws w' = raw_aws w
      \/ raw_aws w' = None /\ exists out, r = Ok (ReturnOutput out)).
Proof.
  intros H. unfold_methods_in H. world_simpl_in H. invert_run H.
  all: injection H as <- <-; world_simpl.
  all: repeat (split; [reflexivity|]).
  all: split; [eauto|]; eauto.
Qed.


Lemma shutdown_leaves_alone_witness :
  exists r w',
    shutdown (sample_instance 16 5)
      (refusing_world wednesday_evening (policy "0" "" "2026-11-04T10:00" "")
         (sample_instance 16 5)) = (r, w')
    /\ heap w' = {[0%nat := policy "0" "" "2026-11-04T10:00" ""]}
    /\ raw_aws w' = Some "{}"%string.
Proof.
  destruct (shutdown (sample_instance 16 5)
              (refusing_world wednesday_evening
                 (policy "0" "" "2026-11-04T10:00" "") (sample_instance 16 5)))
    as [r w'] eqn:E.
  destruct (shutdown_leaves_alone _ _ _ _ E) as (Hh & _ & _ & _ & _ & Hraw).
  exists r, w'. split; [reflexivity|]. split; [exact Hh|].
  destruct Hraw as [Hraw | [_ [out ->]]]; [exact Hraw|].
  vm_compute in E. discriminate E.
Defined.

(** X15.  For an instance whose dictionary holds strings under [grp] and
    [off] and can be emitted, [shutdown] raises nothing but [ValueError]
    and [CalledProcessError]; and it raises [ValueError] exactly when the
    group is 0 or 2 and the stored deadline does not parse. *)
Theorem shutdown_exceptions self w d grp off :
  heap w !! cheapskate self = Some d ->
  Dict.get "grp" d = Some (VStr grp) ->
  Dict.get "off" d = Some (VStr off) ->
  encodable d ->
  (forall e w', shutdown self w = (Raise e, w') ->
                e = ValueError \/ e = CalledProcessError)
  /\ (fst (shutdown self w) = Raise ValueError
      <-> (grp = "0"%string \/ grp = "2"%string)
          /\ DT.strptime off = Raise ValueError).
Proof.
  intros Hd Hgrp Hoff Henc. split.
  - intros e w' H. unfold_methods_in H. world_simpl_in H.
    rewrite Hd in H. cbv beta iota in H. rewrite Hgrp in H.
    cbv beta iota in H. rewrite ?Hoff in H.
    invert_run H.
    all: simplify_eq.
    all: try (right; reflexivity).
    all: try (exfalso;
              match goal with
              | H : cheapskate_raw ?x = Raise _ |- _ =>
                  destruct Henc as [raw Hraw]; unfold encode in Hraw; congruence
              end).
    all: match goal with
         | H : strptime_value (VStr _) = Raise _ |- _ =>
             simpl in H; apply strptime_error in H; left; exact H
         end.
  - split.
    + intros H. destruct (shutdown self w) as [r w'] eqn:E. simpl in H. subst r.
      unfold_methods_in E. world_simpl_in E.
      rewrite Hd in E. cbv beta iota in E. rewrite Hgrp in E.
      cbv beta iota in E. rewrite ?Hoff in E. unfold eq_str in E.
      destruct (String.eqb grp "1") eqn:E1; [discriminate E|].
      destruct (String.eqb grp "0" || String.eqb grp "2") eqn:E2;
        [|discriminate E].
      split.
      { apply orb_true_iff in E2 as [E2|E2]; apply String.eqb_eq in E2; auto. }
      cbv beta iota in E. rewrite ?Hd in E. cbv beta iota in E. rewrite ?Hoff in E.
      cbv beta iota in E. unfold strptime_value in E.
      destruct (DT.strptime off) as [t|e] eqn:Et.
      * exfalso. invert_run E; simplify_eq.
        destruct Henc as [raw Hraw]. unfold encode in Hraw.
        match goal with H : cheapskate_raw _ = Raise _ |- _ =>
          rewrite Hraw in H; discriminate H end.
      * apply strptime_error in Et as ->. reflexivity.
    + intros [Hg Ht].
      rewrite (shutdown_unparseable self w d grp Hd Hgrp (VStr off) Hg Hoff Ht).
      reflexivity.
Qed.

Lemma shutdown_exceptions_witness :
  fst (shutdown (sample_instance 16 5)
         (sample_world wednesday_evening (policy "2" "" "tomorrow" "")
            (sample_instance 16 5)))
  = Raise ValueError.
Proof.
  apply (proj2 (shutdown_exceptions (sample_instance 16 5)
                  (sample_world wednesday_evening (policy "2" "" "tomorrow" "")
                     (sample_instance 16 5))
                  (policy "2" "" "tomorrow" "") "2" "tomorrow"
                  eq_refl eq_refl eq_refl (ex_intro _ _ eq_refl))).
  split; [right; reflexivity | reflexivity].
Defined.

Lemma shutdown_unknown_group self w d grp :
  heap w !! cheapskate self = Some d ->
  Dict.get "grp" d = Some (VStr grp) ->
  grp <> "1"%string -> grp <> "0"%string -> grp <> "2"%string ->
  shutdown self w = (Ok ReturnNone, w).
Proof.
  intros Hd Hgrp H1 H0 H2. unfold shutdown. step_get. unfold eq_str.
  apply String.eqb_neq in H1, H0, H2. rewrite H1, H0, H2. reflexivity.
Qed.


(** X16.  [shutdown_due] and [shutdown] do not agree on the groups.  An
    instance that is due at a limit no later than the clock -- running,
    group other than 1, deadline passed -- is stopped by [shutdown] when
    its group is 0 or 2, the provider accepting the commands; with any
    other group [shutdown] returns [None] and does nothing, although
    [shutdown_due] lists the instance. *)
Theorem shutdown_of_due self w limit :
  is_due (heap w) limit self = true ->
  limit <= clock w (ticks w) ->
  provider_ok w ->
  (forall d, heap w !! cheapskate self = Some d -> encodable d) ->
  exists d grp,
    heap w !! cheapskate self = Some d
    /\ Dict.get "grp" d = Some (VStr grp)
    /\ (grp = "0"%string \/ grp = "2"%string ->
        exists out raw,
          encode d = Ok raw
          /\ shutdown self w
             = (Ok (ReturnOutput out),
                with_raw_aws None
                  (with_calls
                     (create_tags (instance_id self) raw
                      :: stop_instances (instance_id self) :: calls w)
                     (with_ticks (S (ticks w)) w))))
    /\ (grp <> "0"%string -> grp <> "2"%string ->
        shutdown self w = (Ok ReturnNone, w)).
Proof.
  intros Hdue Hlimit Hp Henc.
  apply is_due_iff in Hdue
    as (d & grp & off & offtime & Hd & Hgrp & Hne & Hcode & Hoff & Ht & Hlt).
  exists d, grp. split; [exact Hd|]. split; [exact Hgrp|]. split.
  - intros Hg. destruct (Henc d Hd) as [raw Hraw].
    destruct (aws w (length (calls w)) (stop_instances (instance_id self)))
      as [out|] eqn:Hstop; [|exfalso; exact (Hp _ _ Hstop)].
    destruct (aws w (S (length (calls w))) (create_tags (instance_id self) raw))
      as [out'|] eqn:Htag; [|exfalso; exact (Hp _ _ Htag)].
    exists out, raw. split; [exact Hraw|].
    eapply (shutdown_stops self w d grp Hd Hgrp); eauto. lia.
  - intros H0 H2. eapply shutdown_unknown_group; eauto.
Qed.

Lemma shutdown_of_due_witness :
  is_due {[0%nat := policy "3" "" "2026-11-04T10:00" ""]} wednesday_evening
    (sample_instance 16 5) = true
  /\ shutdown (sample_instance 16 5)
       (sample_world wednesday_evening (policy "3" "" "2026-11-04T10:00" "")
          (sample_instance 16 5))
     = (Ok ReturnNone,
        sample_world wednesday_evening (policy "3" "" "2026-11-04T10:00" "")
          (sample_instance 16 5)).
Proof.
  split; [reflexivity|].
  destruct (shutdown_of_due (sample_instance 16 5)
              (sample_world wednesday_evening
                 (policy "3" "" "2026-11-04T10:00" "") (sample_instance 16 5))
              wednesday_evening)
    as (d & grp & Hd & Hgrp & _ & Hnone).
  - reflexivity.
  - simpl. lia.
  - discriminate.
  - intros d [= <-]. eexists. reflexivity.
  - injection Hd as <-. injection Hgrp as <-.
    apply Hnone; discriminate.
Defined.


(** ** [save_all] *)

Section SaveAll.

Lemma objects_provider w r w1 :
  objects w = (r, w1) -> aws w1 = aws w.
Proof.
  intros H. destruct (raw_aws w) as [b|] eqn:Hb.
  - destruct (cls_objects w) as [o|] eqn:Ho.
    + rewrite (objects_cached _ _ _ Hb Ho) in H. injection H as _ <-.
      reflexivity.
    + rewrite (objects_rebuild _ _ Hb Ho) in H.
      destruct (build_objects _ w) as [[o|e] w'] eqn:E;
        rewrite build_objects_fold in E;
        apply build_loop_world in E as (h & n & ->);
        injection H as _ <-; reflexivity.
  - rewrite (objects_fetch _ Hb) in H.
    destruct (aws w _ _) as [out|]; [|injection H as _ <-; reflexivity].
    destruct (build_objects _ _) as [[o|e] w'] eqn:E;
      rewrite build_objects_fold in E;
      apply build_loop_world in E as (h & n & ->);
      injection H as _ <-; reflexivity.
Qed.

Lemma save_all_fold w :
  save_all w = bind objects (fun objs => foldM save_item objs tt) w.
Proof. reflexivity. Qed.

Lemma save_run self w d raw out :
  heap w !! cheapskate self = Some d -> encode d = Ok raw ->
  aws w (length (calls w)) (create_tags (instance_id self) raw) = Some out ->
  save self w
  = (Ok tt,
     with_raw_aws None
       (with_calls (create_tags (instance_id self) raw :: calls w) w)).
Proof.
  intros Hd Hraw Hout. unfold save, bind, deref, lift, check_output, modify.
  unfold encode in Hraw. rewrite Hd, Hraw, Hout. reflexivity.
Qed.

Lemma save_refused self w d raw :
  heap w !! cheapskate self = Some d -> encode d = Ok raw ->
  aws w (length (calls w)) (create_tags (instance_id self) raw) = None ->
  save self w
  = (Raise CalledProcessError,
     with_calls (create_tags (instance_id self) raw :: calls w) w).
Proof.
  intros Hd Hraw Hout. unfold save, bind, deref, lift, check_output, modify.
  unfold encode in Hraw. rewrite Hd, Hraw, Hout. reflexivity.
Qed.

Lemma tag_command_eq h i d raw :
  h !! cheapskate i = Some d -> encode d = Ok raw ->
  tag_command h i = create_tags (instance_id i) raw.
Proof. intros Hd Hraw. unfold tag_command. rewrite Hd, Hraw. reflexivity. Qed.

(** The loop of [save_all] over instances that the provider accepts. *)
Lemma save_loop h a objs :
  forall w u,
    heap w = h -> aws w = a ->
    (forall id i, In (id, i) objs ->
       exists d, h !! cheapskate i = Some d /\ encodable d) ->
    (forall n, (n < length objs)%nat ->
       forall cmd, a (length (calls w) + n)%nat cmd <> None) ->
    exists w',
      foldM save_item objs u w = (Ok tt, w')
      /\ heap w' = h /\ aws w' = a
      /\ calls w' = (tag_commands h objs ++ calls w)%list
      /\ cls_objects w' = cls_objects w
      /\ raw_aws w' = match objs with [] => raw_aws w | _ => None end.
Proof.
  induction objs as [|[id i] objs IH]; intros w u Hh Ha Hst Hp.
  - exists w. destruct u. repeat split; assumption.
  - destruct (Hst id i) as (d & Hd & raw & Hraw); [left; reflexivity|].
    destruct (a (length (calls w)) (create_tags (instance_id i) raw))
      as [out|] eqn:Hout.
    2:{ exfalso. apply (Hp 0%nat (Nat.lt_0_succ _) (create_tags (instance_id i) raw)).
        rewrite Nat.add_0_r. exact Hout. }
    cbn [foldM]. unfold bind. cbn [save_item].
    rewrite (save_run i w d raw out) by (rewrite ?Hh, ?Ha; assumption).
    destruct (IH (with_raw_aws None
                    (with_calls (create_tags (instance_id i) raw :: calls w) w))
                tt) as (w' & Hrun & Hh' & Ha' & Hc' & Ho' & Hr').
    + exact Hh.
    + exact Ha.
    + intros id' i' Hin. apply (Hst id' i'). right. exact Hin.
    + intros n Hn cmd. world_simpl. cbn [length].
      replace (S (length (calls w)) + n)%nat with (length (calls w) + S n)%nat
        by lia.
      apply Hp. simpl. lia.
    + exists w'. split; [exact Hrun|]. split; [exact Hh'|]. split; [exact Ha'|].
      split.
      { rewrite Hc'. world_simpl. unfold tag_commands. cbn [map rev snd].
        rewrite (tag_command_eq h i d raw Hd Hraw), <- app_assoc. reflexivity. }
      split; [exact Ho'|].
      rewrite Hr'. destruct objs; reflexivity.
Qed.

Lemma foldM_app {A B} (f : B -> A -> M B) l1 l2 acc w :
  foldM f (l1 ++ l2) acc w = bind (foldM f l1 acc) (foldM f l2) w.
Proof.
  revert acc w. induction l1 as [|x l1 IH]; intros acc w; [reflexivity|].
  cbn [foldM app]. unfold bind at 1.
  destruct (f acc x w) as [[acc'|e] w1] eqn:E.
  - rewrite IH. unfold bind. cbn [foldM]. unfold bind. rewrite E. reflexivity.
  - unfold bind. cbn [foldM]. unfold bind. rewrite E. reflexivity.
Qed.

(** X17.  [save_all] writes the tag of every instance of the inventory, in
    the order of the inventory, each with the value that its dictionary
    encodes to; it leaves the dictionaries as they are and, unless the
    inventory is empty, the cache entry [raw_aws] deleted. *)
Theorem save_all_writes_every_tag w objs w1 :
  objects w = (Ok objs, w1) ->
  provider_ok w ->
  (forall id i, In (id, i) objs ->
     exists d, heap w1 !! cheapskate i = Some d /\ encodable d) ->
  exists w',
    save_all w = (Ok tt, w')
    /\ heap w' = heap w1
    /\ calls w' = (tag_commands (heap w1) objs ++ calls w1)%list
    /\ cls_objects w' = Some objs
    /\ raw_aws w' = match objs with [] => raw_aws w1 | _ => None end.
Proof.
  intros Hobj Hp Hst.
  destruct (save_loop (heap w1) (aws w1) objs w1 tt eq_refl eq_refl Hst)
    as (w' & Hrun & Hh & _ & Hc & Ho & Hr).
  { intros n _ cmd. rewrite (objects_provider _ _ _ Hobj). apply Hp. }
  exists w'. rewrite save_all_fold. erewrite bind_ok by exact Hobj.
  split; [exact Hrun|]. split; [exact Hh|]. split; [exact Hc|].
  split; [|exact Hr].
  rewrite Ho. destruct (objects_result _ _ _ Hobj) as (b & _ & H). exact H.
Qed.

Lemma save_all_writes_every_tag_witness :
  exists w',
    save_all (sample_inventory_world wednesday_evening) = (Ok tt, w')
    /\ calls w'
       = [create_tags "i-3" "grp=0/user=/off=/req=";
          create_tags "i-2" "grp=0/user=/off=2026-11-04T10:00/req=";
          create_tags "i-1" "grp=1/user=/off=2026-11-04T10:00/req="]
    /\ raw_aws w' = None.
Proof.
  destruct (save_all_writes_every_tag
              (sample_inventory_world wednesday_evening) sample_inventory
              (sample_inventory_world wednesday_evening))
    as (w' & Hrun & _ & Hc & _ & Hr).
  - reflexivity.
  - discriminate.
  - intros id i [H|[H|[H|[]]]]; injection H as <- <-;
      (eexists; split; [reflexivity | eexists; reflexivity]).
  - exists w'. split; [exact Hrun|]. split; [exact Hc | exact Hr].
Defined.

(** X18.  [save_all] stops at the first tag that the provider refuses: the
    instances before it in the inventory have their tags written, the
    refused command is the last one run, the instances after it are not
    saved, and [CalledProcessError] leaves the method. *)
Theorem save_all_stops_at_refusal w pre id i post w1 :
  objects w = (Ok (pre ++ (id, i) :: post)%list, w1) ->
  (forall id' i', In (id', i') (pre ++ [(id, i)])%list ->
     exists d, heap w1 !! cheapskate i' = Some d /\ encodable d) ->
  (forall n, (n < length pre)%nat ->
     forall cmd, aws w (length (calls w1) + n)%nat cmd <> None) ->
  aws w (length (calls w1) + length pre)%nat (tag_command (heap w1) i) = None ->
  exists w',
    save_all w = (Raise CalledProcessError, w')
    /\ calls w'
       = (tag_command (heap w1) i :: tag_commands (heap w1) pre ++ calls w1)%list.
Proof.
  intros Hobj Hst Hp Hno.
  rewrite <- (objects_provider _ _ _ Hobj) in Hp, Hno.
  destruct (save_loop (heap w1) (aws w1) pre w1 tt eq_refl eq_refl)
    as (w2 & Hrun & Hh & Ha & Hc & _ & _).
  { intros id' i' Hin. apply (Hst id' i'). apply in_or_app. left. exact Hin. }
  { exact Hp. }
  destruct (Hst id i) as (d & Hd & raw & Hraw);
    [apply in_or_app; right; left; reflexivity|].
  rewrite (tag_command_eq _ _ _ _ Hd Hraw) in Hno |- *.
  eexists. rewrite save_all_fold. erewrite bind_ok by exact Hobj.
  rewrite foldM_app. erewrite bind_ok by exact Hrun.
  cbn [foldM]. unfold bind. cbn [save_item].
  rewrite (save_refused i w2 d raw).
  - split; [reflexivity|]. world_simpl. rewrite Hc. reflexivity.
  - rewrite Hh. exact Hd.
  - exact Hraw.
  - rewrite Ha, Hc, length_app. unfold tag_commands.
    rewrite length_rev, length_map, Nat.add_comm. exact Hno.
Qed.

Lemma save_all_stops_at_refusal_witness :
  exists w',
    save_all (inventory_world_refusing 1 wednesday_evening)
    = (Raise CalledProcessError, w')
    /\ calls w'
       = [create_tags "i-2" "grp=0/user=/off=2026-11-04T10:00/req=";
          create_tags "i-1" "grp=1/user=/off=2026-11-04T10:00/req="].
Proof.
  destruct (save_all_stops_at_refusal
              (inventory_world_refusing 1 wednesday_evening)
              [("i-1"%string, sample_instance_at "i-1" 0%nat 16 5)]
              "i-2"%string (sample_instance_at "i-2" 1%nat 16 5)
              [("i-3"%string, sample_instance_at "i-3" 2%nat 16 5)]
              (inventory_world_refusing 1 wednesday_evening))
    as (w' & Hrun & Hc).
  - reflexivity.
  - intros id i [H|[H|[]]]; injection H as <- <-;
      (eexists; split; [reflexivity | eexists; reflexivity]).
  - intros n Hn cmd. simpl in Hn. assert (n = 0%nat) as -> by lia. discriminate.
  - reflexivity.
  - exists w'. split; [exact Hrun | exact Hc].
Defined.

End SaveAll.


(** ** [objects_list] *)

Section ObjectsList.

Lemma same_policy_refl d : same_policy d d.
Proof. split; reflexivity. Qed.

Lemma same_policy_trans d1 d2 d3 :
  same_policy d1 d2 -> same_policy d2 d3 -> same_policy d1 d3.
Proof.
  intros [E1 K1] [E2 K2]. split; [congruence|].
  intros k Hk. rewrite K2, K1 by exact Hk. reflexivity.
Qed.

Lemma derived_same_policy self launch d : same_policy d (derived self launch d).
Proof.
  unfold derived. split.
  - unfold encode, cheapskate_raw.
    rewrite !(filter_set_other (Dict.keys CHEAPSKATE)) by reflexivity.
    reflexivity.
  - intros k Hk. rewrite !get_set_ne; [reflexivity|..]; intros <-;
      simpl in Hk; intuition discriminate.
Qed.

Lemma objects_list_fold w :
  objects_list w = bind objects (fun objs => foldM list_item objs []) w.
Proof. reflexivity. Qed.

Lemma as_dict_raises self w d e :
  heap w !! cheapskate self = Some d ->
  DT.strptime_launch (LaunchTime (raw self)) = Raise e ->
  exists w', as_dict self w = (Raise ValueError, w').
Proof.
  intros Hd Hl. apply strptime_launch_error in Hl as He. subst e.
  unfold as_dict. eexists.
  step_set. step_set. step_set. step_set.
  erewrite bind_raise; [reflexivity|]. unfold lift. rewrite Hl. reflexivity.
Qed.

Lemma list_loop objs :
  forall w acc,
    (forall id i, In (id, i) objs -> exists d, heap w !! cheapskate i = Some d) ->
    exists r w',
      foldM list_item objs acc w = (r, w')
      /\ (Forall (fun x => launch_parses (snd x)) objs ->
          r = Ok (acc ++ map (fun x => cheapskate (snd x)) objs)%list
          /\ calls w' = calls w
          /\ forall l d, heap w !! l = Some d ->
               exists d', heap w' !! l = Some d' /\ same_policy d d')
      /\ (Exists (fun x => ~ launch_parses (snd x)) objs -> r = Raise ValueError).
Proof.
  induction objs as [|[id i] objs IH]; intros w acc Hst.
  - exists (Ok acc), w. split; [reflexivity|]. split.
    + intros _. rewrite app_nil_r. split; [reflexivity|]. split; [reflexivity|].
      intros l d Hd. exists d. split; [exact Hd | apply same_policy_refl].
    + intros H. inversion H.
  - destruct (Hst id i) as [d Hd]; [left; reflexivity|].
    cbn [foldM]. unfold bind at 1. cbn [list_item]. unfold bind at 1.
    destruct (DT.strptime_launch (LaunchTime (raw i))) as [t|e] eqn:Ht.
    + rewrite (as_dict_run i w d t Hd Ht). unfold ret at 1.
      destruct (IH (with_heap (<[cheapskate i := derived i t d]> (heap w))
                      (next w) w) (acc ++ [cheapskate i])%list)
        as (r & w' & Hrun & Hok & Hbad).
      { intros id' i' Hin. world_simpl.
        destruct (decide (cheapskate i' = cheapskate i)) as [->|Hne].
        - rewrite lookup_insert_eq. eauto.
        - rewrite lookup_insert_ne by congruence. apply (Hst id' i').
          right. exact Hin. }
      exists r, w'. split; [exact Hrun|]. split.
      * intros Hall. inversion Hall as [|? ? _ Hall']; subst.
        destruct (Hok Hall') as (-> & Hc & Hh). split.
        { cbn [map snd]. rewrite <- app_assoc. reflexivity. }
        split; [exact Hc|].
        intros l d0 Hd0. world_simpl_in Hh.
        destruct (decide (l = cheapskate i)) as [->|Hne].
        -- rewrite Hd in Hd0. injection Hd0 as <-.
           destruct (Hh (cheapskate i) (derived i t d)) as (d' & Hd' & Hs);
             [apply lookup_insert_eq|].
           exists d'. split; [exact Hd'|].
           eapply same_policy_trans; [apply derived_same_policy | exact Hs].
        -- apply Hh. rewrite lookup_insert_ne by congruence. exact Hd0.
      * intros Hex. inversion Hex as [? ? Hno|? ? Hex']; subst.
        -- exfalso. apply Hno. exists t. exact Ht.
        -- apply Hbad. exact Hex'.
    + destruct (as_dict_raises i w d e Hd Ht) as [w' Hrun]. rewrite Hrun.
      exists (Raise ValueError), w'. split; [reflexivity|]. split.
      * intros Hall. inversion Hall as [|? ? [t Hp] _]; subst.
        simpl in Hp. congruence.
      * reflexivity.
Qed.

(** X19.  [objects_list] returns, in the order of the inventory, the
    [cheapskate] dictionary of each instance itself, not a copy, provided
    every launch time parses; it runs no command, and every dictionary of
    the store keeps its policy: the values under the four recognised keys
    and the tag value that [save] writes.  One launch time that does not
    parse, and the [ValueError] of [strptime] leaves the method, with no
    listing at all. *)
Theorem objects_list_dictionaries w objs w1 :
  objects w = (Ok objs, w1) ->
  (forall id i, In (id, i) objs -> exists d, heap w1 !! cheapskate i = Some d) ->
  (Forall (fun x => launch_parses (snd x)) objs ->
   exists w',
     objects_list w = (Ok (map (fun x => cheapskate (snd x)) objs), w')
     /\ calls w' = calls w1
     /\ forall l d, heap w1 !! l = Some d ->
          exists d', heap w' !! l = Some d' /\ same_policy d d')
  /\ (Exists (fun x => ~ launch_parses (snd x)) objs ->
      exists w', objects_list w = (Raise ValueError, w')).
Proof.
  intros Hobj Hst.
  destruct (list_loop objs w1 [] Hst) as (r & w' & Hrun & Hok & Hbad).
  split.
  - intros Hall. destruct (Hok Hall) as (-> & Hc & Hh).
    exists w'. rewrite objects_list_fold. erewrite bind_ok by exact Hobj.
    split; [exact Hrun|]. split; [exact Hc | exact Hh].
  - intros Hex. rewrite (Hbad Hex) in Hrun.
    exists w'. rewrite objects_list_fold. erewrite bind_ok by exact Hobj.
    exact Hrun.
Qed.

Lemma objects_list_dictionaries_witness :
  exists w',
    objects_list (sample_inventory_world wednesday_evening)
    = (Ok [0%nat; 1%nat; 2%nat], w')
    /\ exists d',
        heap w' !! 1%nat = Some d'
        /\ encode d' = Ok "grp=0/user=/off=2026-11-04T10:00/req="%string.
Proof.
  destruct (objects_list_dictionaries
              (sample_inventory_world wednesday_evening) sample_inventory
              (sample_inventory_world wednesday_evening))
    as [Hok _].
  - reflexivity.
  - intros id i [H|[H|[H|[]]]]; injection H as <- <-; eexists; reflexivity.
  - destruct Hok as (w' & Hrun & _ & Hh).
    + repeat constructor; eexists; reflexivity.
    + exists w'. split; [exact Hrun|].
      destruct (Hh 1%nat (policy "0" "" "2026-11-04T10:00" "") eq_refl)
        as (d' & Hd' & He & _).
      exists d'. split; [exact Hd'|]. rewrite He. reflexivity.
Defined.

End ObjectsList.


(** ** [start_business_hours], inside the business hours *)

Section BusinessHours.

Lemma heap_steady_refl h : heap_steady h h.
Proof. intros l d Hd. exists d. auto. Qed.

Lemma heap_steady_trans h1 h2 h3 :
  heap_steady h1 h2 -> heap_steady h2 h3 -> heap_steady h1 h3.
Proof.
  intros H1 H2 l d Hd.
  destruct (H1 l d Hd) as (d' & Hd' & Hg & He & Ho).
  destruct (H2 l d' Hd') as (d'' & Hd'' & Hg' & He' & Ho').
  exists d''. split; [exact Hd''|]. split; [congruence|]. split; auto.
Qed.

#[local] Instance steady_preorder : PreOrder steady.
Proof.
  split.
  - intros w. split; [reflexivity|]. split; [reflexivity|].
    apply heap_steady_refl.
  - intros w1 w2 w3 (Ha1 & Hc1 & Hh1) (Ha2 & Hc2 & Hh2).
    split; [congruence|]. split; [congruence|].
    eapply heap_steady_trans; eassumption.
Qed.

Lemma steady_update self user hours sysstart :
  preserves steady (update self user hours sysstart).
Proof.
  apply preserves_update; try typeclasses eauto.
  - apply preserves_step. intros w. split; [reflexivity|].
    split; [reflexivity | apply heap_steady_refl].
  - intros line. apply preserves_step. intros w. split; [reflexivity|].
    split; [reflexivity | apply heap_steady_refl].
  - intros k s Hk. apply preserves_step. intros w.
    unfold setitem, bind, deref, store.
    destruct (heap w !! cheapskate self) as [d|] eqn:Hd; cbn [snd];
      [|reflexivity].
    split; [reflexivity|]. split; [reflexivity|]. world_simpl.
    intros l d0 Hd0. destruct (decide (l = cheapskate self)) as [->|Hne].
    + rewrite Hd in Hd0. injection Hd0 as <-.
      eexists. split; [apply lookup_insert_eq|].
      split; [apply get_set_ne; simpl in Hk; intuition congruence|].
      split; [apply encodable_set|].
      intros [s0 Hs0]. destruct (String.eqb k "off") eqn:E.
      * apply String.eqb_eq in E as ->. exists s. apply get_set_eq.
      * apply String.eqb_neq in E. exists s0.
        rewrite get_set_ne by exact E. exact Hs0.
    + exists d0. rewrite lookup_insert_ne by congruence. auto.
  - apply preserves_step. intros w. unfold check_output.
    destruct (aws w _ _); (split; [reflexivity|]; split; [reflexivity|];
                           apply heap_steady_refl).
  - intros raw. apply preserves_step. intros w. unfold check_output.
    destruct (aws w _ _); (split; [reflexivity|]; split; [reflexivity|];
                           apply heap_steady_refl).
  - apply preserves_step. intros w. split; [reflexivity|].
    split; [reflexivity | apply heap_steady_refl].
Qed.

(** The hours until 18:30 that line 106 computes make a [timedelta] of
    less than a day. *)
Lemma sub_seconds_bounds a b : 0 <= DT.sub_seconds a b < 86400.
Proof.
  unfold DT.sub_seconds, DT.US_PER_DAY, DT.US_PER_SECOND.
  pose proof (Z.mod_pos_bound (a - b) 86400000000 eq_refl) as H.
  split.
  - apply Z.div_pos; lia.
  - apply Z.div_lt_upper_bound; lia.
Qed.

Lemma timedelta_of_seconds s :
  0 <= s < 86400 ->
  DT.timedelta_hours (s # 3600) = Ok (s * DT.US_PER_SECOND).
Proof.
  intros Hs. unfold DT.timedelta_hours, DT.round_half_even.
  cbn [Qmult Qnum Qden inject_Z].
  change (Z.pos (3600 * 1)) with 3600.
  unfold DT.US_PER_HOUR, DT.US_PER_SECOND, DT.US_PER_DAY.
  replace (s * 3600000000) with (s * 1000000 * 3600) by lia.
  rewrite Z_mod_mult, Z.div_mul by discriminate.
  change (2 * 0 ?= 3600) with Lt. cbv iota.
  rewrite Z.div_small by lia. reflexivity.
Qed.

Lemma add_less_than_a_day t delta :
  0 <= t < DT.MAX_US - DT.US_PER_DAY -> 0 <= delta < DT.US_PER_DAY ->
  DT.add t delta = Ok (t + delta).
Proof.
  intros Ht Hd. unfold DT.add, DT.in_range.
  replace (0 <=? t + delta) with true by (symmetry; apply Z.leb_le; lia).
  replace (t + delta <? DT.MAX_US) with true by (symmetry; apply Z.ltb_lt; lia).
  reflexivity.
Qed.

(** A system-triggered [update] returns: nothing it does raises when the
    provider accepts the commands. *)
Lemma update_system_returns self user hours w d off delta reqtime :
  heap w !! cheapskate self = Some d ->
  Dict.get "off" d = Some (VStr off) ->
  encodable d -> provider_ok w ->
  DT.timedelta_hours hours = Ok delta ->
  DT.add (clock w (ticks w)) delta = Ok reqtime ->
  exists b w', update self user hours 1 w = (Ok b, w').
Proof.
  intros Hd Hoff Henc Hp Hdelta Hreq.
  assert (Hcases : (exists t, DT.strptime off = Ok t /\ reqtime < t)
                   \/ no_later_deadline (VStr off) reqtime).
  { unfold no_later_deadline. simpl.
    destruct (DT.strptime off) as [t|e] eqn:Ht.
    - destruct (Z_lt_le_dec reqtime t); [left; eauto | right; assumption].
    - right. exact (strptime_error _ _ Ht). }
  destruct Hcases as [(t & Ht & Hlt) | Hnl].
  - eexists _, _.
    eapply (update_rejects self user hours w d (VStr off) delta reqtime);
      eauto.
  - destruct (update_uncapped self user hours w d (VStr off) delta reqtime
                Hd Hoff Hdelta Hreq 1 Hnl eq_refl)
      as (r & w' & d' & Hrun & _ & _ & Hret).
    rewrite (Hret Hp Henc) in Hrun. eauto.
Qed.

Lemma start_business_hours_fold w :
  start_business_hours w
  = (dtstart <- lift (DT.strptime_HM BUSINESSHOURSTART) ;;
     dtend <- lift (DT.strptime_HM BUSINESSHOUREND) ;;
     now <- dt_now ;;
     let hours := (DT.sub_seconds dtend now # 3600)%Q in
     today <- dt_now ;;
     if negb (BUSINESSDAYSOFWEEK (DT.weekday today)) then ret None
     else
       now <- dt_now ;;
       if DT.time now <? DT.time dtstart then ret None
       else
         now <- dt_now ;;
         if DT.time now >? DT.time dtend then ret None
         else
           objs <- objects ;;
           results <- foldM (business_item hours) objs [] ;;
           ret (Some results)) w.
Proof. reflexivity. Qed.

Lemma stopped_business_hours_test h i d grp :
  h !! cheapskate i = Some d -> Dict.get "grp" d = Some (VStr grp) ->
  negb (eq_str (VStr grp) "2") || negb (StateCode (raw i) =? 80)
  = negb (stopped_business_hours h i).
Proof.
  intros Hd Hgrp. unfold stopped_business_hours. rewrite Hd, Hgrp.
  simpl. rewrite negb_andb. reflexivity.
Qed.

Section Loop.

Variables (hours : Q) (delta : DT.timedelta) (h0 : gmap loc dict)
  (objs0 : Dict.t Instance).
Hypothesis Hdelta : DT.timedelta_hours hours = Ok delta.
Hypothesis Hday : 0 <= delta < DT.US_PER_DAY.
Hypothesis Hstored :
  forall id i, In (id, i) objs0 ->
    exists d grp off,
      h0 !! cheapskate i = Some d
      /\ Dict.get "grp" d = Some (VStr grp)
      /\ Dict.get "off" d = Some (VStr off)
      /\ encodable d.

Lemma business_loop objs :
  forall results w,
    incl objs objs0 ->
    (forall n, 0 <= clock w n < DT.MAX_US - DT.US_PER_DAY) ->
    provider_ok w ->
    heap_steady h0 (heap w) ->
    exists w',
      foldM (business_item hours) objs results w
      = (Ok (results
             ++ map fst
                  (List.filter (fun x => stopped_business_hours h0 (snd x)) objs))%list,
         w')
      /\ heap_steady h0 (heap w')
      /\ exists cmds,
          calls w' = (cmds ++ calls w)%list
          /\ Forall (fun cmd =>
                       exists id i,
                         In (id, i) objs0
                         /\ stopped_business_hours h0 i = true
                         /\ own_command (instance_id i) cmd) cmds.
Proof.
  induction objs as [|[id i] objs IH]; intros results w Hincl Hclock Hp Hh.
  - exists w. cbn [foldM List.filter map]. rewrite app_nil_r.
    split; [reflexivity|]. split; [exact Hh|].
    exists []. split; [reflexivity | constructor].
  - assert (Hin : In (id, i) objs0) by (apply Hincl; left; reflexivity).
    assert (Hincl' : incl objs objs0)
      by (intros x Hx; apply Hincl; right; exact Hx).
    destruct (Hstored id i Hin) as (d & grp & off & Hd & Hgrp & Hoff & Henc).
    destruct (Hh _ _ Hd) as (d' & Hd' & Hgrp' & Henc' & Hoff').
    rewrite Hgrp in Hgrp'. destruct Hoff' as [off' Hoff']; [eauto|].
    assert (Hitem : business_item hours results (id, i) w
                    = (if stopped_business_hours h0 i
                       then update i "Cheapskate" hours 1 ;;
                            ret (results ++ [id])%list
                       else ret results) w).
    { unfold business_item.
      erewrite bind_ok by (eapply getitem_run; eassumption).
      rewrite (stopped_business_hours_test h0 i d grp Hd Hgrp).
      destruct (stopped_business_hours h0 i); reflexivity. }
    cbn [foldM]. unfold bind at 1. rewrite Hitem.
    cbn [List.filter snd].
    destruct (stopped_business_hours h0 i) eqn:Hs.
    + destruct (update_system_returns i "Cheapskate" hours w d' off' delta
                  (clock w (ticks w) + delta))
        as (b & w1 & Hrun); try assumption.
      { apply Henc', Henc. }
      { apply add_less_than_a_day; [apply Hclock | exact Hday]. }
      destruct (steady_update _ _ _ _ _ _ _ Hrun) as (Ha & Hc & Hh1).
      destruct (update_frame_update _ _ _ _ _ _ _ Hrun)
        as (_ & _ & _ & _ & cmds1 & Hcmds1 & Hown).
      erewrite bind_ok by exact Hrun. unfold ret at 1.
      destruct (IH (results ++ [id])%list w1 Hincl') as (w' & Hloop & Hh' & cmds & Hcmds & Hall).
      * intros n. rewrite Hc. apply Hclock.
      * intros n cmd. rewrite Ha. apply Hp.
      * eapply heap_steady_trans; eassumption.
      * exists w'. split; [|split; [exact Hh'|]].
        { rewrite Hloop. cbn [map fst]. rewrite <- app_assoc. reflexivity. }
        exists (cmds ++ cmds1)%list. split.
        { rewrite Hcmds, Hcmds1, app_assoc. reflexivity. }
        apply Forall_app. split; [exact Hall|].
        eapply List.Forall_impl; [|exact Hown].
        intros cmd Hcmd. exists id, i. auto.
    + unfold ret at 1. apply IH; assumption.
Qed.

End Loop.

(** X20.  Inside the business hours of a business day
    [start_business_hours] returns, in the order of the inventory, the ids
    of the instances of group 2 that are stopped, those whose [update] is
    rejected included, provided the provider accepts the commands.  It
    changes the group of no instance, and every command it runs is a
    [start-instances] or a [create-tags] for one of the instances
    returned.  The inventory [objs] is what [objects] returns where the
    method calls it, after its four readings of the clock. *)
Theorem start_business_hours_inside w objs w1 :
  (forall n, business_time (clock w n)
             /\ 0 <= clock w n < DT.MAX_US - DT.US_PER_DAY) ->
  provider_ok w ->
  objects (with_ticks (4 + ticks w) w) = (Ok objs, w1) ->
  (forall id i, In (id, i) objs ->
     exists d grp off,
       heap w1 !! cheapskate i = Some d
       /\ Dict.get "grp" d = Some (VStr grp)
       /\ Dict.get "off" d = Some (VStr off)
       /\ encodable d) ->
  exists w',
    start_business_hours w
    = (Ok (Some (map fst
                   (List.filter
                      (fun x => stopped_business_hours (heap w1) (snd x)) objs))),
       w')
    /\ (forall l d, heap w1 !! l = Some d ->
          exists d', heap w' !! l = Some d'
                     /\ Dict.get "grp" d' = Dict.get "grp" d)
    /\ exists cmds,
        calls w' = (cmds ++ calls w1)%list
        /\ Forall (fun cmd =>
                     exists id i,
                       In (id, i) objs
                       /\ stopped_business_hours (heap w1) i = true
                       /\ own_command (instance_id i) cmd) cmds.
Proof.
  intros Hclock Hp Hobj Hst.
  destruct (keeps_clock_objects _ _ _ Hobj) as [Hc _].
  pose proof (objects_provider _ _ _ Hobj) as Ha.
  world_simpl_in Hc. world_simpl_in Ha.
  pose proof (sub_seconds_bounds 59926674600000000 (clock w (ticks w))) as Hs.
  destruct (business_loop
              (DT.sub_seconds 59926674600000000 (clock w (ticks w)) # 3600)
              (DT.sub_seconds 59926674600000000 (clock w (ticks w))
               * DT.US_PER_SECOND)
              (heap w1) objs (timedelta_of_seconds _ Hs)) with (objs := objs)
    (results := @nil string) (w := w1)
    as (w' & Hloop & Hh & Hcmds).
  - unfold DT.US_PER_SECOND, DT.US_PER_DAY. lia.
  - exact Hst.
  - intros x Hx. exact Hx.
  - intros n. rewrite Hc. apply Hclock.
  - intros n cmd. rewrite Ha. apply Hp.
  - apply heap_steady_refl.
  - exists w'. split; [|split; [|exact Hcmds]].
    + rewrite start_business_hours_fold.
      step_lift dtstart_eq. step_lift dtend_eq. step_now. step_now. world_simpl.
      destruct (Hclock (S (ticks w))) as [[Hday _] _]. rewrite Hday. cbn [negb].
      step_now. world_simpl.
      change (DT.time 59926631400000000) with (time_of_day 6 30).
      destruct (Hclock (S (S (ticks w)))) as [[_ [Hlo _]] _].
      rewrite (proj2 (Z.ltb_ge _ _) Hlo).
      step_now. world_simpl.
      change (DT.time 59926674600000000) with (time_of_day 18 30).
      destruct (Hclock (S (S (S (ticks w))))) as [[_ [_ Hhi]] _].
      rewrite Z.gtb_ltb, (proj2 (Z.ltb_ge _ _) Hhi).
      erewrite bind_ok by exact Hobj.
      erewrite bind_ok by exact Hloop. reflexivity.
    + intros l d Hd. destruct (Hh l d Hd) as (d' & Hd' & Hg & _).
      exists d'. split; assumption.
Qed.

Lemma start_business_hours_inside_witness :
  exists w',
    start_business_hours
      (sample_world wednesday_noon (policy "2" "" "" "") (sample_instance 80 5))
    = (Ok (Some ["i-1"%string]), w').
Proof.
  destruct (start_business_hours_inside
              (sample_world wednesday_noon (policy "2" "" "" "")
                 (sample_instance 80 5))
              [("i-1"%string, sample_instance 80 5)]
              (with_ticks 4
                 (sample_world wednesday_noon (policy "2" "" "" "")
                    (sample_instance 80 5))))
    as (w' & Hrun & _).
  - intros n. split; [split; [reflexivity|]|]; cbn; vm_compute;
      split; congruence.
  - discriminate.
  - reflexivity.
  - intros id i [H|[]]. injection H as <- <-.
    eexists _, _, _. split; [reflexivity|]. split; [reflexivity|].
    split; [reflexivity|]. eexists. reflexivity.
  - exists w'. exact Hrun.
Defined.

End BusinessHours.


(** ** The calendar: [strptime] reads what [strftime] writes *)

Section Calendar.

Lemma forallb_below (P : Z -> bool) (k : nat) :
  forallb P (map Z.of_nat (seq 0 k)) = true ->
  forall z, 0 <= z < Z.of_nat k -> P z = true.
Proof.
  intros H z Hz. rewrite forallb_forall in H. apply H.
  apply in_map_iff. exists (Z.to_nat z). split; [lia|].
  apply in_seq. lia.
Qed.

Lemma month_day_spec leapyear n :
  0 <= n < 365 -> month_day_ok leapyear n = true.
Proof.
  intros Hn. destruct leapyear.
  - apply (forallb_below (month_day_ok true) 365); [vm_compute; reflexivity|lia].
  - apply (forallb_below (month_day_ok false) 365); [vm_compute; reflexivity|lia].
Qed.

Lemma ord2ymd_month_day ordinal :
  let n0 := ordinal - 1 in
  let n400 := n0 / DT.DI400Y in
  let n100 := (n0 mod DT.DI400Y) / DT.DI100Y in
  let n4 := ((n0 mod DT.DI400Y) mod DT.DI100Y) / DT.DI4Y in
  let n1 := (((n0 mod DT.DI400Y) mod DT.DI100Y) mod DT.DI4Y) / 365 in
  let n := (((n0 mod DT.DI400Y) mod DT.DI100Y) mod DT.DI4Y) mod 365 in
  let year := n400 * 400 + 1 + n100 * 100 + n4 * 4 + n1 in
  DT.ord2ymd ordinal
  = if (n1 =? 4) || (n100 =? 4) then (year - 1, 12, 31)
    else
      let '(m, d) :=
        month_day ((n1 =? 3) && (negb (n4 =? 24) || (n100 =? 3))) n in
      (year, m, d).
Proof.
  intros n0 n400 n100 n4 n1 n year. unfold DT.ord2ymd, month_day.
  fold n0. fold n400. fold n100. fold n4. fold n1. fold n. fold year.
  destruct ((n1 =? 4) || (n100 =? 4)); [reflexivity|].
  cbv zeta. destruct (n <? _); reflexivity.
Qed.

Lemma days_before_year_eq n400 n100 n4 n1 :
  0 <= n100 <= 3 -> 0 <= n4 <= 24 -> 0 <= n1 <= 3 ->
  DT.days_before_year (n400 * 400 + 1 + n100 * 100 + n4 * 4 + n1)
  = 146097 * n400 + 36524 * n100 + 1461 * n4 + 365 * n1.
Proof.
  intros H100 H4 H1. unfold DT.days_before_year. cbv zeta.
  Z.div_mod_to_equations. lia.
Qed.

Lemma is_leap_eq n400 n100 n4 n1 :
  0 <= n100 <= 3 -> 0 <= n4 <= 24 -> 0 <= n1 <= 3 ->
  DT.is_leap (n400 * 400 + 1 + n100 * 100 + n4 * 4 + n1)
  = (n1 =? 3) && (negb (n4 =? 24) || (n100 =? 3)).
Proof.
  intros H100 H4 H1. unfold DT.is_leap.
  apply eq_true_iff_eq.
  rewrite !andb_true_iff, !orb_true_iff, !negb_true_iff, !Z.eqb_eq, !Z.eqb_neq.
  Z.div_mod_to_equations. lia.
Qed.

Lemma ord2ymd_spec ordinal :
  1 <= ordinal <= DT.MAXORDINAL ->
  exists y m d,
    DT.ord2ymd ordinal = (y, m, d)
    /\ 1 <= y <= 9999 /\ 1 <= m <= 12 /\ 1 <= d <= DT.days_in_month y m
    /\ DT.ymd2ord y m d = ordinal.
Proof.
  intros Ho. rewrite ord2ymd_month_day. cbv zeta.
  unfold DT.MAXORDINAL, DT.DI400Y, DT.DI100Y, DT.DI4Y in *.
  set (n0 := ordinal - 1).
  set (n400 := n0 / 146097). set (r400 := n0 mod 146097).
  set (n100 := r400 / 36524). set (r100 := r400 mod 36524).
  set (n4 := r100 / 1461). set (r4 := r100 mod 1461).
  set (n1 := r4 / 365). set (n := r4 mod 365).
  assert (H400 : n0 = 146097 * n400 + r400 /\ 0 <= r400 < 146097)
    by (subst n400 r400; split; [apply Z.div_mod; lia | apply Z.mod_pos_bound; lia]).
  assert (H100 : r400 = 36524 * n100 + r100 /\ 0 <= r100 < 36524)
    by (subst n100 r100; split; [apply Z.div_mod; lia | apply Z.mod_pos_bound; lia]).
  assert (H4 : r100 = 1461 * n4 + r4 /\ 0 <= r4 < 1461)
    by (subst n4 r4; split; [apply Z.div_mod; lia | apply Z.mod_pos_bound; lia]).
  assert (H1 : r4 = 365 * n1 + n /\ 0 <= n < 365)
    by (subst n1 n; split; [apply Z.div_mod; lia | apply Z.mod_pos_bound; lia]).
  assert (Hn0 : n0 = ordinal - 1) by reflexivity.
  clearbody n0 n400 r400 n100 r100 n4 r4 n1 n.
  unfold DT.ymd2ord, DT.days_in_month, DT.days_before_month.
  destruct ((n1 =? 4) || (n100 =? 4)) eqn:Hlast.
  - eexists _, _, _. split; [reflexivity|].
    cbn [DT.DAYS_IN_MONTH DT.DAYS_BEFORE_MONTH Z.eqb Z.ltb Z.compare Pos.compare
         Pos.compare_cont andb Pos.eqb].
    apply orb_true_iff in Hlast as [Hl|Hl]; apply Z.eqb_eq in Hl.
    + replace (n400 * 400 + 1 + n100 * 100 + n4 * 4 + n1 - 1)
        with (n400 * 400 + 1 + n100 * 100 + n4 * 4 + 3) by lia.
      rewrite days_before_year_eq, is_leap_eq by lia.
      replace (negb (n4 =? 24)) with true
        by (symmetry; apply negb_true_iff, Z.eqb_neq; lia).
      cbn [Z.eqb Pos.eqb andb orb]. lia.
    + replace (n400 * 400 + 1 + n100 * 100 + n4 * 4 + n1 - 1)
        with (n400 * 400 + 1 + 3 * 100 + 24 * 4 + 3) by lia.
      rewrite days_before_year_eq, is_leap_eq by lia.
      cbn [Z.eqb Pos.eqb andb orb negb]. lia.
  - apply orb_false_iff in Hlast as [Hl1 Hl100].
    apply Z.eqb_neq in Hl1, Hl100.
    pose proof (month_day_spec ((n1 =? 3) && (negb (n4 =? 24) || (n100 =? 3))) n
                  (proj2 H1)) as Hmd.
    unfold month_day_ok in Hmd.
    destruct (month_day _ n) as [m d].
    rewrite !andb_true_iff, !Z.leb_le, Z.eqb_eq in Hmd.
    destruct Hmd as ((((Hm1 & Hm12) & Hd1) & Hdmax) & Hsum).
    exists (n400 * 400 + 1 + n100 * 100 + n4 * 4 + n1), m, d.
    split; [reflexivity|].
    rewrite days_before_year_eq, is_leap_eq by lia.
    split; [lia|]. split; [lia|]. split; [|lia].
    split; [lia|].
    destruct ((m =? 2) && _) eqn:E; [|lia].
    apply andb_true_iff in E as [E _]. apply Z.eqb_eq in E. subst m.
    cbn [DT.DAYS_IN_MONTH] in Hdmax. cbn [Z.eqb Pos.eqb andb] in Hdmax. lia.
Qed.

Ltac enumerate z :=
  destruct z as [|z|z]; try lia;
  repeat (destruct z as [z|z|]; try lia); try reflexivity.

Lemma one_digit d r :
  0 <= d <= 9 -> DT.one "0" "9" (String (Str.digit_char d) r) = Some (d, r).
Proof. intros Hd. enumerate d. Qed.

Lemma re_Y_pad4 y r : 0 <= y <= 9999 -> DT.re_Y (DT.pad4 y ++ r)%string = Some (y, r).
Proof.
  intros Hy. unfold DT.re_Y, DT.two, DT.pad4, DT.pad2.
  change (String ?a (String ?b (String ?c (String ?d ""))) ++ r)%string
    with (String a (String b (String c (String d r)))).
  rewrite one_digit by (Z.div_mod_to_equations; lia). cbn [mbind option_bind].
  rewrite one_digit by (Z.div_mod_to_equations; lia). cbn [mbind option_bind].
  rewrite one_digit by (Z.div_mod_to_equations; lia). cbn [mbind option_bind].
  rewrite one_digit by (Z.div_mod_to_equations; lia). cbn [mbind option_bind].
  f_equal. f_equal. Z.div_mod_to_equations. lia.
Qed.

Lemma re_m_pad2 m r : 1 <= m <= 12 -> DT.re_m (DT.pad2 m ++ r)%string = Some (m, r).
Proof. intros Hm. enumerate m. Qed.

Lemma re_d_pad2 d r : 1 <= d <= 31 -> DT.re_d (DT.pad2 d ++ r)%string = Some (d, r).
Proof. intros Hd. enumerate d. Qed.

Lemma re_H_pad2 h r : 0 <= h <= 23 -> DT.re_H (DT.pad2 h ++ r)%string = Some (h, r).
Proof. intros Hh. enumerate h. Qed.

Lemma re_M_pad2 m r : 0 <= m <= 59 -> DT.re_M (DT.pad2 m ++ r)%string = Some (m, r).
Proof. intros Hm. enumerate m. Qed.

Lemma lit_app c r : DT.lit c (String c "" ++ r)%string = Some r.
Proof.
  change (String c "" ++ r)%string with (String c r).
  unfold DT.lit. rewrite Ascii.eqb_refl. reflexivity.
Qed.

Lemma days_in_month_le y m : 1 <= m <= 12 -> DT.days_in_month y m <= 31.
Proof.
  intros Hm. unfold DT.days_in_month. destruct (_ && _); [lia|].
  enumerate m; cbn; lia.
Qed.

Lemma re_M_pad2_end m : 0 <= m <= 59 -> DT.re_M (DT.pad2 m) = Some (m, ""%string).
Proof. intros Hm. exact (re_M_pad2 m ""%string Hm). Qed.

Lemma make_minutes y m d H M :
  1 <= y <= 9999 -> 1 <= m <= 12 -> 1 <= d <= DT.days_in_month y m ->
  0 <= H <= 23 -> 0 <= M <= 59 ->
  DT.make y m d H M 0 0
  = Ok ((DT.ymd2ord y m d - 1) * DT.US_PER_DAY + H * DT.US_PER_HOUR
        + M * DT.US_PER_MINUTE).
Proof.
  intros Hy Hm Hd HH HM. unfold DT.make.
  replace (_ && _) with true; [f_equal; unfold DT.US_PER_SECOND; lia|].
  symmetry. rewrite !andb_true_iff, !Z.leb_le. lia.
Qed.

(** [strptime] reads back what [strftime] writes with [DATEFORMAT]: the
    time, cut to the minute. *)
Lemma strptime_strftime t :
  DT.in_range t = true ->
  DT.strptime (DT.strftime t) = Ok (t - t mod DT.US_PER_MINUTE).
Proof.
  intros Ht. unfold DT.in_range in Ht.
  apply andb_true_iff in Ht as [Hlo Hhi].
  apply Z.leb_le in Hlo. apply Z.ltb_lt in Hhi.
  unfold DT.MAX_US, DT.MAXORDINAL, DT.US_PER_DAY in Hhi.
  destruct (ord2ymd_spec (t / DT.US_PER_DAY + 1))
    as (y & m & d & E & Hy & Hm & Hd & Hord).
  { unfold DT.MAXORDINAL, DT.US_PER_DAY. Z.div_mod_to_equations. lia. }
  pose proof (days_in_month_le y m Hm) as Hd31.
  assert (HH : 0 <= (t mod DT.US_PER_DAY) / DT.US_PER_HOUR <= 23)
    by (unfold DT.US_PER_DAY, DT.US_PER_HOUR; Z.div_mod_to_equations; lia).
  assert (HM : 0 <= ((t mod DT.US_PER_DAY) / DT.US_PER_MINUTE) mod 60 <= 59)
    by (Z.div_mod_to_equations; lia).
  unfold DT.strftime. rewrite E. cbv beta iota zeta.
  unfold DT.strptime.
  rewrite re_Y_pad4 by lia. cbn [mbind option_bind]. rewrite lit_app.
  cbn [mbind option_bind]. rewrite re_m_pad2 by lia.
  cbn [mbind option_bind]. rewrite lit_app.
  cbn [mbind option_bind]. rewrite re_d_pad2 by lia.
  cbn [mbind option_bind]. rewrite lit_app.
  cbn [mbind option_bind]. rewrite re_H_pad2 by lia.
  cbn [mbind option_bind]. rewrite lit_app.
  cbn [mbind option_bind]. rewrite re_M_pad2_end by lia.
  cbn [mbind option_bind DT.of_option rbind].
  rewrite make_minutes by lia. rewrite Hord. f_equal.
  unfold DT.US_PER_DAY, DT.US_PER_HOUR, DT.US_PER_MINUTE.
  Z.div_mod_to_equations. lia.
Qed.

Lemma add_in_range t d t' : DT.add t d = Ok t' -> DT.in_range t' = true.
Proof.
  unfold DT.add. destruct (DT.in_range (t + d)) eqn:E; [|discriminate].
  intros [= <-]. exact E.
Qed.

End Calendar.




(** ** [update] below the threshold *)



(** ** [tag_instance] and [__str__] *)

(** X23.  [tag_instance] does not delete the cache entry [raw_aws], unlike
    [save]: a tag written with it, the [cheapskate] tag included, is not
    seen by [objects], which goes on returning the inventory it has,
    without running a command. *)
Theorem tag_instance_keeps_inventory self tagName tagValue w objs w1 r w2 :
  objects w = (Ok objs, w1) ->
  tag_instance self tagName tagValue w1 = (r, w2) ->
  objects w2 = (Ok objs, w2).
Proof.
  intros Hobj Htag. destruct (objects_result _ _ _ Hobj) as (b & Hb & Ho).
  unfold tag_instance, check_output in Htag.
  assert (raw_aws w2 = Some b /\ cls_objects w2 = Some objs) as [Hb2 Ho2].
  { destruct (aws w1 _ _); injection Htag as _ <-; split; assumption. }
  exact (objects_cached _ _ _ Hb2 Ho2).
Qed.

Lemma tag_instance_keeps_inventory_witness :
  exists r w2,
    tag_instance (sample_instance 16 5) "cheapskate" "grp=2"
      (sample_world wednesday_evening (policy "0" "" "" "") (sample_instance 16 5))
    = (r, w2)
    /\ objects w2 = (Ok [("i-1"%string, sample_instance 16 5)], w2).
Proof.
  destruct (tag_instance (sample_instance 16 5) "cheapskate" "grp=2"
              (sample_world wednesday_evening (policy "0" "" "" "")
                 (sample_instance 16 5))) as [r w2] eqn:E.
  exists r, w2. split; [reflexivity|].
  exact (tag_instance_keeps_inventory (sample_instance 16 5) "cheapskate" "grp=2"
           (sample_world wednesday_evening (policy "0" "" "" "")
              (sample_instance 16 5))
           [("i-1"%string, sample_instance 16 5)]
           (sample_world wednesday_evening (policy "0" "" "" "")
              (sample_instance 16 5))
           r w2 eq_refl E).
Defined.

(** X24.  [__init__] accepts an instance without a [Name] tag and gives it
    the empty name, but [__str__] of that instance raises [IndexError];
    with a [Name] tag [__str__] shows the value of the tag as it is, while
    the name of the instance is the value stripped. *)
Theorem str_of_constructed data w self w' :
  Instance_init data w = (Ok self, w') ->
  exists tags,
    Tags data = Some tags
    /\ match tag_value "Name" tags with
       | Some v =>
           Instance_str self
           = StrOk (InstanceId data ++ " (" ++ v ++ ")")%string
           /\ name self = Str.strip v
       | None => Instance_str self = StrIndexError /\ name self = ""%string
       end.
Proof.
  intros H.
  destruct (Instance_init_inv _ _ _ _ H) as (tags & d & p & Ht & _ & _ & -> & _).
  exists tags. split; [exact Ht|].
  unfold Instance_str, tag_name. cbn [raw name]. rewrite Ht.
  destruct (tag_value "Name" tags); split; reflexivity.
Qed.

Lemma str_of_constructed_witness :
  exists i1 w1 i2 w2,
    Instance_init (tagged_data []) (cold_world wednesday_evening) = (Ok i1, w1)
    /\ Instance_str i1 = StrIndexError
    /\ Instance_init (tagged_data [("Name", " web ")]%string)
         (cold_world wednesday_evening) = (Ok i2, w2)
    /\ Instance_str i2 = StrOk "i-7 ( web )"
    /\ name i2 = "web"%string.
Proof.
  destruct (Instance_init (tagged_data []) (cold_world wednesday_evening))
    as [[i1|e] w1] eqn:E1; [|vm_compute in E1; discriminate E1].
  destruct (Instance_init (tagged_data [("Name", " web ")]%string)
              (cold_world wednesday_evening))
    as [[i2|e] w2] eqn:E2; [|vm_compute in E2; discriminate E2].
  exists i1, w1, i2, w2. split; [reflexivity|].
  destruct (str_of_constructed _ _ _ _ E1) as (tags1 & Ht1 & Hs1).
  injection Ht1 as <-.
  destruct (str_of_constructed _ _ _ _ E2) as (tags2 & Ht2 & Hs2).
  injection Ht2 as <-.
  split; [exact (proj1 Hs1)|]. split; [reflexivity|]. exact Hs2.
Defined.


(** ** [shutdown_due]: the lookahead *)

Section Lookahead.

(** Rounding to the nearest whole number, ties to the even one. *)
Lemma round_nearest q :
  let r := DT.round_half_even q in
  let n := Qnum q in
  let d := Z.pos (Qden q) in
  (2 * r - 1) * d <= 2 * n <= (2 * r + 1) * d
  /\ (2 * n = (2 * r - 1) * d -> Z.even r = true)
  /\ (2 * n = (2 * r + 1) * d -> Z.even r = true).
Proof.
  unfold DT.round_half_even. cbv zeta.
  set (n := Qnum q). set (d := Z.pos (Qden q)).
  assert (Hd : 0 < d) by (subst d; lia).
  pose proof (Z.div_mod n d ltac:(lia)) as Hn.
  pose proof (Z.mod_pos_bound n d Hd) as Hm.
  set (fl := n / d) in *. set (m := n mod d) in *.
  clearbody n d fl m.
  destruct (Z.compare_spec (2 * m) d) as [He|Hl|Hg].
  - destruct (Z.even fl) eqn:Ev.
    + split; [nia|]. split; [nia | intros _; exact Ev].
    + split; [nia|]. split; [|nia].
      intros _. rewrite Z.even_add, Ev. reflexivity.
  - split; [nia|]. split; nia.
  - split; [nia|]. split; nia.
Qed.

Lemma round_half_even_mono q1 q2 :
  (q1 <= q2)%Q -> DT.round_half_even q1 <= DT.round_half_even q2.
Proof.
  intros Hle. unfold Qle in Hle.
  destruct (round_nearest q1) as (B1 & L1 & _).
  destruct (round_nearest q2) as (B2 & _ & H2).
  cbv zeta in *.
  set (r1 := DT.round_half_even q1) in *.
  set (r2 := DT.round_half_even q2) in *.
  set (n1 := Qnum q1) in *. set (n2 := Qnum q2) in *.
  assert (Hd1 : 0 < Z.pos (Qden q1)) by lia.
  assert (Hd2 : 0 < Z.pos (Qden q2)) by lia.
  set (d1 := Z.pos (Qden q1)) in *. set (d2 := Z.pos (Qden q2)) in *.
  clearbody r1 r2 n1 n2 d1 d2.
  destruct (Z_le_gt_dec r1 r2) as [Hok|Hgt]; [exact Hok|]. exfalso.
  assert (E1 : (2 * r1 - 1) * (d1 * d2) <= 2 * (n1 * d2)) by nia.
  assert (E2 : 2 * (n2 * d1) <= (2 * r2 + 1) * (d1 * d2)) by nia.
  assert (Hp : 0 < d1 * d2) by nia.
  assert (Hr : r1 = r2 + 1) by nia.
  subst r1.
  assert (T1 : 2 * n1 = (2 * (r2 + 1) - 1) * d1) by nia.
  assert (T2 : 2 * n2 = (2 * r2 + 1) * d2) by nia.
  specialize (L1 T1). specialize (H2 T2).
  rewrite Z.even_add, H2 in L1. discriminate L1.
Qed.

Lemma timedelta_hours_mono h1 h2 d1 d2 :
  (h1 <= h2)%Q ->
  DT.timedelta_hours h1 = Ok d1 -> DT.timedelta_hours h2 = Ok d2 -> d1 <= d2.
Proof.
  intros Hle. unfold DT.timedelta_hours. cbv zeta.
  destruct (_ <=? _); [|discriminate]. destruct (_ <=? _); [|discriminate].
  intros [= <-] [= <-]. apply round_half_even_mono.
  apply Qmult_le_compat_r; [exact Hle | discriminate].
Qed.

Lemma add_value t d t' : DT.add t d = Ok t' -> t' = t + d.
Proof. unfold DT.add. destruct (DT.in_range _); congruence. Qed.

End Lookahead.


